(** * one-api-hub: site adapters, adapter registry and account manager

    A shallow embedding of the adapter layer of the extension
    ([src/adapters/*.ts]) and of the orchestration built on it
    ([src/services/AccountManager.ts], [apiService], [accountStorage]),
    followed by the properties of that code.

    Conventions of the embedding.
    - A JavaScript [number] carried by JSON data (quota, tokens, balances,
      rates) is an IEEE-754 binary64 value: Rocq's primitive [float].
      Loop counters, array lengths, HTTP status codes and epoch timestamps
      are exact integers in the source and are kept in [Z].
    - A JavaScript string is a [string]; the host functions on strings
      ([trim], [toLowerCase]) are embedded on their ASCII fragment, which
      is the fragment the site-type keys and the user input of the source
      live in.
    - [async] functions are state passing over the log of requests sent so
      far; a rejected promise or a [throw] is the [Throw] outcome.
    - An optional method of an adapter object is an [option]. *)

From Stdlib Require Import ZArith List String Ascii Bool Lia Floats.
From stdpp Require Import gmap strings.

Local Open Scope string_scope.
Local Open Scope list_scope.
Local Open Scope Z_scope.

(** ** The host: JavaScript built-ins used by the source *)

Module Js.

(** *** Strings *)

(** White space removed by [String.prototype.trim] (ASCII fragment):
    TAB, LF, VT, FF, CR and SPACE. *)
Definition is_white_space (c : ascii) : bool :=
  let n := N_of_ascii c in
  ((9 <=? n)%N && (n <=? 13)%N) || (n =? 32)%N.

Fixpoint trimStart (s : string) : string :=
  match s with
  | String c r => if is_white_space c then trimStart r else s
  | EmptyString => EmptyString
  end.

Fixpoint trimEnd (s : string) : string :=
  match s with
  | EmptyString => EmptyString
  | String c r =>
      match trimEnd r with
      | EmptyString => if is_white_space c then EmptyString else String c EmptyString
      | r' => String c r'
      end
  end.

Definition trim (s : string) : string := trimEnd (trimStart s).

(** [String.prototype.toLowerCase] (ASCII fragment): the letters A to Z. *)
Definition lower_char (c : ascii) : ascii :=
  let n := N_of_ascii c in
  if ((65 <=? n)%N && (n <=? 90)%N)%bool then ascii_of_N (n + 32) else c.

Fixpoint toLowerCase (s : string) : string :=
  match s with
  | EmptyString => EmptyString
  | String c r => String (lower_char c) (toLowerCase r)
  end.

Fixpoint startsWith (s p : string) : bool :=
  match p, s with
  | EmptyString, _ => true
  | String a p', String b s' => Ascii.eqb a b && startsWith s' p'
  | String _ _, EmptyString => false
  end.

(** [s.includes(p)] *)
Fixpoint includes (s p : string) : bool :=
  startsWith s p ||
  match s with
  | EmptyString => false
  | String _ r => includes r p
  end.

Fixpoint endsWith (s p : string) : bool :=
  String.eqb s p ||
  match s with
  | EmptyString => false
  | String _ r => endsWith r p
  end.

(** [s.replace(/\/+$/, "")] *)
Fixpoint strip_trailing_slashes (s : string) : string :=
  match s with
  | EmptyString => EmptyString
  | String c r =>
      match strip_trailing_slashes r with
      | EmptyString => if Ascii.eqb c "/" then EmptyString else String c EmptyString
      | r' => String c r'
      end
  end.

(** A string in a boolean position: only the empty string is falsy. *)
Definition truthy_string (s : string) : bool := negb (String.eqb s "").

(** [s || d] on strings *)
Definition or_string (s d : string) : string := if truthy_string s then s else d.

(** [o?.trim() || ""], [o || ""] for an optional string *)
Definition opt_string (o : option string) : string :=
  match o with Some s => s | None => "" end.

(** [arr.join(sep)] *)
Fixpoint join (sep : string) (l : list string) : string :=
  match l with
  | [] => ""
  | [x] => x
  | x :: r => x +:+ sep +:+ join sep r
  end.

(** *** Integers printed in decimal: [n.toString()] for an integral [n] *)

Definition digit_char (d : Z) : ascii := ascii_of_N (48 + Z.to_N d).

Fixpoint digits_of (fuel : nat) (n : Z) (acc : string) : string :=
  match fuel with
  | O => acc
  | S fuel' =>
      let acc' := String (digit_char (n mod 10)) acc in
      if n <? 10 then acc' else digits_of fuel' (n / 10) acc'
  end.

Definition Z_toString (n : Z) : string :=
  if n <? 0 then "-" +:+ digits_of (S (Z.to_nat (Z.log2 (- n)))) (- n) ""
  else digits_of (S (Z.to_nat (Z.log2 n))) n "".

(** *** Numbers *)

Definition number := float.
Bind Scope float_scope with number.

Definition NaN : number := PrimFloat.nan.

Definition isNaN (x : number) : bool := PrimFloat.is_nan x.

(** [Number.isFinite] *)
Definition isFinite (x : number) : bool := PrimFloat.is_finite x.

(** A number in a boolean position: [NaN], [+0] and [-0] are falsy. *)
Definition truthy (x : number) : bool :=
  negb (isNaN x) && negb (PrimFloat.is_zero x).

(** [x || d] on numbers *)
Definition or_number (x d : number) : number := if truthy x then x else d.

(** [o || d] where [o] may be [undefined] *)
Definition opt_or (o : option number) (d : number) : number :=
  match o with Some x => or_number x d | None => d end.

(** [o ?? d] *)
Definition nullish {A} (o : option A) (d : A) : A :=
  match o with Some x => x | None => d end.

(** The binary64 value of an integer (rounded to nearest even). *)
Definition of_Z (n : Z) : number :=
  SF2Prim (binary_normalize prec emax n 0 false).

(** [Math.round]: the integer nearest to [x], ties towards +infinity;
    [x] itself when it is a zero, an infinity, a [NaN] or already
    integral. A result that rounds to zero keeps the sign of [x]. *)
Definition Math_round (x : number) : number :=
  match Prim2SF x with
  | S754_finite s m e =>
      if 0 <=? e then x
      else
        let d := 2 ^ (- e) in
        let n := (2 * (if s then Z.neg m else Z.pos m) + d) / (2 * d) in
        if n =? 0 then (if s then (-0)%float else 0%float) else of_Z n
  | _ => x
  end.

(** [Math.ceil] *)
Definition Math_ceil (x : number) : number :=
  match Prim2SF x with
  | S754_finite s m e =>
      if 0 <=? e then x
      else
        let d := 2 ^ (- e) in
        let n := - ((- (if s then Z.neg m else Z.pos m)) / d) in
        if n =? 0 then (if s then (-0)%float else 0%float) else of_Z n
  | _ => x
  end.

(** *** Numeric strings: [parseFloat] and [Number]

    Both read the decimal literals of ECMAScript ([StrDecimalLiteral]);
    the value of a literal is its exact decimal value rounded to the
    nearest binary64 (ties to even), computed with the division and the
    rounding of [SpecFloat]. *)

Definition digit_value (radix : Z) (c : ascii) : option Z :=
  let n := Z.of_N (N_of_ascii c) in
  let d :=
    if (48 <=? n) && (n <=? 57) then n - 48
    else if (97 <=? n) && (n <=? 122) then n - 87
    else if (65 <=? n) && (n <=? 90) then n - 55
    else radix in
  if d <? radix then Some d else None.

(** The longest run of digits at the head of [s]: the value accumulated
    on [acc], the number of digits read added to [len], and the rest. *)
Fixpoint read_digits (radix : Z) (s : string) (acc len : Z) : Z * Z * string :=
  match s with
  | String c r =>
      match digit_value radix c with
      | Some d => read_digits radix r (radix * acc + d) (len + 1)
      | None => (acc, len, s)
      end
  | EmptyString => (acc, len, s)
  end.

(** [ExponentPart], when one stands at the head of [s]. *)
Definition read_exponent (s : string) : Z * string :=
  match s with
  | String c r =>
      if Ascii.eqb c "e" || Ascii.eqb c "E" then
        let '(neg, r1) :=
          match r with
          | String "+" r' => (false, r')
          | String "-" r' => (true, r')
          | _ => (false, r)
          end in
        let '(v, len, r2) := read_digits 10 r1 0 0 in
        if len =? 0 then (0, s) else ((if neg then - v else v), r2)
      else (0, s)
  | EmptyString => (0, s)
  end.

(** [StrUnsignedDecimalLiteral] without [Infinity]: the digits read as
    one integer, the power of ten to scale it by, and the rest. *)
Definition read_unsigned_decimal (s : string) : option (Z * Z * string) :=
  let '(i, ilen, r1) := read_digits 10 s 0 0 in
  let '(m, flen, r2) :=
    match r1 with
    | String "." r' =>
        let '(m, flen, r2) := read_digits 10 r' i 0 in
        if (ilen =? 0) && (flen =? 0) then (i, 0, r1) else (m, flen, r2)
    | _ => (i, 0, r1)
    end in
  if (ilen =? 0) && (flen =? 0) then None
  else let '(e, r3) := read_exponent r2 in Some (m, e - flen, r3).

(** [m * 10^e], rounded. *)
Definition of_decimal (m e : Z) : number :=
  if m <=? 0 then 0%float
  else if 0 <=? e then of_Z (m * 10 ^ e)
  else SF2Prim (SFdiv prec emax (S754_finite false (Z.to_pos m) 0)
                                (S754_finite false (Z.to_pos (10 ^ (- e))) 0)).

Definition read_sign (s : string) : bool * string :=
  match s with
  | String "+" r => (false, r)
  | String "-" r => (true, r)
  | _ => (false, s)
  end.

Definition signed (neg : bool) (x : number) : number :=
  if neg then (- x)%float else x.

(** [parseFloat(s)]: the longest decimal literal that starts [s] after
    its leading white space; [NaN] when there is none. *)
Definition parseFloat (s : string) : number :=
  let '(neg, r) := read_sign (trimStart s) in
  if startsWith r "Infinity" then signed neg PrimFloat.infinity
  else
    match read_unsigned_decimal r with
    | Some (m, e, _) => signed neg (of_decimal m e)
    | None => NaN
    end.

(** [Number(s)] for a string: white space trimmed, the empty string is
    0, then a whole decimal literal or a hexadecimal, octal or binary
    integer literal; [NaN] otherwise. *)
Definition read_radix_literal (s : string) : option number :=
  match s with
  | String "0" (String c r) =>
      let radix :=
        if Ascii.eqb c "x" || Ascii.eqb c "X" then 16
        else if Ascii.eqb c "o" || Ascii.eqb c "O" then 8
        else if Ascii.eqb c "b" || Ascii.eqb c "B" then 2
        else 0 in
      if radix =? 0 then None
      else
        match read_digits radix r 0 0 with
        | (v, len, EmptyString) => if len =? 0 then Some NaN else Some (of_Z v)
        | _ => Some NaN
        end
  | _ => None
  end.

Definition Number (s : string) : number :=
  let t := trim s in
  if String.eqb t "" then 0%float
  else
    match read_radix_literal t with
    | Some x => x
    | None =>
        let '(neg, r) := read_sign t in
        if String.eqb r "Infinity" then signed neg PrimFloat.infinity
        else
          match read_unsigned_decimal r with
          | Some (m, e, EmptyString) => signed neg (of_decimal m e)
          | _ => NaN
          end
    end.

End Js.

Export Js (number).
Bind Scope float_scope with number.

#[local] Set Warnings "-inexact-float".

(** ** Errors, outcomes and asynchronous computations *)

(** What a [throw] or a rejected promise carries. The source tells the
    classes apart with [instanceof]; a thrown value that is no [Error]
    keeps only its [message] property, if it has one. *)
Inductive JsError :=
| ApiError (message : string) (statusCode : option Z) (endpoint : option string)
| TypeError (message : string)
| PlainError (message : string)
| AdapterRegistrationError (message : string)
| NotSupportedError (message : string)
| NonError (message : option string).

(** [error.message] of an [Error] instance *)
Definition error_message (e : JsError) : option string :=
  match e with
  | ApiError m _ _ | TypeError m | PlainError m
  | AdapterRegistrationError m | NotSupportedError m => Some m
  | NonError _ => None
  end.

(** [error instanceof Error ? error.message : "未知错误"] *)
Definition message_or_unknown (e : JsError) : string :=
  match error_message e with Some m => m | None => "未知错误" end.

Inductive Outcome (A : Type) :=
| Return (a : A)
| Throw (e : JsError).
Arguments Return {A} a.
Arguments Throw {A} e.

(** A computation over a state [S] that returns or throws. *)
Definition ST (S A : Type) : Type := S -> Outcome A * S.

Definition ret {S A} (a : A) : ST S A := fun s => (Return a, s).

Definition throw {S A} (e : JsError) : ST S A := fun s => (Throw e, s).

Definition bind {S A B} (c : ST S A) (k : A -> ST S B) : ST S B :=
  fun s =>
    match c s with
    | (Return a, s') => k a s'
    | (Throw e, s') => (Throw e, s')
    end.

(** [try { c } catch (e) { handler e }] *)
Definition try_catch {S A} (c : ST S A) (handler : JsError -> ST S A) : ST S A :=
  fun s =>
    match c s with
    | (Return a, s') => (Return a, s')
    | (Throw e, s') => handler e s'
    end.

Declare Scope st_scope.
Delimit Scope st_scope with st.
Notation "x <- c ;; k" := (bind c (fun x => k))
  (at level 20, c at level 99, k at level 200, only parsing) : st_scope.
Notation "' pat <- c ;; k" := (bind c (fun x => match x with pat => k end))
  (at level 20, pat pattern, c at level 99, k at level 200, only parsing) : st_scope.
Notation "'do' c ;; k" := (bind c (fun _ => k))
  (at level 20, c at level 99, k at level 200, only parsing) : st_scope.
Local Open Scope st_scope.

(** Reading and writing the state. *)
Definition get {S} : ST S S := fun s => (Return s, s).
Definition put {S} (s : S) : ST S unit := fun _ => (Return tt, s).

(** [Promise.all([p, q])] of two started operations. Both run; when both
    reject, the promise rejects with the reason of the one that settled
    first, which the scheduler decides ([second_first]). The requests of
    [p] are logged before those of [q]. *)
Definition Promise_all2 {S A B} (second_first : bool) (p : ST S A) (q : ST S B)
  : ST S (A * B) :=
  fun s =>
    let '(ra, s1) := p s in
    let '(rb, s2) := q s1 in
    match ra, rb with
    | Return a, Return b => (Return (a, b), s2)
    | Throw e, Return _ => (Throw e, s2)
    | Return _, Throw e => (Throw e, s2)
    | Throw e1, Throw e2 => (Throw (if second_first then e2 else e1), s2)
    end.

(** ** The network *)

Inductive RequestCredentials := include | omit | same_origin.

(** [RequestInit]: the two user headers carry [userId.toString()], the
    [Authorization] header carries the bearer token. *)
Record RequestInit := {
  method : string;
  user_headers : option number;
  authorization : option string;
  credentials : RequestCredentials
}.

(** A message to the background page, [chrome.runtime.sendMessage]. *)
Record RuntimeMessage := {
  action : string;
  url : string;
  fetchUrl : option string;
  requestId : string
}.

Inductive Request :=
| Fetch (input : string) (init : RequestInit)
| SendMessage (msg : RuntimeMessage).

(** Everything sent so far, oldest first. *)
Definition History := list Request.

Definition Async (A : Type) : Type := ST History A.

(** What [fetch] gives for a body the caller reads at type [T]: the promise
    rejects, or a response arrives whose [json()] returns or rejects. *)
Inductive HttpReply (T : Type) :=
| Rejected (e : JsError)
| Response (status : Z) (json : Outcome T).
Arguments Rejected {T} e.
Arguments Response {T} status json.

(** [response.ok] *)
Definition ok_status (status : Z) : bool := (200 <=? status) && (status <=? 299).

(** What [sendMessage] resolves to; [None] is [undefined]. *)
Record PageResponse (T : Type) := {
  pr_success : bool;
  pr_data : option T;
  pr_error : option string
}.
Arguments pr_success {T} _.
Arguments pr_data {T} _.
Arguments pr_error {T} _.

Inductive MessageReply (T : Type) :=
| MessageRejected (e : JsError)
| MessageResponse (r : option (PageResponse T)).
Arguments MessageRejected {T} e.
Arguments MessageResponse {T} r.

(** ** Data model ([src/adapters/types.ts], [src/types], [apiService]) *)

Inductive AdapterCapability :=
| AUTO_DETECT | BALANCE | USAGE_STATS | TOKEN_MANAGEMENT | MODEL_LIST | MODEL_PRICING.

#[global] Instance AdapterCapability_eq_dec : EqDecision AdapterCapability.
Proof. solve_decision. Defined.

(** [caps.includes(cap)] *)
Definition has_capability (caps : list AdapterCapability) (cap : AdapterCapability) : bool :=
  bool_decide (cap ∈ caps).

Inductive SiteAuth :=
| one_api_token (userId : number) (accessToken : string)
| api_key (apiKey : string)
| cookie (userId : option number).

(** [auth.kind] *)
Definition kind (a : SiteAuth) : string :=
  match a with
  | one_api_token _ _ => "one-api-token"
  | api_key _ => "api-key"
  | cookie _ => "cookie"
  end.

(** [adapterConfig], [adapter_config]: an open bag this layer only copies. *)
Definition AdapterConfig := list (string * string).

Record SiteCredentials := {
  siteUrl : string;
  auth : SiteAuth;
  adapterConfig : option AdapterConfig
}.

(** [ValidateResult.details] is [any]; the manager reads
    [details?.username] and [details?.user?.username]. *)
Record ValidateDetails := {
  details_username : option string;
  details_user_username : option string
}.

Record ValidateResult := {
  ok : bool;
  vr_message : option string;
  details : option ValidateDetails
}.

Record BalanceInfo := {
  rawBalance : number;
  bal_rawUnit : string;
  bal_conversionFactor : option number;
  balanceUSD : option number
}.

Record UsageStats := {
  rawConsumption : number;
  use_rawUnit : string;
  use_conversionFactor : option number;
  promptTokens : option number;
  completionTokens : option number;
  requestCount : option number
}.

Record TimeRange := { range_start : Z; range_end : Z }.

Record BalanceDescriptor := { rawUnit : string; conversionFactor : number }.

Record SiteAdapterMetadata := {
  id : string;
  name : string;
  version : string;
  supportedSiteTypes : list string;
  capabilities : list AdapterCapability;
  balance : option BalanceDescriptor
}.

(** [SiteStatusInfo]: the fields either adapter reads or writes. *)
Record SiteStatusInfo := {
  price : option number;
  stripe_unit_price : option number;
  PaymentUSDRate : option number;
  detected : option bool;
  host : option string
}.

(** The One API wire format *)
Record ApiResponse (T : Type) := {
  ar_success : bool;
  ar_data : option T;
  ar_message : option string
}.
Arguments ar_success {T} _.
Arguments ar_data {T} _.
Arguments ar_message {T} _.

(** The body of [/api/user/self] as [fetchUserInfo] and
    [fetchAccountQuota] read it. *)
Record UserSelf := {
  self_id : number;
  self_username : string;
  self_access_token : option string;
  self_quota : option number
}.

Record UserInfo := {
  ui_id : number;
  ui_username : string;
  ui_access_token : option string
}.

Record AccessTokenInfo := {
  ati_username : string;
  access_token : string
}.

Record LogItem := {
  quota : option number;
  prompt_tokens : option number;
  completion_tokens : option number;
  token_name : option string
}.

Record LogResponseData := {
  items : option (list LogItem);
  total : option number
}.

Record TodayUsageData := {
  today_quota_consumption : number;
  today_prompt_tokens : number;
  today_completion_tokens : number;
  today_requests_count : number
}.

Inductive SiteHealthStatus := healthy | warning | error | unknown.

Record HealthCheckResult := {
  status : SiteHealthStatus;
  hc_message : string
}.

(** The Cubence wire format *)
Record CubenceUser := { cu_username : option string }.

Record CubenceBalance := {
  total_balance : option number;
  total_balance_dollar : option number
}.

Record CubenceOverviewData := {
  co_user : option CubenceUser;
  co_balance : option CubenceBalance
}.

Record CubenceOverviewResponse := {
  co_success : bool;
  co_data : option CubenceOverviewData
}.

(** [code?: number | string] *)
Inductive CodeValue := code_number (n : Z) | code_string (s : string).

Record CubenceAnalyticsData := {
  today_consumed_quota : option number;
  today_request_count : option number;
  today_tokens : option number
}.

Record CubenceAnalyticsTodayResponse := {
  code : option CodeValue;
  ca_message : option string;
  ca_data : option CubenceAnalyticsData
}.

(** The answer of the background page to [autoDetectSite]; the user id
    comes back as a number or as a string. *)
Inductive UserIdValue := id_number (n : Z) | id_string (s : string).

Record AutoDetectSiteData := { detected_userId : option UserIdValue }.

(** The remote side: the reply to each request, given everything sent
    before it, read at the type the calling function declares. *)
Record Server := {
  api_user_self : History -> string -> RequestInit -> HttpReply (ApiResponse UserSelf);
  api_user_token : History -> string -> RequestInit -> HttpReply (ApiResponse string);
  api_log_self : History -> string -> RequestInit -> HttpReply (ApiResponse LogResponseData);
  api_status : History -> string -> RequestInit -> HttpReply (ApiResponse SiteStatusInfo);
  cubence_overview :
    History -> string -> RequestInit -> HttpReply (option CubenceOverviewResponse);
  cubence_analytics_today :
    History -> string -> RequestInit -> HttpReply (option CubenceAnalyticsTodayResponse);
  page_overview : History -> RuntimeMessage -> MessageReply CubenceOverviewResponse;
  page_analytics_today :
    History -> RuntimeMessage -> MessageReply CubenceAnalyticsTodayResponse;
  page_auto_detect : History -> RuntimeMessage -> MessageReply AutoDetectSiteData
}.

(** The host at the time of a call: the clock, the local calendar day,
    the random suffix of generated ids, the URL parser, and which of two
    concurrent operations settles first. *)
Record Host := {
  Date_now : Z;
  today : TimeRange;
  random_suffix : string;
  URL_href : string -> string -> option string;
  URL_hostname : string -> option string;
  second_settles_first : bool
}.

(** Persisted accounts ([src/types]) *)
Inductive AccountId := account_id_number (n : number) | account_id_string (s : string).

Record AccountInfo := {
  ai_id : option AccountId;
  ai_access_token : option string;
  ai_api_key : option string;
  ai_username : option string;
  ai_quota : number;
  ai_today_prompt_tokens : number;
  ai_today_completion_tokens : number;
  ai_today_quota_consumption : number;
  ai_today_requests_count : number
}.

Record SiteAccount := {
  sa_id : string;
  emoji : string;
  site_name : string;
  site_url : string;
  site_type : option string;
  adapter_config : option AdapterConfig;
  health_status : SiteHealthStatus;
  exchange_rate : number;
  account_info : AccountInfo;
  last_sync_time : Z;
  updated_at : Z;
  created_at : Z
}.

Record StorageConfig := {
  accounts : list SiteAccount;
  last_updated : Z
}.

(** [Partial<Omit<SiteAccount, "id" | "created_at">>] *)
Record AccountUpdate := {
  set_emoji : option string;
  set_site_name : option string;
  set_site_url : option string;
  set_site_type : option string;
  set_adapter_config : option AdapterConfig;
  set_health_status : option SiteHealthStatus;
  set_exchange_rate : option number;
  set_account_info : option AccountInfo;
  set_last_sync_time : option Z;
  set_updated_at : option Z
}.

(** [Omit<SiteAccount, "id" | "created_at" | "updated_at">] *)
Record NewAccount := {
  new_emoji : string;
  new_site_name : string;
  new_site_url : string;
  new_site_type : option string;
  new_adapter_config : option AdapterConfig;
  new_health_status : SiteHealthStatus;
  new_exchange_rate : number;
  new_account_info : AccountInfo;
  new_last_sync_time : Z
}.

Section OneApiHub.

(** The environment of a call. *)
Variable server : Server.
Variable env : Host.

(** [src/utils/autoDetectUtils] is outside the embedded sources: the
    type of its classified errors and its classifier are parameters. *)
Variable AutoDetectError : Type.
Variable analyzeAutoDetectError : string + JsError -> AutoDetectError.

(** ** [fetch] and [chrome.runtime.sendMessage] *)

Record FetchResponse (T : Type) := {
  response_status : Z;
  response_json : Outcome T
}.
Arguments response_status {T} _.
Arguments response_json {T} _.

Definition fetch {T} (reply : History -> string -> RequestInit -> HttpReply T)
    (input : string) (init : RequestInit) : Async (FetchResponse T) :=
  fun h =>
    match reply h input init with
    | Rejected e => (Throw e, h ++ [Fetch input init])
    | Response st body =>
        (Return {| response_status := st; response_json := body |},
         h ++ [Fetch input init])
    end.

(** [await response.json()] *)
Definition json {T} (response : FetchResponse T) : Async T :=
  fun h => (response_json response, h).

Definition sendMessage {T} (reply : History -> RuntimeMessage -> MessageReply T)
    (msg : RuntimeMessage) : Async (option (PageResponse T)) :=
  fun h =>
    match reply h msg with
    | MessageRejected e => (Throw e, h ++ [SendMessage msg])
    | MessageResponse r => (Return r, h ++ [SendMessage msg])
    end.

(** ** [src/services/apiService.ts] *)

Definition DEFAULT_PAGE_SIZE : Z := 100.
Definition MAX_PAGES : Z := 100.

(** [createRequestHeaders], [createCookieAuthRequest],
    [createTokenAuthRequest] *)
Definition createCookieAuthRequest (userId : option number) : RequestInit :=
  {| method := "GET"; user_headers := userId; authorization := None;
     credentials := include |}.

Definition createTokenAuthRequest (userId : number) (accessToken : string)
  : RequestInit :=
  {| method := "GET"; user_headers := Some userId;
     authorization :=
       if Js.truthy_string accessToken then Some accessToken else None;
     credentials := omit |}.

Definition apiRequest {T}
    (reply : History -> string -> RequestInit -> HttpReply (ApiResponse T))
    (url : string) (options : RequestInit) (endpoint : string) : Async T :=
  response <- fetch reply url options ;;
  if negb (ok_status (response_status response)) then
    throw (ApiError ("请求失败: " +:+ Js.Z_toString (response_status response))
                    (Some (response_status response)) (Some endpoint))
  else
    data <- json response ;;
    match ar_success data, ar_data data with
    | true, Some d => ret d
    | _, _ => throw (ApiError "响应数据格式错误" None (Some endpoint))
    end.

Definition getTodayTimestampRange : TimeRange := today env.

Record AggregatedUsage := {
  agg_quota_consumption : number;
  agg_prompt_tokens : number;
  agg_completion_tokens : number
}.

Definition zero_usage : AggregatedUsage :=
  {| agg_quota_consumption := 0; agg_prompt_tokens := 0;
     agg_completion_tokens := 0 |}.

(** [items.reduce(...)] *)
Definition aggregateUsageData (items : list LogItem) : AggregatedUsage :=
  fold_left
    (fun acc item =>
       {| agg_quota_consumption :=
            agg_quota_consumption acc + Js.opt_or (quota item) 0;
          agg_prompt_tokens :=
            agg_prompt_tokens acc + Js.opt_or (prompt_tokens item) 0;
          agg_completion_tokens :=
            agg_completion_tokens acc + Js.opt_or (completion_tokens item) 0 |})
    items zero_usage.

Definition fetchSiteStatus (baseUrl : string) : Async (option SiteStatusInfo) :=
  try_catch
    (response <- fetch (api_status server) (baseUrl +:+ "/api/status")
                   {| method := "GET"; user_headers := None;
                      authorization := None; credentials := omit |} ;;
     if negb (ok_status (response_status response)) then ret None
     else
       data <- json response ;;
       match ar_success data, ar_data data with
       | true, Some d => ret (Some d)
       | _, _ => ret None
       end)
    (fun _ => ret None).

Definition extractDefaultExchangeRate (statusInfo : option SiteStatusInfo)
  : option number :=
  match statusInfo with
  | None => None
  | Some info =>
      let positive (o : option number) :=
        match o with
        | Some x => Js.truthy x && (0 <? x)%float
        | None => false
        end in
      if positive (price info) then price info
      else if positive (stripe_unit_price info) then stripe_unit_price info
      else if positive (PaymentUSDRate info) then PaymentUSDRate info
      else None
  end.

Definition fetchUserInfo (baseUrl : string) (userId : option number)
  : Async UserInfo :=
  userData <- apiRequest (api_user_self server) (baseUrl +:+ "/api/user/self")
                (createCookieAuthRequest userId) "/api/user/self" ;;
  ret {| ui_id := self_id userData;
         ui_username := self_username userData;
         ui_access_token :=
           match self_access_token userData with
           | Some t => if Js.truthy_string t then Some t else None
           | None => None
           end |}.

Definition createAccessToken (baseUrl : string) (userId : number) : Async string :=
  apiRequest (api_user_token server) (baseUrl +:+ "/api/user/token")
    (createCookieAuthRequest (Some userId)) "/api/user/token".

Definition getOrCreateAccessToken (baseUrl : string) (userId : number)
  : Async AccessTokenInfo :=
  userInfo <- fetchUserInfo baseUrl (Some userId) ;;
  accessToken <-
    match ui_access_token userInfo with
    | Some t => ret t
    | None => createAccessToken baseUrl userId
    end ;;
  ret {| ati_username := ui_username userInfo; access_token := accessToken |}.

Definition fetchAccountQuota (baseUrl : string) (userId : number)
    (accessToken : string) : Async number :=
  userData <- apiRequest (api_user_self server) (baseUrl +:+ "/api/user/self")
                (createTokenAuthRequest userId accessToken) "/api/user/self" ;;
  ret (Js.opt_or (self_quota userData) 0).

(** The query string [URLSearchParams] builds for a page of the log. *)
Definition log_query (currentPage : Z) : string :=
  "p=" +:+ Js.Z_toString currentPage +:+
  "&page_size=" +:+ Js.Z_toString DEFAULT_PAGE_SIZE +:+
  "&type=0&token_name=&model_name=" +:+
  "&start_timestamp=" +:+ Js.Z_toString (range_start getTodayTimestampRange) +:+
  "&end_timestamp=" +:+ Js.Z_toString (range_end getTodayTimestampRange) +:+
  "&group=".

Definition log_url (baseUrl : string) (currentPage : Z) : string :=
  baseUrl +:+ "/api/log/self?" +:+ log_query currentPage.

(** The variables of the loop of [fetchTodayUsage]. *)
Record UsageLoop := {
  currentPage : Z;
  totalRequestsCount : Z;
  aggregatedData : AggregatedUsage
}.

(** [Math.ceil((logData.total || 0) / DEFAULT_PAGE_SIZE)] *)
Definition totalPages (logData : LogResponseData) : number :=
  Js.Math_ceil (Js.opt_or (total logData) 0 / Js.of_Z DEFAULT_PAGE_SIZE).

(** [while (currentPage <= MAX_PAGES) { ... }]: [fuel] bounds the
    iterations left and is never exhausted when it starts at
    [MAX_PAGES - currentPage + 1]. *)
Fixpoint usage_loop (fuel : nat) (baseUrl : string) (userId : number)
    (accessToken : string) (st : UsageLoop) : Async UsageLoop :=
  if currentPage st <=? MAX_PAGES then
    match fuel with
    | O => ret st
    | S fuel' =>
        logData <- apiRequest (api_log_self server)
                     (log_url baseUrl (currentPage st))
                     (createTokenAuthRequest userId accessToken)
                     "/api/log/self" ;;
        let items := Js.nullish (items logData) [] in
        let pageData := aggregateUsageData items in
        let st' :=
          {| currentPage := currentPage st;
             totalRequestsCount :=
               totalRequestsCount st + Z.of_nat (length items);
             aggregatedData :=
               {| agg_quota_consumption :=
                    agg_quota_consumption (aggregatedData st)
                    + agg_quota_consumption pageData;
                  agg_prompt_tokens :=
                    agg_prompt_tokens (aggregatedData st)
                    + agg_prompt_tokens pageData;
                  agg_completion_tokens :=
                    agg_completion_tokens (aggregatedData st)
                    + agg_completion_tokens pageData |} |} in
        if (totalPages logData <=? Js.of_Z (currentPage st))%float then ret st'
        else
          usage_loop fuel' baseUrl userId accessToken
            {| currentPage := currentPage st + 1;
               totalRequestsCount := totalRequestsCount st';
               aggregatedData := aggregatedData st' |}
    end
  else ret st.

Definition fetchTodayUsage (baseUrl : string) (userId : number)
    (accessToken : string) : Async TodayUsageData :=
  st <- usage_loop (Z.to_nat MAX_PAGES) baseUrl userId accessToken
          {| currentPage := 1; totalRequestsCount := 0;
             aggregatedData := zero_usage |} ;;
  ret {| today_quota_consumption := agg_quota_consumption (aggregatedData st);
         today_prompt_tokens := agg_prompt_tokens (aggregatedData st);
         today_completion_tokens := agg_completion_tokens (aggregatedData st);
         today_requests_count := Js.of_Z (totalRequestsCount st) |}.

Definition validateAccountConnection (baseUrl : string) (userId : number)
    (accessToken : string) : Async bool :=
  try_catch
    (_ <- fetchAccountQuota baseUrl userId accessToken ;; ret true)
    (fun _ => ret false).

Definition determineHealthStatus (e : JsError) : HealthCheckResult :=
  match e with
  | ApiError message statusCode _ =>
      match statusCode with
      | Some c =>
          if negb (c =? 0) then
            {| status := warning;
               hc_message := "HTTP " +:+ Js.Z_toString c +:+ ": " +:+ message |}
          else {| status := unknown; hc_message := message |}
      | None => {| status := unknown; hc_message := message |}
      end
  | TypeError message =>
      if Js.includes message "fetch" then
        {| status := error; hc_message := "网络连接失败" |}
      else
        {| status := unknown; hc_message := Js.or_string message "未知错误" |}
  | PlainError message | AdapterRegistrationError message
  | NotSupportedError message =>
      {| status := unknown; hc_message := Js.or_string message "未知错误" |}
  | NonError message =>
      {| status := unknown;
         hc_message := Js.or_string (Js.opt_string message) "未知错误" |}
  end.

(** ** The adapter interface ([ISiteAdapter]) *)

Record AutoDetectData := {
  username : string;
  accessToken : string;
  userId : string;
  exchangeRate : option number
}.

Record AutoDetectResult := {
  success : bool;
  data : option AutoDetectData;
  adr_error : option string;
  detailedError : option AutoDetectError
}.

(** The body of a method no property below looks into; the registry
    only tests that the method is there. *)
Inductive method_body := method_present.

Record ISiteAdapter := {
  metadata : SiteAdapterMetadata;
  validateConnection : SiteCredentials -> Async ValidateResult;
  getAccountBalance : option (SiteCredentials -> Async BalanceInfo);
  getUsageStats : option (SiteCredentials -> TimeRange -> Async UsageStats);
  autoDetectAccount : option (string -> Async AutoDetectResult);
  getOrCreateAccessToken_method : option method_body;
  getApiTokens : option method_body;
  createApiToken : option method_body;
  updateApiToken : option method_body;
  deleteApiToken : option method_body;
  getAvailableModels : option method_body;
  getModelPricing : option method_body;
  getSiteStatus : option (string -> Async (option SiteStatusInfo))
}.

(** ** [src/adapters/OneApiAdapter.ts] *)

Definition OneApiAdapter_balance_descriptor : BalanceDescriptor :=
  {| rawUnit := "quota_points"; conversionFactor := 500000 |}.

Definition OneApiAdapter_metadata : SiteAdapterMetadata :=
  {| id := "one-api";
     name := "OneAPI 系列";
     version := "1.0.0";
     supportedSiteTypes := ["one-api"; "new-api"; "veloera"; "one-hub"; "done-hub"];
     capabilities := [AUTO_DETECT; BALANCE; USAGE_STATS; TOKEN_MANAGEMENT;
                      MODEL_LIST; MODEL_PRICING];
     balance := Some OneApiAdapter_balance_descriptor |}.

Definition OneApiAdapter_kind_mismatch : string := "one-api 适配器需要 one-api-token 鉴权".

Definition OneApiAdapter_validateConnection (credentials : SiteCredentials)
  : Async ValidateResult :=
  match auth credentials with
  | one_api_token userId accessToken =>
      connected <- validateAccountConnection (siteUrl credentials) userId accessToken ;;
      ret (if connected : bool
           then {| ok := true; vr_message := None; details := None |}
           else {| ok := false; vr_message := Some "账号连接验证失败";
                   details := None |})
  | _ => ret {| ok := false; vr_message := Some OneApiAdapter_kind_mismatch; details := None |}
  end.

Definition OneApiAdapter_getAccountBalance (credentials : SiteCredentials) : Async BalanceInfo :=
  match auth credentials with
  | one_api_token userId accessToken =>
      rawQuota <- fetchAccountQuota (siteUrl credentials) userId accessToken ;;
      ret {| rawBalance := rawQuota;
             bal_rawUnit := rawUnit OneApiAdapter_balance_descriptor;
             bal_conversionFactor := Some (conversionFactor OneApiAdapter_balance_descriptor);
             balanceUSD :=
               Some (rawQuota / conversionFactor OneApiAdapter_balance_descriptor)%float |}
  | _ => throw (PlainError OneApiAdapter_kind_mismatch)
  end.

Definition OneApiAdapter_getUsageStats (credentials : SiteCredentials) (_ : TimeRange)
  : Async UsageStats :=
  match auth credentials with
  | one_api_token userId accessToken =>
      raw <- fetchTodayUsage (siteUrl credentials) userId accessToken ;;
      ret {| rawConsumption := today_quota_consumption raw;
             use_rawUnit := rawUnit OneApiAdapter_balance_descriptor;
             use_conversionFactor := Some (conversionFactor OneApiAdapter_balance_descriptor);
             promptTokens := Some (today_prompt_tokens raw);
             completionTokens := Some (today_completion_tokens raw);
             requestCount := Some (today_requests_count raw) |}
  | _ => throw (PlainError OneApiAdapter_kind_mismatch)
  end.

Definition OneApiAdapter_failure (message : string) (detail : string + JsError)
  : AutoDetectResult :=
  {| success := false; data := None; adr_error := Some message;
     detailedError := Some (analyzeAutoDetectError detail) |}.

(** [!userId], [Number(userId)] and [userId.toString()] on the user id
    the background page found. *)
Definition OneApiAdapter_userId_truthy (u : UserIdValue) : bool :=
  match u with
  | id_number n => negb (n =? 0)
  | id_string s => Js.truthy_string s
  end.

Definition OneApiAdapter_userId_Number (u : UserIdValue) : number :=
  match u with
  | id_number n => Js.of_Z n
  | id_string s => Js.Number s
  end.

Definition OneApiAdapter_userId_toString (u : UserIdValue) : string :=
  match u with
  | id_number n => Js.Z_toString n
  | id_string s => s
  end.

Definition OneApiAdapter_undefined_property : JsError :=
  TypeError "Cannot read properties of undefined".

Definition OneApiAdapter_autoDetectAccount (siteUrl : string) : Async AutoDetectResult :=
  if negb (Js.truthy_string (Js.trim siteUrl)) then
    ret {| success := false; data := None;
           adr_error := Some "站点地址不能为空"; detailedError := None |}
  else
    try_catch
      (response <- sendMessage (page_auto_detect server)
                     {| action := "autoDetectSite"; url := Js.trim siteUrl;
                        fetchUrl := None;
                        requestId := "auto-detect-" +:+ Js.Z_toString (Date_now env) |} ;;
       match response with
       | None => throw OneApiAdapter_undefined_property
       | Some response =>
           if negb (pr_success response) then
             ret (OneApiAdapter_failure
                    (Js.or_string (Js.opt_string (pr_error response))
                       "自动检测失败，请手动输入信息或确保已在目标站点登录")
                    (inl (Js.or_string (Js.opt_string (pr_error response))
                            "自动检测失败")))
           else
             match pr_data response with
             | None => throw OneApiAdapter_undefined_property
             | Some found =>
                 match detected_userId found with
                 | Some uid =>
                     if OneApiAdapter_userId_truthy uid then
                       ' (tokenInfo, siteStatus) <-
                         Promise_all2 (second_settles_first env)
                           (getOrCreateAccessToken (Js.trim siteUrl) (OneApiAdapter_userId_Number uid))
                           (fetchSiteStatus (Js.trim siteUrl)) ;;
                       if negb (Js.truthy_string (ati_username tokenInfo))
                          || negb (Js.truthy_string (access_token tokenInfo))
                       then ret (OneApiAdapter_failure "未能获取到用户名或访问令牌"
                                   (inl "未能获取到用户名或访问令牌"))
                       else
                         ret {| success := true;
                                data := Some
                                  {| username := ati_username tokenInfo;
                                     accessToken := access_token tokenInfo;
                                     userId := OneApiAdapter_userId_toString uid;
                                     exchangeRate :=
                                       extractDefaultExchangeRate siteStatus |};
                                adr_error := None; detailedError := None |}
                     else ret (OneApiAdapter_failure "无法获取用户 ID" (inl "无法获取用户 ID"))
                 | None => ret (OneApiAdapter_failure "无法获取用户 ID" (inl "无法获取用户 ID"))
                 end
             end
       end)
      (fun e =>
         ret (OneApiAdapter_failure ("自动识别失败: " +:+ message_or_unknown e) (inr e))).

Definition OneApiAdapter_getSiteStatus (siteUrl : string) : Async (option SiteStatusInfo) :=
  fetchSiteStatus siteUrl.

Definition OneApiAdapter_adapter : ISiteAdapter :=
  {| metadata := OneApiAdapter_metadata;
     validateConnection := OneApiAdapter_validateConnection;
     getAccountBalance := Some OneApiAdapter_getAccountBalance;
     getUsageStats := Some OneApiAdapter_getUsageStats;
     autoDetectAccount := Some OneApiAdapter_autoDetectAccount;
     getOrCreateAccessToken_method := Some method_present;
     getApiTokens := Some method_present;
     createApiToken := Some method_present;
     updateApiToken := Some method_present;
     deleteApiToken := Some method_present;
     getAvailableModels := Some method_present;
     getModelPricing := Some method_present;
     getSiteStatus := Some OneApiAdapter_getSiteStatus |}.

(** ** [src/adapters/CubenceAdapter.ts] *)

Definition CubenceAdapter_balance_descriptor : BalanceDescriptor :=
  {| rawUnit := "micro_usd"; conversionFactor := 1000000 |}.

Definition CubenceAdapter_metadata : SiteAdapterMetadata :=
  {| id := "cubence";
     name := "Cubence";
     version := "1.0.0";
     supportedSiteTypes := ["cubence"];
     capabilities := [AUTO_DETECT; BALANCE; USAGE_STATS];
     balance := Some CubenceAdapter_balance_descriptor |}.

Definition CubenceAdapter_kind_mismatch : string :=
  "Cubence 适配器需要 cookie 鉴权（浏览器登录态）".

Definition normalizeSiteUrl (siteUrl : string) : string :=
  Js.strip_trailing_slashes (Js.trim siteUrl).

(** [fetchJson]: a direct [fetch] with the cookies of the browser, then
    the same request through the background page. [None] is a body or a
    [data] field that is [undefined]. *)
Definition CubenceAdapter_fetchJson {T}
    (direct : History -> string -> RequestInit -> HttpReply (option T))
    (page : History -> RuntimeMessage -> MessageReply T)
    (siteUrl path requestIdPrefix : string) : Async (option T) :=
  let baseUrl := normalizeSiteUrl siteUrl in
  match URL_href env path baseUrl with
  | None => throw (TypeError "Invalid URL")
  | Some fetchUrl =>
      first <-
        try_catch
          (response <- fetch direct fetchUrl
                         {| method := "GET"; user_headers := None;
                            authorization := None; credentials := include |} ;;
           if ok_status (response_status response) then
             body <- json response ;; ret (Some body)
           else ret None)
          (fun _ => ret None) ;;
      match first with
      | Some body => ret body
      | None =>
          response <- sendMessage page
                        {| action := "pageFetchJson"; url := baseUrl;
                           fetchUrl := Some fetchUrl;
                           requestId := requestIdPrefix +:+ "-"
                                        +:+ Js.Z_toString (Date_now env) |} ;;
          match response with
          | Some r =>
              if pr_success r then ret (pr_data r)
              else throw (PlainError
                            (Js.or_string (Js.opt_string (pr_error r))
                               ("获取 " +:+ path +:+ " 失败")))
          | None => throw (PlainError ("获取 " +:+ path +:+ " 失败"))
          end
      end
  end.

Definition CubenceAdapter_fetchOverview (siteUrl : string)
  : Async (option CubenceOverviewResponse) :=
  CubenceAdapter_fetchJson (cubence_overview server) (page_overview server)
    siteUrl "/api/v1/dashboard/overview" "cubence-overview".

Definition CubenceAdapter_fetchAnalyticsToday (siteUrl : string)
  : Async (option CubenceAnalyticsTodayResponse) :=
  CubenceAdapter_fetchJson (cubence_analytics_today server)
    (page_analytics_today server)
    siteUrl "/api/v1/analytics/today" "cubence-analytics-today".

(** [overview.success] on a body that may be [undefined] *)
Definition CubenceAdapter_overview (siteUrl : string)
  : Async CubenceOverviewResponse :=
  overview <- CubenceAdapter_fetchOverview siteUrl ;;
  match overview with
  | Some o => ret o
  | None => throw OneApiAdapter_undefined_property
  end.

(** [overview.data.user?.username], when truthy *)
Definition overview_username (d : CubenceOverviewData) : option string :=
  match co_user d with
  | Some u =>
      match cu_username u with
      | Some n => if Js.truthy_string n then Some n else None
      | None => None
      end
  | None => None
  end.

Definition CubenceAdapter_validateConnection (credentials : SiteCredentials)
  : Async ValidateResult :=
  match auth credentials with
  | cookie _ =>
      try_catch
        (overview <- CubenceAdapter_overview (siteUrl credentials) ;;
         match co_success overview, co_data overview with
         | true, Some d =>
             match overview_username d with
             | Some n =>
                 ret {| ok := true; vr_message := None;
                        details := Some {| details_username := Some n;
                                           details_user_username := None |} |}
             | None =>
                 ret {| ok := false;
                        vr_message := Some "未获取到用户名，可能未登录或 Cookie 已失效";
                        details := None |}
             end
         | _, _ =>
             ret {| ok := false; vr_message := Some "Cubence overview 响应格式异常";
                    details := None |}
         end)
        (fun e =>
           ret {| ok := false; vr_message := Some (message_or_unknown e);
                  details := None |})
  | _ =>
      ret {| ok := false; vr_message := Some CubenceAdapter_kind_mismatch;
             details := None |}
  end.

Definition CubenceAdapter_autoDetectAccount (siteUrl : string)
  : Async AutoDetectResult :=
  let fail m :=
    {| success := false; data := None; adr_error := Some m;
       detailedError := None |} in
  if negb (Js.truthy_string (Js.trim siteUrl)) then ret (fail "站点地址不能为空")
  else
    try_catch
      (overview <- CubenceAdapter_overview (Js.trim siteUrl) ;;
       match co_success overview, co_data overview with
       | true, Some d =>
           match overview_username d with
           | Some n =>
               ret {| success := true;
                      data := Some {| username := n; accessToken := "";
                                      userId := ""; exchangeRate := None |};
                      adr_error := None; detailedError := None |}
           | None => ret (fail "未获取到用户名，可能未登录或 Cookie 已失效")
           end
       | _, _ => ret (fail "Cubence overview 响应格式异常")
       end)
      (fun e => ret (fail (message_or_unknown e))).

Definition CubenceAdapter_getAccountBalance (credentials : SiteCredentials)
  : Async BalanceInfo :=
  match auth credentials with
  | cookie _ =>
      overview <- CubenceAdapter_overview (siteUrl credentials) ;;
      match co_success overview, co_data overview with
      | true, Some d =>
          let raw := match co_balance d with Some b => total_balance b | None => None end in
          let usd :=
            match co_balance d with Some b => total_balance_dollar b | None => None end in
          let conversionFactor := conversionFactor CubenceAdapter_balance_descriptor in
          let rawBalance :=
            match raw with
            | Some r => r
            | None =>
                match usd with
                | Some u => Js.Math_round (u * conversionFactor)
                | None => 0%float
                end
            end in
          ret {| rawBalance := rawBalance;
                 bal_rawUnit := rawUnit CubenceAdapter_balance_descriptor;
                 bal_conversionFactor := Some conversionFactor;
                 balanceUSD := Some (rawBalance / conversionFactor)%float |}
      | _, _ => throw (PlainError "Cubence overview 响应格式异常")
      end
  | _ => throw (PlainError CubenceAdapter_kind_mismatch)
  end.

(** [String(code)] *)
Definition code_String (c : option CodeValue) : string :=
  match c with
  | Some (code_number n) => Js.Z_toString n
  | Some (code_string s) => s
  | None => "undefined"
  end.

Definition CubenceAdapter_getUsageStats (credentials : SiteCredentials)
    (_ : TimeRange) : Async UsageStats :=
  match auth credentials with
  | cookie _ =>
      today <- CubenceAdapter_fetchAnalyticsToday (siteUrl credentials) ;;
      let code := match today with Some t => code t | None => None end in
      let accepted :=
        match code with
        | Some (code_number n) => n =? 200
        | Some (code_string s) => String.eqb s "200"
        | None => true
        end in
      match (if accepted then today else None) with
      | Some {| ca_data := Some d |} =>
          ret {| rawConsumption := Js.nullish (today_consumed_quota d) 0%float;
                 use_rawUnit := rawUnit CubenceAdapter_balance_descriptor;
                 use_conversionFactor :=
                   Some (conversionFactor CubenceAdapter_balance_descriptor);
                 promptTokens := Some (Js.nullish (today_tokens d) 0%float);
                 completionTokens := Some 0%float;
                 requestCount := Some (Js.nullish (today_request_count d) 0%float) |}
      | _ =>
          let message :=
            match today with
            | Some {| ca_message := Some m |} =>
                if Js.truthy_string m then ": " +:+ m else ""
            | _ => ""
            end in
          throw (PlainError ("Cubence analytics/today 响应异常 (code="
                             +:+ code_String code +:+ ")" +:+ message))
      end
  | _ => throw (PlainError CubenceAdapter_kind_mismatch)
  end.

(** Host-name matching only, no request. *)
Definition CubenceAdapter_getSiteStatus (siteUrl : string)
  : Async (option SiteStatusInfo) :=
  match URL_hostname env siteUrl with
  | Some hostname =>
      let host := Js.toLowerCase hostname in
      if String.eqb host "cubence.com" || Js.endsWith host ".cubence.com" then
        ret (Some {| price := None; stripe_unit_price := None;
                     PaymentUSDRate := None; detected := Some true;
                     host := Some host |})
      else ret None
  | None => ret None
  end.

Definition CubenceAdapter_adapter : ISiteAdapter :=
  {| metadata := CubenceAdapter_metadata;
     validateConnection := CubenceAdapter_validateConnection;
     getAccountBalance := Some CubenceAdapter_getAccountBalance;
     getUsageStats := Some CubenceAdapter_getUsageStats;
     autoDetectAccount := Some CubenceAdapter_autoDetectAccount;
     getOrCreateAccessToken_method := None;
     getApiTokens := None;
     createApiToken := None;
     updateApiToken := None;
     deleteApiToken := None;
     getAvailableModels := None;
     getModelPricing := None;
     getSiteStatus := Some CubenceAdapter_getSiteStatus |}.

(** ** [src/adapters/SiteAdapterRegistry.ts] *)

(** [adaptersById] is a [Map] whose iteration order (insertion order) is
    the order [detectSiteType] probes in: an association list.
    [adaptersBySiteType] is only looked up by key. *)
Record SiteAdapterRegistry := {
  adaptersById : list (string * ISiteAdapter);
  adaptersBySiteType : gmap string ISiteAdapter;
  builtInsRegistered : bool
}.

(** [Map.prototype.has], [get] and [set] on the ordered map *)
Fixpoint Map_get {V} (k : string) (m : list (string * V)) : option V :=
  match m with
  | [] => None
  | (k', v) :: r => if String.eqb k' k then Some v else Map_get k r
  end.

Definition Map_has {V} (k : string) (m : list (string * V)) : bool :=
  match Map_get k m with Some _ => true | None => false end.

Fixpoint Map_set {V} (k : string) (v : V) (m : list (string * V))
  : list (string * V) :=
  match m with
  | [] => [(k, v)]
  | (k', v') :: r =>
      if String.eqb k' k then (k', v) :: r else (k', v') :: Map_set k v r
  end.

Definition new_registry : SiteAdapterRegistry :=
  {| adaptersById := []; adaptersBySiteType := ∅; builtInsRegistered := false |}.

Definition normalizeSiteType (siteType : string) : string :=
  Js.toLowerCase (Js.trim siteType).

Definition present {A} (m : option A) : bool :=
  match m with Some _ => true | None => false end.

(** The CRUD methods of TOKEN_MANAGEMENT an adapter lacks, in the order
    the registry lists them. *)
Definition missing_token_methods (adapter : ISiteAdapter) : list string :=
  (if present (getApiTokens adapter) then [] else ["getApiTokens"]) ++
  (if present (createApiToken adapter) then [] else ["createApiToken"]) ++
  (if present (updateApiToken adapter) then [] else ["updateApiToken"]) ++
  (if present (deleteApiToken adapter) then [] else ["deleteApiToken"]).

Definition assertCapabilitiesImplemented {S} (adapter : ISiteAdapter) : ST S unit :=
  let caps := capabilities (metadata adapter) in
  let has := has_capability caps in
  let declared (what method : string) :=
    AdapterRegistrationError
      ("adapter '" +:+ id (metadata adapter) +:+ "' 声明了 " +:+ what
       +:+ " 但未实现 " +:+ method) in
  if has AUTO_DETECT && negb (present (autoDetectAccount adapter)) then
    throw (declared "AUTO_DETECT" "autoDetectAccount()")
  else if has BALANCE && negb (present (getAccountBalance adapter)) then
    throw (declared "BALANCE" "getAccountBalance()")
  else if has USAGE_STATS && negb (present (getUsageStats adapter)) then
    throw (declared "USAGE_STATS" "getUsageStats()")
  else if has TOKEN_MANAGEMENT
          && negb (length (missing_token_methods adapter) =? 0)%nat then
    throw (AdapterRegistrationError
             ("adapter '" +:+ id (metadata adapter)
              +:+ "' 声明了 TOKEN_MANAGEMENT 但未实现: "
              +:+ Js.join ", " (missing_token_methods adapter)))
  else if has MODEL_LIST && negb (present (getAvailableModels adapter)) then
    throw (declared "MODEL_LIST" "getAvailableModels()")
  else if has MODEL_PRICING && negb (present (getModelPricing adapter)) then
    throw (declared "MODEL_PRICING" "getModelPricing()")
  else ret tt.

(** The loop over [supportedSiteTypes]: every key is written as soon as
    it is found free, so a throw leaves the earlier keys claimed. *)
Fixpoint claimSiteTypes (adapter : ISiteAdapter) (siteTypes : list string)
  : ST SiteAdapterRegistry unit :=
  match siteTypes with
  | [] => ret tt
  | siteType :: rest =>
      let normalized := normalizeSiteType siteType in
      registry <- get ;;
      match adaptersBySiteType registry !! normalized with
      | Some existing =>
          throw (AdapterRegistrationError
                   ("site_type '" +:+ normalized +:+ "' 已被 '"
                    +:+ id (metadata existing) +:+ "' 占用，无法重复注册到 '"
                    +:+ id (metadata adapter) +:+ "'"))
      | None =>
          do put {| adaptersById := adaptersById registry;
                    adaptersBySiteType :=
                      <[normalized := adapter]> (adaptersBySiteType registry);
                    builtInsRegistered := builtInsRegistered registry |} ;;
          claimSiteTypes adapter rest
      end
  end.

Definition registerAdapter (adapter : ISiteAdapter) : ST SiteAdapterRegistry unit :=
  let adapterId := id (metadata adapter) in
  if negb (Js.truthy_string adapterId) then
    throw (AdapterRegistrationError "adapter.metadata.id 不能为空")
  else
    do assertCapabilitiesImplemented adapter ;;
    registry <- get ;;
    if Map_has adapterId (adaptersById registry) then
      throw (AdapterRegistrationError ("重复注册 adapter id: " +:+ adapterId))
    else
      do put {| adaptersById := Map_set adapterId adapter (adaptersById registry);
                adaptersBySiteType := adaptersBySiteType registry;
                builtInsRegistered := builtInsRegistered registry |} ;;
      claimSiteTypes adapter (supportedSiteTypes (metadata adapter)).

Definition getAdapter (registry : SiteAdapterRegistry) (siteType : string)
  : option ISiteAdapter :=
  adaptersBySiteType registry !! normalizeSiteType siteType.

Definition getAllAdapters (registry : SiteAdapterRegistry) : list ISiteAdapter :=
  map snd (adaptersById registry).

Definition isSiteTypeSupported (registry : SiteAdapterRegistry) (siteType : string)
  : bool :=
  present (getAdapter registry siteType).

(** The loop of [detectSiteType] over [getAllAdapters()]. *)
Fixpoint probeAdapters (url : string) (adapters : list ISiteAdapter)
  : Async (option string) :=
  match adapters with
  | [] => ret None
  | adapter :: rest =>
      match getSiteStatus adapter with
      | None => probeAdapters url rest
      | Some probe =>
          matched <-
            try_catch (status <- probe url ;; ret (present status))
                      (fun _ => ret false) ;;
          if matched : bool then ret (Some (id (metadata adapter)))
          else probeAdapters url rest
      end
  end.

Definition detectSiteType (registry : SiteAdapterRegistry) (siteUrl : string)
  : Async (option string) :=
  probeAdapters (normalizeSiteUrl siteUrl) (getAllAdapters registry).

Definition ensureBuiltInAdaptersRegistered : ST SiteAdapterRegistry unit :=
  registry <- get ;;
  if builtInsRegistered registry then ret tt
  else
    do put {| adaptersById := adaptersById registry;
              adaptersBySiteType := adaptersBySiteType registry;
              builtInsRegistered := true |} ;;
    do registerAdapter OneApiAdapter_adapter ;;
    registerAdapter CubenceAdapter_adapter.

(** The registry [getInstance()] hands out the first time. *)
Definition getInstance : SiteAdapterRegistry :=
  snd (ensureBuiltInAdaptersRegistered new_registry).

(** The string value of a member of the enum *)
Definition capability_name (capability : AdapterCapability) : string :=
  match capability with
  | AUTO_DETECT => "AUTO_DETECT"
  | BALANCE => "BALANCE"
  | USAGE_STATS => "USAGE_STATS"
  | TOKEN_MANAGEMENT => "TOKEN_MANAGEMENT"
  | MODEL_LIST => "MODEL_LIST"
  | MODEL_PRICING => "MODEL_PRICING"
  end.

Definition assertAdapterCapability {S} (adapter : option ISiteAdapter)
    (capability : AdapterCapability) (message : option string) : ST S unit :=
  match adapter with
  | None => throw (NotSupportedError (Js.nullish message "未找到对应适配器"))
  | Some a =>
      if negb (has_capability (capabilities (metadata a)) capability) then
        throw (NotSupportedError
                 (Js.nullish message
                    ("适配器 '" +:+ id (metadata a) +:+ "' 不支持能力: "
                     +:+ capability_name capability)))
      else ret tt
  end.

(** ** [src/services/accountStorage.ts] *)

(** The manager works on the requests sent and on the value stored under
    the accounts key ([None]: nothing stored yet). Adapters only see the
    network. *)
Record World := {
  sent : History;
  stored : option StorageConfig
}.

Definition Task (A : Type) : Type := ST World A.

Definition network {A} (c : Async A) : Task A :=
  fun w =>
    let '(r, h) := c (sent w) in
    (r, {| sent := h; stored := stored w |}).

Definition DEFAULT_CONFIG : StorageConfig :=
  {| accounts := []; last_updated := Date_now env |}.

Definition getStorageConfig : Task StorageConfig :=
  w <- get ;; ret (Js.nullish (stored w) DEFAULT_CONFIG).

(** The defaults [getAllAccounts] fills in for records of older
    versions; the numeric fields of [account_info] are always there in
    a record of type [SiteAccount]. *)
Definition with_defaults (account : SiteAccount) : SiteAccount :=
  {| sa_id := sa_id account;
     emoji := emoji account;
     site_name := site_name account;
     site_url := site_url account;
     site_type := Some (Js.nullish (site_type account) "one-api");
     adapter_config := Some (Js.nullish (adapter_config account) []);
     health_status := health_status account;
     exchange_rate := exchange_rate account;
     account_info := account_info account;
     last_sync_time := last_sync_time account;
     updated_at := updated_at account;
     created_at := created_at account |}.

Definition getAllAccounts : Task (list SiteAccount) :=
  config <- getStorageConfig ;;
  ret (map with_defaults (accounts config)).

Definition getAccountById (id : string) : Task (option SiteAccount) :=
  accounts <- getAllAccounts ;;
  ret (find (fun account => String.eqb (sa_id account) id) accounts).

Definition saveAccounts (accounts : list SiteAccount) : Task unit :=
  w <- get ;;
  put {| sent := sent w;
         stored := Some {| accounts := accounts; last_updated := Date_now env |} |}.

Definition generateId : string :=
  "account_" +:+ Js.Z_toString (Date_now env) +:+ "_" +:+ random_suffix env.

Definition addAccount (accountData : NewAccount) : Task string :=
  accounts <- getAllAccounts ;;
  let now := Date_now env in
  let newAccount :=
    {| sa_id := generateId;
       emoji := new_emoji accountData;
       site_name := new_site_name accountData;
       site_url := new_site_url accountData;
       site_type := Some (Js.nullish (new_site_type accountData) "one-api");
       adapter_config := Some (Js.nullish (new_adapter_config accountData) []);
       health_status := new_health_status accountData;
       exchange_rate := new_exchange_rate accountData;
       account_info := new_account_info accountData;
       last_sync_time := new_last_sync_time accountData;
       updated_at := now;
       created_at := now |} in
  do saveAccounts (accounts ++ [newAccount]) ;;
  ret (sa_id newAccount).

(** [{ ...account, ...updates, updated_at: Date.now() }] *)
Definition merge (account : SiteAccount) (updates : AccountUpdate) : SiteAccount :=
  {| sa_id := sa_id account;
     emoji := Js.nullish (set_emoji updates) (emoji account);
     site_name := Js.nullish (set_site_name updates) (site_name account);
     site_url := Js.nullish (set_site_url updates) (site_url account);
     site_type :=
       match set_site_type updates with Some t => Some t | None => site_type account end;
     adapter_config :=
       match set_adapter_config updates with
       | Some c => Some c
       | None => adapter_config account
       end;
     health_status := Js.nullish (set_health_status updates) (health_status account);
     exchange_rate := Js.nullish (set_exchange_rate updates) (exchange_rate account);
     account_info := Js.nullish (set_account_info updates) (account_info account);
     last_sync_time := Js.nullish (set_last_sync_time updates) (last_sync_time account);
     updated_at := Date_now env;
     created_at := created_at account |}.

(** [accounts[index] = ...] at the first index whose id matches;
    [None] when [findIndex] gives -1. *)
Fixpoint replace_first (id : string) (updates : AccountUpdate)
    (accounts : list SiteAccount) : option (list SiteAccount) :=
  match accounts with
  | [] => None
  | account :: rest =>
      if String.eqb (sa_id account) id then Some (merge account updates :: rest)
      else
        match replace_first id updates rest with
        | Some rest' => Some (account :: rest')
        | None => None
        end
  end.

Definition updateAccount (id : string) (updates : AccountUpdate) : Task bool :=
  try_catch
    (accounts <- getAllAccounts ;;
     match replace_first id updates accounts with
     | None => throw (PlainError ("账号 " +:+ id +:+ " 不存在"))
     | Some accounts' => do saveAccounts accounts' ;; ret true
     end)
    (fun _ => ret false).

(** ** [src/services/AccountManager.ts] *)

Record ValidatedAccount := {
  va_username : string;
  va_accessToken : string;
  va_userId : string;
  va_exchangeRate : option number;
  siteType : option string
}.

Record AccountValidationResult := {
  avr_success : bool;
  avr_data : option ValidatedAccount;
  avr_error : option string;
  avr_detailedError : option AutoDetectError
}.

Record AccountSaveResult := {
  asr_success : bool;
  accountId : option string;
  asr_error : option string
}.

Record ValidateAndSaveParams := {
  param_siteType : option string;
  param_url : string;
  param_siteName : string;
  param_username : string;
  param_accessToken : option string;
  param_userId : option string;
  param_apiKey : option string;
  param_exchangeRate : string
}.

(** [accountInfoSeed] *)
Record AccountInfoSeed := {
  seed_id : option number;
  seed_access_token : option string;
  seed_api_key : option string
}.

Record BuiltCredentials := {
  built_credentials : SiteCredentials;
  built_username : string;
  accountInfoSeed : AccountInfoSeed
}.

(** [o?.trim() || ""] *)
Definition trimmed (o : option string) : string :=
  match o with Some s => Js.trim s | None => "" end.

(** [{ ...result.data, siteType: resolvedSiteType }] *)
Definition tagged (resolvedSiteType : string) (d : AutoDetectData)
  : ValidatedAccount :=
  {| va_username := username d; va_accessToken := accessToken d;
     va_userId := userId d; va_exchangeRate := exchangeRate d;
     siteType := Some resolvedSiteType |}.

Definition validation_failure (message : string) (detail : option AutoDetectError)
  : AccountValidationResult :=
  {| avr_success := false; avr_data := None; avr_error := Some message;
     avr_detailedError := detail |}.

(** The site type [autoDetectAccount] and [resolveSiteType] settle on:
    the explicit one, or else the detected one, or else ["one-api"]. *)
Definition resolveSiteType (registry : SiteAdapterRegistry) (siteUrl : string)
    (siteType : option string) : Async string :=
  let normalized := Js.toLowerCase (trimmed siteType) in
  if Js.truthy_string normalized && negb (String.eqb normalized "auto") then
    ret normalized
  else
    detected <- detectSiteType registry siteUrl ;;
    ret (Js.or_string (Js.opt_string detected) "one-api").

Definition AccountManager_autoDetectAccount (registry : SiteAdapterRegistry)
    (siteUrl : string) (siteType : option string) : Async AccountValidationResult :=
  if negb (Js.truthy_string (Js.trim siteUrl)) then
    ret (validation_failure "站点地址不能为空" None)
  else
    resolvedSiteType <- resolveSiteType registry (Js.trim siteUrl) siteType ;;
    match getAdapter registry resolvedSiteType with
    | None =>
        ret (validation_failure ("不支持的站点类型: " +:+ resolvedSiteType) None)
    | Some adapter =>
        match
          (if has_capability (capabilities (metadata adapter)) AUTO_DETECT
           then autoDetectAccount adapter else None)
        with
        | None =>
            ret (validation_failure
                   ("站点类型 '" +:+ resolvedSiteType +:+ "' 不支持自动识别") None)
        | Some detect =>
            try_catch
              (result <- detect (Js.trim siteUrl) ;;
               if negb (success result) then
                 let message :=
                   Js.or_string (Js.opt_string (adr_error result)) "自动检测失败" in
                 ret (validation_failure message
                        (Some (Js.nullish (detailedError result)
                                 (analyzeAutoDetectError (inl message)))))
               else
                 ret {| avr_success := true;
                        avr_data := option_map (tagged resolvedSiteType) (data result);
                        avr_error := None; avr_detailedError := None |})
              (fun e =>
                 ret (validation_failure ("自动识别失败: " +:+ message_or_unknown e)
                        (Some (analyzeAutoDetectError (inr e)))))
        end
    end.

Definition getTodayTimeRange : TimeRange := today env.

Definition requireOneApiParams {S} (params : ValidateAndSaveParams)
  : ST S (string * string) :=
  let accessToken := trimmed (param_accessToken params) in
  let userId := trimmed (param_userId params) in
  if negb (Js.truthy_string accessToken) || negb (Js.truthy_string userId) then
    throw (PlainError "请填写访问令牌与用户 ID")
  else if Js.isNaN (Js.Number userId) then throw (PlainError "用户 ID 必须是数字")
  else ret (userId, accessToken).

Definition buildCredentialsFromParams {S} (adapterId siteUrl : string)
    (params : ValidateAndSaveParams) : ST S BuiltCredentials :=
  if String.eqb adapterId "cubence" then
    ret {| built_credentials :=
             {| siteUrl := siteUrl; auth := cookie None; adapterConfig := None |};
           built_username := Js.trim (param_username params);
           accountInfoSeed :=
             {| seed_id := None; seed_access_token := None; seed_api_key := None |} |}
  else
    let apiKey := trimmed (param_apiKey params) in
    if Js.truthy_string apiKey then
      ret {| built_credentials :=
               {| siteUrl := siteUrl; auth := api_key apiKey; adapterConfig := None |};
             built_username := Js.trim (param_username params);
             accountInfoSeed :=
               {| seed_id := None; seed_access_token := None;
                  seed_api_key := Some apiKey |} |}
    else
      ' (userId, accessToken) <- requireOneApiParams params ;;
      let parsedUserId := Js.Number userId in
      ret {| built_credentials :=
               {| siteUrl := siteUrl;
                  auth := one_api_token parsedUserId (Js.trim accessToken);
                  adapterConfig := None |};
             built_username := Js.trim (param_username params);
             accountInfoSeed :=
               {| seed_id := Some parsedUserId;
                  seed_access_token := Some (Js.trim accessToken);
                  seed_api_key := None |} |}.

(** [adapter.m ? adapter.m(...) : Promise.resolve(null)] *)
Definition if_implemented {A B} (m : option (A -> Async B)) (a : A)
  : Async (option B) :=
  match m with
  | Some f => b <- f a ;; ret (Some b)
  | None => ret None
  end.

Definition fetchBalanceAndUsage (adapter : ISiteAdapter)
    (credentials : SiteCredentials) (timeRange : TimeRange)
  : Async (option BalanceInfo * option UsageStats) :=
  Promise_all2 (second_settles_first env)
    (if_implemented (getAccountBalance adapter) credentials)
    (if_implemented (option_map (fun f c => f c timeRange) (getUsageStats adapter))
       credentials).

(** [validate.details?.username || validate.details?.user?.username] *)
Definition details_name (validate : ValidateResult) : string :=
  match details validate with
  | Some d =>
      Js.or_string (Js.opt_string (details_username d))
        (Js.opt_string (details_user_username d))
  | None => ""
  end.

(** The [account_info] both save paths assemble. *)
Definition assembled_info (seed : AccountInfoSeed) (resolvedUsername : string)
    (balance : option BalanceInfo) (usage : option UsageStats) : AccountInfo :=
  {| ai_id := option_map account_id_number (seed_id seed);
     ai_access_token := seed_access_token seed;
     ai_api_key := seed_api_key seed;
     ai_username := Some resolvedUsername;
     ai_quota := match balance with Some b => rawBalance b | None => 0%float end;
     ai_today_prompt_tokens :=
       match usage with Some u => Js.nullish (promptTokens u) 0%float | None => 0%float end;
     ai_today_completion_tokens :=
       match usage with
       | Some u => Js.nullish (completionTokens u) 0%float
       | None => 0%float
       end;
     ai_today_quota_consumption :=
       match usage with Some u => rawConsumption u | None => 0%float end;
     ai_today_requests_count :=
       match usage with Some u => Js.nullish (requestCount u) 0%float | None => 0%float end |}.

Definition save_failure (message : string) : AccountSaveResult :=
  {| asr_success := false; accountId := None; asr_error := Some message |}.

(** [parseFloat(params.exchangeRate) || 7.2] *)
Definition parsedExchangeRate (params : ValidateAndSaveParams) : number :=
  Js.or_number (Js.parseFloat (param_exchangeRate params)) 7.2.

Definition validateAndSaveAccount (registry : SiteAdapterRegistry)
    (params : ValidateAndSaveParams) : Task AccountSaveResult :=
  let siteName := Js.trim (param_siteName params) in
  let siteUrl := Js.trim (param_url params) in
  if negb (Js.truthy_string siteUrl) || negb (Js.truthy_string siteName) then
    ret (save_failure "请填写完整的账号信息")
  else
    resolvedSiteType <- network (resolveSiteType registry siteUrl (param_siteType params)) ;;
    match getAdapter registry resolvedSiteType with
    | None => ret (save_failure ("不支持的站点类型: " +:+ resolvedSiteType))
    | Some adapter =>
        try_catch
          (let exchangeRate := parsedExchangeRate params in
           let timeRange := getTodayTimeRange in
           built <- buildCredentialsFromParams (id (metadata adapter)) siteUrl params ;;
           let credentials := built_credentials built in
           validate <- network (validateConnection adapter credentials) ;;
           if negb (ok validate) then
             ret (save_failure
                    (Js.or_string (Js.opt_string (vr_message validate)) "账号连接验证失败"))
           else
             let resolvedUsername :=
               Js.or_string (built_username built) (details_name validate) in
             if negb (Js.truthy_string resolvedUsername) then
               ret (save_failure "未获取到用户名，请先登录站点或手动填写用户名")
             else
               ' (balance, usage) <-
                 network (fetchBalanceAndUsage adapter credentials timeRange) ;;
               newId <- addAccount
                 {| new_emoji := "";
                    new_site_name := siteName;
                    new_site_url := siteUrl;
                    new_site_type := Some resolvedSiteType;
                    new_adapter_config := Some [];
                    new_health_status := healthy;
                    new_exchange_rate := exchangeRate;
                    new_account_info :=
                      assembled_info (accountInfoSeed built) resolvedUsername
                        balance usage;
                    new_last_sync_time := Date_now env |} ;;
               ret {| asr_success := true; accountId := Some newId;
                      asr_error := None |})
          (fun e => ret (save_failure ("保存失败: " +:+ message_or_unknown e)))
    end.

Definition validateAndUpdateAccount (registry : SiteAdapterRegistry)
    (accountId : string) (params : ValidateAndSaveParams) : Task AccountSaveResult :=
  if negb (Js.truthy_string accountId) then ret (save_failure "账号 ID 不能为空")
  else
    let siteName := Js.trim (param_siteName params) in
    let siteUrl := Js.trim (param_url params) in
    if negb (Js.truthy_string siteUrl) || negb (Js.truthy_string siteName) then
      ret (save_failure "请填写完整的账号信息")
    else
      resolvedSiteType <-
        network (resolveSiteType registry siteUrl (param_siteType params)) ;;
      match getAdapter registry resolvedSiteType with
      | None => ret (save_failure ("不支持的站点类型: " +:+ resolvedSiteType))
      | Some adapter =>
          try_catch
            (let exchangeRate := parsedExchangeRate params in
             let timeRange := getTodayTimeRange in
             built <- buildCredentialsFromParams (id (metadata adapter)) siteUrl params ;;
             let credentials := built_credentials built in
             validate <- network (validateConnection adapter credentials) ;;
             if negb (ok validate) then
               ret (save_failure
                      (Js.or_string (Js.opt_string (vr_message validate))
                         "账号连接验证失败"))
             else
               let resolvedUsername :=
                 Js.or_string (built_username built) (details_name validate) in
               if negb (Js.truthy_string resolvedUsername) then
                 ret (save_failure "未获取到用户名，请先登录站点或手动填写用户名")
               else
                 ' (balance, usage) <-
                   network (fetchBalanceAndUsage adapter credentials timeRange) ;;
                 updated <- updateAccount accountId
                   {| set_emoji := None;
                      set_site_name := Some siteName;
                      set_site_url := Some siteUrl;
                      set_site_type := Some resolvedSiteType;
                      set_adapter_config := None;
                      set_health_status := Some healthy;
                      set_exchange_rate := Some exchangeRate;
                      set_account_info :=
                        Some (assembled_info (accountInfoSeed built) resolvedUsername
                                balance usage);
                      set_last_sync_time := Some (Date_now env);
                      set_updated_at := None |} ;;
                 ret (if updated : bool
                      then {| asr_success := true; accountId := Some accountId;
                              asr_error := None |}
                      else save_failure "更新账号失败"))
            (fun e => ret (save_failure ("更新失败: " +:+ message_or_unknown e)))
      end.

Definition getAccountSiteType (account : SiteAccount) : string :=
  Js.toLowerCase (Js.or_string (Js.opt_string (site_type account)) "one-api").

(** [Number(account.account_info?.id ?? NaN)] *)
Definition stored_userId (info : AccountInfo) : number :=
  match ai_id info with
  | Some (account_id_number n) => n
  | Some (account_id_string s) => Js.Number s
  | None => Js.NaN
  end.

Definition buildCredentialsFromStoredAccount {S} (account : SiteAccount)
  : ST S SiteCredentials :=
  if String.eqb (getAccountSiteType account) "cubence" then
    ret {| siteUrl := site_url account; auth := cookie None;
           adapterConfig := adapter_config account |}
  else
    let apiKey := Js.opt_string (ai_api_key (account_info account)) in
    if Js.truthy_string apiKey then
      ret {| siteUrl := site_url account; auth := api_key apiKey;
             adapterConfig := None |}
    else
      let userId := stored_userId (account_info account) in
      let accessToken := Js.opt_string (ai_access_token (account_info account)) in
      if negb (Js.truthy_string accessToken) || negb (Js.isFinite userId) then
        throw (PlainError "账号缺少 userId 或 access_token")
      else
        ret {| siteUrl := site_url account;
               auth := one_api_token userId accessToken;
               adapterConfig := adapter_config account |}.

(** [nextInfo] of [refreshAccount] *)
Definition refreshed_info (info : AccountInfo) (balance : option BalanceInfo)
    (usage : option UsageStats) : AccountInfo :=
  {| ai_id := ai_id info;
     ai_access_token := ai_access_token info;
     ai_api_key := ai_api_key info;
     ai_username := ai_username info;
     ai_quota := match balance with Some b => rawBalance b | None => ai_quota info end;
     ai_today_prompt_tokens :=
       match usage with
       | Some u => Js.nullish (promptTokens u) 0%float
       | None => ai_today_prompt_tokens info
       end;
     ai_today_completion_tokens :=
       match usage with
       | Some u => Js.nullish (completionTokens u) 0%float
       | None => ai_today_completion_tokens info
       end;
     ai_today_quota_consumption :=
       match usage with
       | Some u => rawConsumption u
       | None => ai_today_quota_consumption info
       end;
     ai_today_requests_count :=
       match usage with
       | Some u => Js.nullish (requestCount u) 0%float
       | None => ai_today_requests_count info
       end |}.

Definition no_update : AccountUpdate :=
  {| set_emoji := None; set_site_name := None; set_site_url := None;
     set_site_type := None; set_adapter_config := None;
     set_health_status := None; set_exchange_rate := None;
     set_account_info := None; set_last_sync_time := None;
     set_updated_at := None |}.

(** The update [refreshAccount] writes after a successful refresh. *)
Definition refresh_update (nextInfo : AccountInfo) : AccountUpdate :=
  {| set_emoji := None; set_site_name := None; set_site_url := None;
     set_site_type := None; set_adapter_config := None;
     set_health_status := Some healthy; set_exchange_rate := None;
     set_account_info := Some nextInfo;
     set_last_sync_time := Some (Date_now env);
     set_updated_at := None |}.

(** The update [refreshAccount] writes in its [catch] block. *)
Definition failure_update (health : HealthCheckResult) : AccountUpdate :=
  {| set_emoji := None; set_site_name := None; set_site_url := None;
     set_site_type := None; set_adapter_config := None;
     set_health_status := Some (status health); set_exchange_rate := None;
     set_account_info := None;
     set_last_sync_time := Some (Date_now env);
     set_updated_at := None |}.

(** The [try] block of [refreshAccount]. *)
Definition refreshAccount_try (registry : SiteAdapterRegistry) (accountId : string)
  : Task bool :=
  account <- getAccountById accountId ;;
  match account with
  | None => throw (PlainError ("账号 " +:+ accountId +:+ " 不存在"))
  | Some account =>
      let siteType := getAccountSiteType account in
      match getAdapter registry siteType with
      | None => throw (PlainError ("不支持的站点类型: " +:+ siteType))
      | Some adapter =>
          credentials <- buildCredentialsFromStoredAccount account ;;
          let timeRange := getTodayTimeRange in
          ' (balance, usage) <-
            network (fetchBalanceAndUsage adapter credentials timeRange) ;;
          let nextInfo := refreshed_info (account_info account) balance usage in
          do updateAccount accountId (refresh_update nextInfo) ;;
          ret true
      end
  end.

Definition refreshAccount (registry : SiteAdapterRegistry) (accountId : string)
  : Task bool :=
  try_catch (refreshAccount_try registry accountId)
    (fun e =>
       let health := determineHealthStatus e in
       do try_catch (do updateAccount accountId (failure_update health) ;; ret tt)
            (fun _ => ret tt) ;;
       ret false).

(** ** More of [src/services/accountStorage.ts]

    The storage area itself does not fail in this embedding: the [catch]
    blocks that only guard [storage.get], [storage.set] and
    [storage.remove] are never entered. *)

(** [deleteAccount]: its [catch] block rethrows. *)
Definition deleteAccount (id : string) : Task bool :=
  accounts <- getAllAccounts ;;
  let filteredAccounts :=
    List.filter (fun account => negb (String.eqb (sa_id account) id)) accounts in
  if (length filteredAccounts =? length accounts)%nat then
    throw (PlainError ("账号 " +:+ id +:+ " 不存在"))
  else
    do saveAccounts filteredAccounts ;;
    ret true.

Definition updateSyncTime (id : string) : Task bool :=
  updateAccount id
    {| set_emoji := None; set_site_name := None; set_site_url := None;
       set_site_type := None; set_adapter_config := None;
       set_health_status := None; set_exchange_rate := None;
       set_account_info := None;
       set_last_sync_time := Some (Date_now env);
       set_updated_at := Some (Date_now env) |}.

Record AccountStats := {
  total_quota : number;
  today_total_consumption : number;
  today_total_requests : number;
  today_total_prompt_tokens : number;
  today_total_completion_tokens : number
}.

Definition zero_stats : AccountStats :=
  {| total_quota := 0; today_total_consumption := 0; today_total_requests := 0;
     today_total_prompt_tokens := 0; today_total_completion_tokens := 0 |}.

(** The step of the [reduce] of [getAccountStats]. *)
Definition add_stats (stats : AccountStats) (account : SiteAccount) : AccountStats :=
  let info := account_info account in
  {| total_quota := total_quota stats + ai_quota info;
     today_total_consumption :=
       today_total_consumption stats + ai_today_quota_consumption info;
     today_total_requests := today_total_requests stats + ai_today_requests_count info;
     today_total_prompt_tokens :=
       today_total_prompt_tokens stats + ai_today_prompt_tokens info;
     today_total_completion_tokens :=
       today_total_completion_tokens stats + ai_today_completion_tokens info |}.

Definition getAccountStats : Task AccountStats :=
  accounts <- getAllAccounts ;;
  ret (fold_left add_stats accounts zero_stats).

(** [clearAllData] removes the accounts key (and the config key, which
    nothing reads). *)
Definition clearAllData : Task bool :=
  w <- get ;;
  do put {| sent := sent w; stored := None |} ;;
  ret true.

Definition exportData : Task StorageConfig := getStorageConfig.

(** [storage.set(ACCOUNTS, { ...data, last_updated: Date.now() })] *)
Definition importData (data : StorageConfig) : Task bool :=
  w <- get ;;
  do put {| sent := sent w;
            stored := Some {| accounts := accounts data;
                              last_updated := Date_now env |} |} ;;
  ret true.






(** [AccountStorageUtils.validateAccounts]: the callbacks of
    [accounts.map] start in the order of the accounts and each sends its one
    request before it first waits, so the requests go out in that order. *)
Definition validateAccounts_one (account : SiteAccount) : Async bool :=
  try_catch
    (let userId := stored_userId (account_info account) in
     let accessToken := Js.opt_string (ai_access_token (account_info account)) in
     if negb (Js.truthy_string accessToken) || negb (Js.isFinite userId) then
       ret false
     else validateAccountConnection (site_url account) userId accessToken)
    (fun _ => ret false).

Fixpoint validateAccounts_all (accounts : list SiteAccount) : Async (list bool) :=
  match accounts with
  | [] => ret []
  | account :: rest =>
      isValid <- validateAccounts_one account ;;
      results <- validateAccounts_all rest ;;
      ret (isValid :: results)
  end.

Record ValidatedAccounts := {
  valid : list SiteAccount;
  invalid : list SiteAccount
}.

Definition AccountStorageUtils_validateAccounts (accounts : list SiteAccount)
  : Async ValidatedAccounts :=
  results <- validateAccounts_all accounts ;;
  let judged := combine accounts results in
  ret {| valid := map fst (List.filter snd judged);
         invalid := map fst (List.filter (fun p => negb (snd p)) judged) |}.

(** ** More of [src/services/apiService.ts] *)

(** [{ quota, ...todayUsage }] *)
Record AccountData := {
  ad_quota : number;
  ad_today_quota_consumption : number;
  ad_today_prompt_tokens : number;
  ad_today_completion_tokens : number;
  ad_today_requests_count : number
}.

Definition fetchAccountData (baseUrl : string) (userId : number)
    (accessToken : string) : Async AccountData :=
  ' (quota, todayUsage) <-
    Promise_all2 (second_settles_first env)
      (fetchAccountQuota baseUrl userId accessToken)
      (fetchTodayUsage baseUrl userId accessToken) ;;
  ret {| ad_quota := quota;
         ad_today_quota_consumption := today_quota_consumption todayUsage;
         ad_today_prompt_tokens := today_prompt_tokens todayUsage;
         ad_today_completion_tokens := today_completion_tokens todayUsage;
         ad_today_requests_count := today_requests_count todayUsage |}.

Record RefreshAccountResult := {
  rar_success : bool;
  rar_data : option AccountData;
  healthStatus : HealthCheckResult
}.

Definition refreshAccountData (baseUrl : string) (userId : number)
    (accessToken : string) : Async RefreshAccountResult :=
  try_catch
    (data <- fetchAccountData baseUrl userId accessToken ;;
     ret {| rar_success := true; rar_data := Some data;
            healthStatus := {| status := healthy; hc_message := "账号状态正常" |} |})
    (fun e =>
       ret {| rar_success := false; rar_data := None;
              healthStatus := determineHealthStatus e |}).

(** ** [src/services/accountOperations.ts] *)

Definition isValidExchangeRate (rate : string) : bool :=
  let num := Js.parseFloat rate in
  negb (Js.isNaN num) && (0 <? num)%float && (num <=? 100)%float.


(** * Properties *)

(** ** Generic facts about outcomes *)

Lemma Return_not_Throw {A S} (a : A) (e : JsError) (s s' : S) :
  (Return a, s) <> (Throw e, s').
Proof. intros H; inversion H. Qed.

Ltac run := unfold bind, ret, throw, try_catch, get, put in *; simpl in *.

(** ** Registration *)

(** The method(s) a declared capability asks for (ISiteAdapter, §4.1). *)
Definition lacks_method (adapter : ISiteAdapter) (cap : AdapterCapability) : bool :=
  match cap with
  | AUTO_DETECT => negb (present (autoDetectAccount adapter))
  | BALANCE => negb (present (getAccountBalance adapter))
  | USAGE_STATS => negb (present (getUsageStats adapter))
  | TOKEN_MANAGEMENT =>
      negb (present (getApiTokens adapter) && present (createApiToken adapter)
            && present (updateApiToken adapter) && present (deleteApiToken adapter))
  | MODEL_LIST => negb (present (getAvailableModels adapter))
  | MODEL_PRICING => negb (present (getModelPricing adapter))
  end.

(** Some declared capability lacks a method it asks for. *)
Definition capability_gap (adapter : ISiteAdapter) : Prop :=
  exists cap, cap ∈ capabilities (metadata adapter) /\ lacks_method adapter cap = true.

Definition id_registered (registry : SiteAdapterRegistry) (adapter : ISiteAdapter) : Prop :=
  Map_has (id (metadata adapter)) (adaptersById registry) = true.

(** One of the adapter's site types is a key of the site-type map already. *)
Definition site_type_claimed (registry : SiteAdapterRegistry) (adapter : ISiteAdapter)
  : Prop :=
  exists t, t ∈ supportedSiteTypes (metadata adapter)
            /\ is_Some (adaptersBySiteType registry !! normalizeSiteType t).

(** Two entries of the adapter's own list normalize to the same key. *)
Definition site_type_repeated (adapter : ISiteAdapter) : Prop :=
  ~ NoDup (map normalizeSiteType (supportedSiteTypes (metadata adapter))).

Definition registration_throws (adapter : ISiteAdapter) (registry : SiteAdapterRegistry)
  : Prop :=
  exists message registry',
    registerAdapter adapter registry
    = (Throw (AdapterRegistrationError message), registry').

Lemma missing_token_methods_nil adapter :
  (length (missing_token_methods adapter) =? 0)%nat
  = present (getApiTokens adapter) && present (createApiToken adapter)
    && present (updateApiToken adapter) && present (deleteApiToken adapter).
Proof.
  unfold missing_token_methods.
  destruct (getApiTokens adapter), (createApiToken adapter),
    (updateApiToken adapter), (deleteApiToken adapter); reflexivity.
Qed.

Lemma has_capability_true caps cap : has_capability caps cap = true <-> cap ∈ caps.
Proof. unfold has_capability. apply bool_decide_eq_true. Qed.

Lemma assertCapabilitiesImplemented_cases {S} adapter (s : S) :
  (~ capability_gap adapter
   /\ assertCapabilitiesImplemented adapter s = (Return tt, s))
  \/ (capability_gap adapter
      /\ exists message,
          assertCapabilitiesImplemented adapter s
          = (Throw (AdapterRegistrationError message), s)).
Proof.
  unfold assertCapabilitiesImplemented.
  set (caps := capabilities (metadata adapter)).
  assert (Hgap : forall cap, has_capability caps cap && lacks_method adapter cap = true
                             -> capability_gap adapter).
  { intros cap H. apply andb_true_iff in H as [H1 H2].
    exists cap. split; [by apply has_capability_true | done]. }
  destruct (has_capability caps AUTO_DETECT && negb (present (autoDetectAccount adapter)))
    eqn:E1; [right; split; [by apply (Hgap AUTO_DETECT) | by eexists] |].
  destruct (has_capability caps BALANCE && negb (present (getAccountBalance adapter)))
    eqn:E2; [right; split; [by apply (Hgap BALANCE) | by eexists] |].
  destruct (has_capability caps USAGE_STATS && negb (present (getUsageStats adapter)))
    eqn:E3; [right; split; [by apply (Hgap USAGE_STATS) | by eexists] |].
  destruct (has_capability caps TOKEN_MANAGEMENT
            && negb (length (missing_token_methods adapter) =? 0)%nat)
    eqn:E4.
  { right; split; [| by eexists]. apply (Hgap TOKEN_MANAGEMENT).
    simpl. by rewrite <- missing_token_methods_nil. }
  destruct (has_capability caps MODEL_LIST && negb (present (getAvailableModels adapter)))
    eqn:E5; [right; split; [by apply (Hgap MODEL_LIST) | by eexists] |].
  destruct (has_capability caps MODEL_PRICING && negb (present (getModelPricing adapter)))
    eqn:E6; [right; split; [by apply (Hgap MODEL_PRICING) | by eexists] |].
  left. split; [| reflexivity].
  intros [cap [Hin Hl]]. apply has_capability_true in Hin. fold caps in Hin.
  rewrite missing_token_methods_nil in E4.
  destruct cap; simpl in Hl; rewrite Hin, Hl in *; discriminate.
Qed.

(** The loop over the site types: it succeeds exactly when every key is
    free and no key comes twice, and then maps every key to the adapter. *)
Lemma claimSiteTypes_cases adapter siteTypes : forall registry,
  let keys := map normalizeSiteType siteTypes in
  let free :=
    (forall k, k ∈ keys -> adaptersBySiteType registry !! k = None) /\ NoDup keys in
  (free /\ exists registry',
      claimSiteTypes adapter siteTypes registry = (Return tt, registry')
      /\ adaptersById registry' = adaptersById registry
      /\ (forall k, k ∈ keys -> adaptersBySiteType registry' !! k = Some adapter)
      /\ (forall k, k ∉ keys ->
            adaptersBySiteType registry' !! k = adaptersBySiteType registry !! k))
  \/ (~ free /\ exists message registry',
        claimSiteTypes adapter siteTypes registry
        = (Throw (AdapterRegistrationError message), registry')).
Proof.
  induction siteTypes as [| t rest IH]; intros registry keys free; subst keys free.
  - left. split.
    + split; [intros k Hk; inversion Hk | constructor].
    + exists registry. simpl. repeat split; try done. intros k Hk; inversion Hk.
  - simpl. run.
    destruct (adaptersBySiteType registry !! normalizeSiteType t) as [existing |] eqn:Ek.
    + right. split; [| by eauto].
      intros [Hfree _]. specialize (Hfree (normalizeSiteType t)).
      rewrite Hfree in Ek; [done | by left].
    + match goal with
      | |- context [claimSiteTypes adapter rest ?r] => destruct (IH r) as [[Hf H] | [Hn H]]
      end; simpl in *.
      * left. destruct Hf as [Hfree Hnd].
        assert (Hnotin : normalizeSiteType t ∉ map normalizeSiteType rest).
        { intros Hin. specialize (Hfree _ Hin). by rewrite lookup_insert_eq in Hfree. }
        split.
        { split.
          - intros k Hk. apply elem_of_cons in Hk as [-> | Hk]; [done |].
            specialize (Hfree _ Hk).
            rewrite lookup_insert_ne in Hfree; [done |].
            intros Heq. apply Hnotin. by rewrite Heq.
          - by constructor. }
        destruct H as (registry' & Hrun & Hid & Hin & Hout).
        exists registry'. rewrite Hrun. repeat split; try done.
        { intros k Hk. apply elem_of_cons in Hk as [-> | Hk]; [| by apply Hin].
          rewrite Hout; [| done]. by rewrite lookup_insert_eq. }
        { intros k Hk. apply not_elem_of_cons in Hk as [Hne Hk].
          rewrite Hout; [| done]. by rewrite lookup_insert_ne. }
      * right. split.
        { intros [Hfree Hnd]. apply Hn. inversion Hnd as [| ? ? Hnotin Hnd']; subst.
          split; [| done].
          intros k Hk. rewrite lookup_insert_ne.
          - apply Hfree. by right.
          - intros Heq. apply Hnotin. by rewrite Heq. }
        destruct H as (m & registry' & Hrun). rewrite Hrun. by eauto.
Qed.

Lemma Map_has_false_set {V} k (v : V) m :
  Map_has k m = false -> Map_set k v m = m ++ [(k, v)].
Proof.
  unfold Map_has. induction m as [| [k' v'] r IH]; simpl; [done |].
  destruct (String.eqb k' k); [done |].
  intros H. by rewrite IH.
Qed.

Lemma Map_get_set {V} k (v : V) m : Map_get k (Map_set k v m) = Some v.
Proof.
  induction m as [| [k' v'] r IH]; simpl.
  - by rewrite String.eqb_refl.
  - destruct (String.eqb k' k) eqn:E; simpl; by rewrite E.
Qed.

Lemma registerAdapter_cases adapter registry :
  let refused :=
    id (metadata adapter) = "" \/ capability_gap adapter
    \/ id_registered registry adapter \/ site_type_claimed registry adapter
    \/ site_type_repeated adapter in
  (refused /\ registration_throws adapter registry)
  \/ (~ refused /\ exists registry',
        registerAdapter adapter registry = (Return tt, registry')
        /\ adaptersById registry' = adaptersById registry ++ [(id (metadata adapter), adapter)]
        /\ Map_get (id (metadata adapter)) (adaptersById registry') = Some adapter
        /\ (forall t, t ∈ supportedSiteTypes (metadata adapter) ->
              adaptersBySiteType registry' !! normalizeSiteType t = Some adapter)
        /\ (forall k, k ∉ map normalizeSiteType (supportedSiteTypes (metadata adapter)) ->
              adaptersBySiteType registry' !! k = adaptersBySiteType registry !! k)).
Proof.
  intros refused. subst refused.
  unfold registration_throws, registerAdapter, id_registered, site_type_claimed,
    site_type_repeated.
  unfold Js.truthy_string.
  destruct (String.eqb_spec (id (metadata adapter)) "") as [Hid | Hid]; simpl.
  { left. split; [by left | by eauto]. }
  run.
  destruct (assertCapabilitiesImplemented_cases adapter registry)
    as [[Hgap Hrun] | [Hgap [m Hrun]]]; rewrite Hrun.
  2: { left. split; [by right; left | by eauto]. }
  destruct (Map_has (id (metadata adapter)) (adaptersById registry)) eqn:Ehas.
  { left. split; [by right; right; left | by eauto]. }
  match goal with
  | |- context [claimSiteTypes adapter ?l ?r] =>
      destruct (claimSiteTypes_cases adapter l r) as [[Hf H] | [Hn H]]
  end; simpl in *.
  - right. destruct Hf as [Hfree Hnd].
    destruct H as (registry' & Hrun' & Hbyid & Hin & Hout). split.
    + intros [? | [? | [? | [[t [Ht [x Hx]]] | Hrep]]]]; try done.
      rewrite Hfree in Hx; [done |]. by apply list_elem_of_fmap_2.
    + exists registry'. rewrite Hrun', Hbyid. repeat split.
      * by apply Map_has_false_set.
      * apply Map_get_set.
      * intros t Ht. apply Hin. by apply list_elem_of_fmap_2.
      * done.
  - left. split.
    + destruct (decide (Forall (fun k => adaptersBySiteType registry !! k = None)
                          (map normalizeSiteType (supportedSiteTypes (metadata adapter)))))
        as [Hall | Hex].
      * right; right; right; right. intros Hnd. apply Hn. split; [| done].
        by apply Forall_forall.
      * right; right; right; left. apply not_Forall_Exists in Hex; [| apply _].
        apply Exists_exists in Hex as (k & Hk & Hsome).
        apply list_elem_of_fmap in Hk as (t & -> & Ht).
        exists t. split; [done |].
        simpl in Hsome.
        destruct (adaptersBySiteType registry !! normalizeSiteType t); [by eauto | done].
    + destruct H as (m & registry' & Hrun'). rewrite Hrun'. by eauto.
Qed.

(** C1 (as amended). [registerAdapter] throws an [AdapterRegistrationError],
    synchronously, exactly when the adapter's [metadata.id] is empty, or the
    id is registered already, or one of its [supportedSiteTypes] (trimmed and
    lower-cased) is a key of the site-type map already, or two entries of
    its own [supportedSiteTypes] normalize to the same key, or a declared
    capability lacks a method it asks for; TOKEN_MANAGEMENT asks for all of
    [getApiTokens], [createApiToken], [updateApiToken] and
    [deleteApiToken], so declaring it with one of the four missing fails.
    Otherwise registration returns, the adapter is recorded under its id,
    last in registration order, and under every one of its site-type
    keys. *)
Theorem registerAdapter_refuses_exactly registry adapter :
  (registration_throws adapter registry <->
     id (metadata adapter) = "" \/ id_registered registry adapter
     \/ site_type_claimed registry adapter \/ site_type_repeated adapter
     \/ capability_gap adapter)
  /\ (TOKEN_MANAGEMENT ∈ capabilities (metadata adapter) ->
      getApiTokens adapter = None \/ createApiToken adapter = None
      \/ updateApiToken adapter = None \/ deleteApiToken adapter = None ->
      registration_throws adapter registry)
  /\ (registration_throws adapter registry
      \/ exists registry', registerAdapter adapter registry = (Return tt, registry'))
  /\ (forall registry',
        registerAdapter adapter registry = (Return tt, registry') ->
        adaptersById registry'
        = adaptersById registry ++ [(id (metadata adapter), adapter)]
        /\ Map_get (id (metadata adapter)) (adaptersById registry') = Some adapter
        /\ forall t, t ∈ supportedSiteTypes (metadata adapter) ->
             adaptersBySiteType registry' !! normalizeSiteType t = Some adapter).
Proof.
  assert (Hiff : registration_throws adapter registry <->
     id (metadata adapter) = "" \/ id_registered registry adapter
     \/ site_type_claimed registry adapter \/ site_type_repeated adapter
     \/ capability_gap adapter).
  { destruct (registerAdapter_cases adapter registry)
      as [[Href Hthrow] | [Href (registry' & Hrun & _)]]; simpl in *.
    - split; [intros _; tauto | done].
    - split.
      + intros (m & r & Hthrow). rewrite Hrun in Hthrow. discriminate.
      + intros H. exfalso. apply Href. tauto. }
  split; [exact Hiff |]. split; [| split].
  - intros Hcap Hmiss. apply Hiff. do 4 right.
    exists TOKEN_MANAGEMENT. split; [done |]. simpl.
    destruct Hmiss as [-> | [-> | [-> | ->]]]; simpl;
      rewrite ?andb_false_r; reflexivity.
  - destruct (registerAdapter_cases adapter registry)
      as [[_ Hthrow] | [_ (registry' & Hrun & _)]]; [by left | by right; eauto].
  - intros registry' Hrun.
    destruct (registerAdapter_cases adapter registry)
      as [[_ (m & r & Hthrow)] | [_ (registry'' & Hrun' & H1 & H2 & H3 & _)]].
    + rewrite Hrun in Hthrow. discriminate.
    + rewrite Hrun in Hrun'. injection Hrun' as <-. done.
Qed.

(** ** Detection of the site type *)

(** What the loop of [detectSiteType] does on a list of adapters, in
    order: an adapter without [getSiteStatus] is passed over; a probe that
    resolves to a status ends the loop with the adapter's id; a probe that
    resolves to [null] or throws lets the loop go on; the end of the list
    gives [null]. The history records the probes made. *)
Inductive Probed (url : string)
  : list ISiteAdapter -> History -> option string -> History -> Prop :=
| probed_end h : Probed url [] h None h
| probed_skip adapter rest h r h' :
    getSiteStatus adapter = None ->
    Probed url rest h r h' ->
    Probed url (adapter :: rest) h r h'
| probed_match adapter rest h probe info h' :
    getSiteStatus adapter = Some probe ->
    probe url h = (Return (Some info), h') ->
    Probed url (adapter :: rest) h (Some (id (metadata adapter))) h'
| probed_null adapter rest h probe h1 r h' :
    getSiteStatus adapter = Some probe ->
    probe url h = (Return None, h1) ->
    Probed url rest h1 r h' ->
    Probed url (adapter :: rest) h r h'
| probed_throw adapter rest h probe e h1 r h' :
    getSiteStatus adapter = Some probe ->
    probe url h = (Throw e, h1) ->
    Probed url rest h1 r h' ->
    Probed url (adapter :: rest) h r h'.

Lemma probeAdapters_Probed url adapters : forall h,
  exists r h', probeAdapters url adapters h = (Return r, h')
               /\ Probed url adapters h r h'.
Proof.
  induction adapters as [| adapter rest IH]; intros h.
  - exists None, h. split; [reflexivity | constructor].
  - simpl. destruct (getSiteStatus adapter) as [probe |] eqn:Eprobe.
    + run. destruct (probe url h) as [[[info |] | e] h1] eqn:Erun; simpl.
      * exists (Some (id (metadata adapter))), h1. split; [reflexivity |].
        by eapply probed_match.
      * destruct (IH h1) as (r & h' & Hrun & Hp). exists r, h'.
        split; [done |]. by eapply probed_null.
      * destruct (IH h1) as (r & h' & Hrun & Hp). exists r, h'.
        split; [done |]. by eapply probed_throw.
    + destruct (IH h) as (r & h' & Hrun & Hp). exists r, h'.
      split; [done |]. by apply probed_skip.
Qed.

Lemma Probed_deterministic url adapters h r1 h1 r2 h2 :
  Probed url adapters h r1 h1 -> Probed url adapters h r2 h2 -> r1 = r2 /\ h1 = h2.
Proof.
  intros H1. revert r2 h2.
  induction H1; intros r2 h2 H2; inversion H2; subst; try congruence; eauto;
    match goal with
    | Ha : getSiteStatus ?a = Some ?p, Hb : getSiteStatus ?a = Some ?q |- _ =>
        rewrite Ha in Hb; injection Hb as <-
    end;
    match goal with
    | Ha : ?p ?u ?h = _, Hb : ?p ?u ?h = _ |- _ =>
        rewrite Ha in Hb; inversion Hb; subst; eauto
    end.
Qed.

(** A result of the loop is the id of a registered adapter that
    implements the probe; [null] means that no probe gave a status. *)
Lemma Probed_Some url adapters h i h' :
  Probed url adapters h (Some i) h' ->
  exists adapter, adapter ∈ adapters /\ id (metadata adapter) = i
                  /\ is_Some (getSiteStatus adapter).
Proof.
  intros H. remember (Some i) as r eqn:Er.
  induction H; try discriminate;
    try (destruct (IHProbed Er) as (a & Ha & Hi & Hs); exists a;
         split; [by right | done]).
  injection Er as <-. exists adapter. split; [by left |]. split; [done | by eauto].
Qed.

(** C4. [detectSiteType] never throws; it probes the [getSiteStatus] of
    the adapters in registration order on the normalized URL, passing over
    the adapters without one, returns the [metadata.id] of the first whose
    probe resolves to a truthy value, goes on to the next adapter when a
    probe throws or resolves to [null], and returns [null] when no probe
    gives a status. [Probed] determines the result and the requests made. *)
Theorem detectSiteType_first_match registry siteUrl h :
  exists r h',
    detectSiteType registry siteUrl h = (Return r, h')
    /\ Probed (normalizeSiteUrl siteUrl) (map snd (adaptersById registry)) h r h'
    /\ (forall r2 h2,
          Probed (normalizeSiteUrl siteUrl) (map snd (adaptersById registry)) h r2 h2 ->
          r2 = r /\ h2 = h')
    /\ (forall i, r = Some i ->
          exists adapter, adapter ∈ getAllAdapters registry
                          /\ id (metadata adapter) = i
                          /\ is_Some (getSiteStatus adapter)).
Proof.
  unfold detectSiteType, getAllAdapters.
  destruct (probeAdapters_Probed (normalizeSiteUrl siteUrl)
              (map snd (adaptersById registry)) h) as (r & h' & Hrun & Hp).
  exists r, h'. repeat split; try done.
  - by destruct (Probed_deterministic _ _ _ _ _ _ _ H Hp).
  - by destruct (Probed_deterministic _ _ _ _ _ _ _ H Hp).
  - intros i ->. by eapply Probed_Some.
Qed.

(** ** The adapters *)

(** [apiRequest] sends exactly one request. *)
Lemma apiRequest_sends {T}
    (reply : History -> string -> RequestInit -> HttpReply (ApiResponse T))
    url options endpoint h :
  snd (apiRequest reply url options endpoint h) = h ++ [Fetch url options].
Proof.
  unfold apiRequest, fetch, json. run.
  destruct (reply h url options) as [e | st body]; simpl; [done |].
  destruct (ok_status st); simpl; [| done].
  destruct body as [data | e]; simpl; [| done].
  by destruct (ar_success data), (ar_data data).
Qed.

Lemma fetchAccountQuota_sends baseUrl userId accessToken h :
  snd (fetchAccountQuota baseUrl userId accessToken h)
  = h ++ [Fetch (baseUrl +:+ "/api/user/self")
            (createTokenAuthRequest userId accessToken)].
Proof.
  unfold fetchAccountQuota, bind.
  rewrite <- (apiRequest_sends (api_user_self server) _ _ "/api/user/self" h).
  by destruct (apiRequest _ _ _ _ h) as [[? | ?] ?].
Qed.

(** The request for a page of the log. *)
Definition log_request (baseUrl : string) (userId : number) (accessToken : string)
    (page : Z) : Request :=
  Fetch (log_url baseUrl page) (createTokenAuthRequest userId accessToken).

Lemma usage_loop_extends baseUrl userId accessToken fuel : forall st h,
  exists rest, snd (usage_loop fuel baseUrl userId accessToken st h) = h ++ rest.
Proof.
  induction fuel as [| fuel IH]; intros st h; simpl.
  - destruct (_ <=? _); exists []; by rewrite app_nil_r.
  - destruct (_ <=? _); [| exists []; by rewrite app_nil_r].
    unfold bind at 1.
    pose proof (apiRequest_sends (api_log_self server)
                  (log_url baseUrl (currentPage st))
                  (createTokenAuthRequest userId accessToken)
                  "/api/log/self" h) as Hs.
    destruct (apiRequest _ _ _ _ h) as [[logData | e] h1]; simpl in *; subst h1.
    + destruct (_ <=? _)%float; [by eexists |].
      match goal with
      | |- context [usage_loop fuel _ _ _ ?s1 ?h1] =>
          destruct (IH s1 h1) as [rest Hrest]
      end.
      rewrite Hrest, <- app_assoc. by eexists.
    + by eexists.
Qed.

Lemma usage_loop_first baseUrl userId accessToken fuel st h :
  currentPage st <= MAX_PAGES ->
  exists rest,
    snd (usage_loop (S fuel) baseUrl userId accessToken st h)
    = h ++ log_request baseUrl userId accessToken (currentPage st) :: rest.
Proof.
  intros Hp. apply Z.leb_le in Hp. simpl. rewrite Hp.
  unfold bind at 1. unfold log_request.
  pose proof (apiRequest_sends (api_log_self server)
                (log_url baseUrl (currentPage st))
                (createTokenAuthRequest userId accessToken)
                "/api/log/self" h) as Hs.
  destruct (apiRequest _ _ _ _ h) as [[logData | e] h1]; simpl in *; subst h1.
  - destruct (_ <=? _)%float; [by exists [] |].
    match goal with
    | |- context [usage_loop fuel _ _ _ ?s1 ?h1] =>
        destruct (usage_loop_extends baseUrl userId accessToken fuel s1 h1)
          as [rest Hrest]
    end.
    rewrite Hrest, <- app_assoc. by eexists.
  - by exists [].
Qed.

Lemma fetchTodayUsage_sends baseUrl userId accessToken h :
  exists rest,
    snd (fetchTodayUsage baseUrl userId accessToken h)
    = h ++ log_request baseUrl userId accessToken 1 :: rest.
Proof.
  unfold fetchTodayUsage.
  destruct (usage_loop_first baseUrl userId accessToken 99
              {| currentPage := 1; totalRequestsCount := 0;
                 aggregatedData := zero_usage |} h) as [rest Hrest]; [done |].
  exists rest. unfold bind.
  change (Z.to_nat MAX_PAGES) with (S 99).
  by destruct (usage_loop (S 99) _ _ _ _ h) as [[? | ?] ?].
Qed.

(** C5. With credentials whose [auth.kind] is not ["one-api-token"] the
    OneApi adapter sends nothing: [getAccountBalance] and [getUsageStats]
    reject with an [Error] whose message names the kind it needs, and
    [validateConnection] returns [{ok: false}] with that message instead of
    throwing. With ["one-api-token"] credentials the guard lets every one of
    the three through to the network: the request is sent, and the message
    of [validateConnection], if any, is not the kind-mismatch one. *)
Theorem OneApiAdapter_auth_kind_guard credentials timeRange h :
  Js.includes OneApiAdapter_kind_mismatch "one-api-token" = true
  /\ (kind (auth credentials) <> "one-api-token" ->
      OneApiAdapter_getAccountBalance credentials h
      = (Throw (PlainError OneApiAdapter_kind_mismatch), h)
      /\ OneApiAdapter_getUsageStats credentials timeRange h
         = (Throw (PlainError OneApiAdapter_kind_mismatch), h)
      /\ OneApiAdapter_validateConnection credentials h
         = (Return {| ok := false; vr_message := Some OneApiAdapter_kind_mismatch;
                      details := None |}, h))
  /\ (forall userId accessToken,
        auth credentials = one_api_token userId accessToken ->
        let self :=
          Fetch (siteUrl credentials +:+ "/api/user/self")
            (createTokenAuthRequest userId accessToken) in
        snd (OneApiAdapter_getAccountBalance credentials h) = h ++ [self]
        /\ (exists rest,
              snd (OneApiAdapter_getUsageStats credentials timeRange h)
              = h ++ log_request (siteUrl credentials) userId accessToken 1 :: rest)
        /\ exists validate,
             OneApiAdapter_validateConnection credentials h
             = (Return validate, h ++ [self])
             /\ vr_message validate <> Some OneApiAdapter_kind_mismatch).
Proof.
  split; [reflexivity |]. split.
  - intros Hkind.
    unfold OneApiAdapter_getAccountBalance, OneApiAdapter_getUsageStats,
      OneApiAdapter_validateConnection.
    destruct (auth credentials); simpl in Hkind; done.
  - intros userId accessToken Hauth self. subst self.
    unfold OneApiAdapter_getAccountBalance, OneApiAdapter_getUsageStats,
      OneApiAdapter_validateConnection.
    rewrite Hauth. split; [| split].
    + unfold bind.
      rewrite <- (fetchAccountQuota_sends (siteUrl credentials) userId accessToken h).
      by destruct (fetchAccountQuota _ _ _ h) as [[? | ?] ?].
    + destruct (fetchTodayUsage_sends (siteUrl credentials) userId accessToken h)
        as [rest Hrest].
      exists rest. rewrite <- Hrest. unfold bind.
      by destruct (fetchTodayUsage _ _ _ h) as [[? | ?] ?].
    + unfold validateAccountConnection. run.
      pose proof (fetchAccountQuota_sends (siteUrl credentials) userId accessToken h)
        as Hs.
      destruct (fetchAccountQuota _ _ _ h) as [[q | e] h1]; simpl in *; subst h1;
        eexists; (split; [reflexivity | simpl; discriminate]).
Qed.

(** C6. Both adapters report [balanceUSD = rawBalance / conversionFactor]
    with the unit and the factor their metadata declares: quota points and
    500000 for the OneApi adapter, micro-USD and 1000000 for the Cubence
    adapter. A raw balance of 1,000,000 quota points is 2 USD; a raw balance
    of 2,500,000 micro-USD is 2.5 USD. *)
Theorem balanceUSD_is_rawBalance_over_factor credentials h b h' :
  balance OneApiAdapter_metadata
  = Some {| rawUnit := "quota_points"; conversionFactor := 500000 |}
  /\ balance CubenceAdapter_metadata
     = Some {| rawUnit := "micro_usd"; conversionFactor := 1000000 |}
  /\ (OneApiAdapter_getAccountBalance credentials h = (Return b, h') ->
      bal_rawUnit b = "quota_points"
      /\ bal_conversionFactor b = Some 500000%float
      /\ balanceUSD b = Some (rawBalance b / 500000)%float
      /\ (rawBalance b = 1000000%float -> balanceUSD b = Some 2%float))
  /\ (CubenceAdapter_getAccountBalance credentials h = (Return b, h') ->
      bal_rawUnit b = "micro_usd"
      /\ bal_conversionFactor b = Some 1000000%float
      /\ balanceUSD b = Some (rawBalance b / 1000000)%float
      /\ (rawBalance b = 2500000%float -> balanceUSD b = Some 2.5%float)).
Proof.
  split; [reflexivity |]. split; [reflexivity |]. split.
  - unfold OneApiAdapter_getAccountBalance.
    destruct (auth credentials) as [userId accessToken | |]; try discriminate.
    unfold bind, ret.
    destruct (fetchAccountQuota _ _ _ h) as [[q | e] h1]; [| discriminate].
    intros Hb. injection Hb as <- <-. simpl.
    repeat split. by intros ->.
  - unfold CubenceAdapter_getAccountBalance.
    destruct (auth credentials) as [| | uid]; try discriminate.
    unfold bind, ret, throw.
    destruct (CubenceAdapter_overview _ h) as [[o | e] h1]; [| discriminate].
    destruct (co_success o); [| discriminate].
    destruct (co_data o) as [d |]; [| discriminate].
    intros Hb. injection Hb as <- <-. simpl.
    repeat split. by intros ->.
Qed.

(** C7. When the overview of Cubence arrives with [success] and [data],
    [getAccountBalance] returns, and its [rawBalance] is the
    [total_balance] field whenever that field is a number, whether or not
    the dollar field is there too; when [total_balance] is absent and
    [total_balance_dollar] is a number, it is
    [Math.round(total_balance_dollar * 1000000)], which is 3,500,000 for
    3.5. *)
Theorem CubenceAdapter_rawBalance credentials h overview d h' :
  kind (auth credentials) = "cookie" ->
  CubenceAdapter_overview (siteUrl credentials) h = (Return overview, h') ->
  co_success overview = true ->
  co_data overview = Some d ->
  exists b,
    CubenceAdapter_getAccountBalance credentials h = (Return b, h')
    /\ (forall bal raw,
          co_balance d = Some bal -> total_balance bal = Some raw ->
          rawBalance b = raw)
    /\ (forall bal usd,
          co_balance d = Some bal -> total_balance bal = None ->
          total_balance_dollar bal = Some usd ->
          rawBalance b = Js.Math_round (usd * 1000000))
    /\ (forall bal,
          co_balance d = Some bal -> total_balance bal = None ->
          total_balance_dollar bal = Some 3.5%float ->
          rawBalance b = 3500000%float).
Proof.
  intros Hkind Hrun Hs Hd.
  unfold CubenceAdapter_getAccountBalance.
  destruct (auth credentials) as [| | uid]; try discriminate.
  unfold bind. rewrite Hrun, Hs, Hd. eexists. split; [reflexivity |]. simpl.
  split; [| split].
  - intros bal raw -> ->. reflexivity.
  - intros bal usd -> -> ->. reflexivity.
  - intros bal -> -> ->. reflexivity.
Qed.

(** ** Pagination of the usage log *)

(** The requests for [n] consecutive pages, from page [first] on. *)
Fixpoint log_requests (baseUrl : string) (userId : number) (accessToken : string)
    (first : Z) (n : nat) : list Request :=
  match n with
  | O => []
  | S n' =>
      log_request baseUrl userId accessToken first
      :: log_requests baseUrl userId accessToken (first + 1) n'
  end.

(** The site answers the requests for the pages [first], [first + 1], ...
    sent in this order after [h], each with a well-formed body: the
    elements of [pages]. *)
Definition serves (baseUrl : string) (userId : number) (accessToken : string)
    (h : History) (first : Z) (pages : list LogResponseData) : Prop :=
  forall i d, pages !! i = Some d ->
    exists st message,
      api_log_self server (h ++ log_requests baseUrl userId accessToken first i)
        (log_url baseUrl (first + Z.of_nat i))
        (createTokenAuthRequest userId accessToken)
      = Response st (Return {| ar_success := true; ar_data := Some d;
                               ar_message := message |})
      /\ ok_status st = true.

(** The test that ends the loop after the page numbered [page] answered
    [d]: [currentPage >= Math.ceil((d.total || 0) / 100)]. *)
Definition is_last_page (page : Z) (d : LogResponseData) : bool :=
  (totalPages d <=? Js.of_Z page)%float.

(** The running count and sums after one more page. *)
Definition add_page (acc : Z * AggregatedUsage) (d : LogResponseData)
  : Z * AggregatedUsage :=
  let pageData := aggregateUsageData (Js.nullish (items d) []) in
  (fst acc + Z.of_nat (length (Js.nullish (items d) [])),
   {| agg_quota_consumption :=
        agg_quota_consumption (snd acc) + agg_quota_consumption pageData;
      agg_prompt_tokens := agg_prompt_tokens (snd acc) + agg_prompt_tokens pageData;
      agg_completion_tokens :=
        agg_completion_tokens (snd acc) + agg_completion_tokens pageData |}).

(** What [fetchTodayUsage] reports for the pages it read. *)
Definition usage_of (pages : list LogResponseData) : TodayUsageData :=
  let acc := fold_left add_page pages (0, zero_usage) in
  {| today_quota_consumption := agg_quota_consumption (snd acc);
     today_prompt_tokens := agg_prompt_tokens (snd acc);
     today_completion_tokens := agg_completion_tokens (snd acc);
     today_requests_count := Js.of_Z (fst acc) |}.

Lemma apiRequest_ok {T}
    (reply : History -> string -> RequestInit -> HttpReply (ApiResponse T))
    url options endpoint h st d message :
  reply h url options
  = Response st (Return {| ar_success := true; ar_data := Some d;
                           ar_message := message |}) ->
  ok_status st = true ->
  apiRequest reply url options endpoint h = (Return d, h ++ [Fetch url options]).
Proof.
  intros Hreply Hok. unfold apiRequest, fetch, json. run.
  by rewrite Hreply; simpl; rewrite Hok.
Qed.

Lemma serves_head baseUrl userId accessToken h first d pages :
  serves baseUrl userId accessToken h first (d :: pages) ->
  apiRequest (api_log_self server) (log_url baseUrl first)
    (createTokenAuthRequest userId accessToken) "/api/log/self" h
  = (Return d, h ++ [log_request baseUrl userId accessToken first]).
Proof.
  intros Hs. destruct (Hs 0%nat d eq_refl) as (st & m & Hreply & Hok).
  simpl in Hreply. rewrite app_nil_r, Z.add_0_r in Hreply.
  by eapply apiRequest_ok.
Qed.

Lemma serves_tail baseUrl userId accessToken h first d pages :
  serves baseUrl userId accessToken h first (d :: pages) ->
  serves baseUrl userId accessToken
    (h ++ [log_request baseUrl userId accessToken first]) (first + 1) pages.
Proof.
  intros Hs i d' Hd. destruct (Hs (S i) d' Hd) as (st & m & Hreply & Hok).
  exists st, m. split; [| done].
  rewrite <- app_assoc. simpl in *.
  by replace (first + 1 + Z.of_nat i) with (first + Z.pos (Pos.of_succ_nat i)) by lia.
Qed.

(** The loop, on pages served well: it reads on while the test fails, and
    stops after the first page that passes it or after page [MAX_PAGES]. *)
Lemma usage_loop_pages baseUrl userId accessToken : forall pages fuel st h d_last,
  serves baseUrl userId accessToken h (currentPage st) (pages ++ [d_last]) ->
  (length pages < fuel)%nat ->
  currentPage st + Z.of_nat (length pages) <= MAX_PAGES ->
  (forall i d, pages !! i = Some d ->
     is_last_page (currentPage st + Z.of_nat i) d = false) ->
  is_last_page (currentPage st + Z.of_nat (length pages)) d_last = true
  \/ currentPage st + Z.of_nat (length pages) = MAX_PAGES ->
  exists page,
    usage_loop fuel baseUrl userId accessToken st h
    = (Return
         {| currentPage := page;
            totalRequestsCount :=
              fst (fold_left add_page (pages ++ [d_last])
                     (totalRequestsCount st, aggregatedData st));
            aggregatedData :=
              snd (fold_left add_page (pages ++ [d_last])
                     (totalRequestsCount st, aggregatedData st)) |},
       h ++ log_requests baseUrl userId accessToken (currentPage st)
              (S (length pages))).
Proof.
  induction pages as [| d rest IH]; intros fuel st h d_last Hs Hfuel Hmax Hgo Hend.
  - destruct fuel as [| fuel]; [simpl in Hfuel; lia |].
    simpl in Hend, Hmax, Hs. rewrite Z.add_0_r in Hend, Hmax.
    simpl usage_loop.
    apply Z.leb_le in Hmax. rewrite Hmax. apply Z.leb_le in Hmax.
    unfold bind at 1. rewrite (serves_head _ _ _ _ _ _ _ Hs).
    fold (is_last_page (currentPage st) d_last).
    destruct (is_last_page (currentPage st) d_last) eqn:Elast.
    + eexists. reflexivity.
    + destruct Hend as [? | Hcap]; [done |].
      assert (Hover : (currentPage st + 1 <=? MAX_PAGES) = false)
        by (apply Z.leb_gt; lia).
      destruct fuel; simpl; rewrite Hover; eexists; reflexivity.
  - destruct fuel as [| fuel]; [simpl in Hfuel; lia |].
    simpl in Hend, Hmax, Hs, Hfuel.
    assert (Hle : (currentPage st <=? MAX_PAGES) = true) by (apply Z.leb_le; lia).
    simpl usage_loop. rewrite Hle.
    unfold bind at 1. rewrite (serves_head _ _ _ _ _ _ _ Hs).
    fold (is_last_page (currentPage st) d).
    pose proof (Hgo 0%nat d eq_refl) as Hfirst.
    simpl in Hfirst. rewrite Z.add_0_r in Hfirst. rewrite Hfirst.
    match goal with
    | |- context [usage_loop fuel _ _ _ ?s1 ?h1] =>
        destruct (IH fuel s1 h1 d_last) as [page Hrun]
    end; simpl.
    + eapply serves_tail. exact Hs.
    + lia.
    + lia.
    + intros i d' Hd. specialize (Hgo (S i) d' Hd).
      by replace (currentPage st + 1 + Z.of_nat i)
        with (currentPage st + Z.of_nat (S i)) by lia.
    + by replace (currentPage st + 1 + Z.of_nat (length rest))
        with (currentPage st + Z.pos (Pos.of_succ_nat (length rest))) by lia.
    + exists page. simpl in Hrun. rewrite Hrun. by rewrite <- app_assoc.
Qed.

Lemma fetchTodayUsage_pages baseUrl userId accessToken h pages d_last :
  serves baseUrl userId accessToken h 1 (pages ++ [d_last]) ->
  (length pages < 100)%nat ->
  (forall i d, pages !! i = Some d -> is_last_page (1 + Z.of_nat i) d = false) ->
  is_last_page (1 + Z.of_nat (length pages)) d_last = true
  \/ length pages = 99%nat ->
  fetchTodayUsage baseUrl userId accessToken h
  = (Return (usage_of (pages ++ [d_last])),
     h ++ log_requests baseUrl userId accessToken 1 (S (length pages))).
Proof.
  intros Hs Hlen Hgo Hend. unfold fetchTodayUsage.
  destruct (usage_loop_pages baseUrl userId accessToken pages (Z.to_nat MAX_PAGES)
              {| currentPage := 1; totalRequestsCount := 0;
                 aggregatedData := zero_usage |} h d_last) as [page Hrun];
    simpl currentPage.
  - exact Hs.
  - change (Z.to_nat MAX_PAGES) with 100%nat. lia.
  - unfold MAX_PAGES. lia.
  - exact Hgo.
  - destruct Hend as [? | Hcap]; [by left |]. right. unfold MAX_PAGES. lia.
  - unfold bind. rewrite Hrun. reflexivity.
Qed.

Lemma is_last_page_250 d :
  total d = Some 250%float ->
  is_last_page 1 d = false /\ is_last_page 2 d = false /\ is_last_page 3 d = true.
Proof.
  intros Ht. unfold is_last_page, totalPages. rewrite Ht.
  repeat split; vm_compute; reflexivity.
Qed.

(** The items of a page, [logData.items || []]. *)
Definition page_items (d : LogResponseData) : list LogItem := Js.nullish (items d) [].

(** C3 (as amended). The usage-stats fetch of the OneApi adapter,
    [getUsageStats] with [one-api-token] credentials, reads the log through
    [fetchTodayUsage]. Against a log endpoint that reports [total = 250]
    with every page it sends exactly the three requests for the pages 1, 2
    and 3 at [page_size = 100], reports as [rawConsumption], [promptTokens]
    and [completionTokens] the sums of [quota], [prompt_tokens] and
    [completion_tokens] over the items of the three pages, and as
    [requestCount] the number of items it received: 250 when the pages hold
    250 items. In general the loop stops after the first page whose number
    is at least [Math.ceil(total / 100)] for the [total] that page reports
    (a missing [total] counts as 0), whatever the number of items received,
    or after page 100; reaching page 100 ends the loop with the sums so far
    and the call returns them. *)
Theorem OneApiAdapter_getUsageStats_pagination credentials timeRange userId
    accessToken h :
  auth credentials = one_api_token userId accessToken ->
  let baseUrl := siteUrl credentials in
  let reported (u : TodayUsageData) : UsageStats :=
    {| rawConsumption := today_quota_consumption u;
       use_rawUnit := "quota_points";
       use_conversionFactor := Some 500000%float;
       promptTokens := Some (today_prompt_tokens u);
       completionTokens := Some (today_completion_tokens u);
       requestCount := Some (today_requests_count u) |} in
  getUsageStats OneApiAdapter_adapter = Some OneApiAdapter_getUsageStats
  /\ (forall d1 d2 d3,
        serves baseUrl userId accessToken h 1 [d1; d2; d3] ->
        total d1 = Some 250%float -> total d2 = Some 250%float ->
        total d3 = Some 250%float ->
        let q d := agg_quota_consumption (aggregateUsageData (page_items d)) in
        let p d := agg_prompt_tokens (aggregateUsageData (page_items d)) in
        let c d := agg_completion_tokens (aggregateUsageData (page_items d)) in
        let n d := Z.of_nat (length (page_items d)) in
        OneApiAdapter_getUsageStats credentials timeRange h
        = (Return {| rawConsumption := (0 + q d1 + q d2 + q d3)%float;
                     use_rawUnit := "quota_points";
                     use_conversionFactor := Some 500000%float;
                     promptTokens := Some (0 + p d1 + p d2 + p d3)%float;
                     completionTokens := Some (0 + c d1 + c d2 + c d3)%float;
                     requestCount := Some (Js.of_Z (n d1 + n d2 + n d3)) |},
           h ++ [log_request baseUrl userId accessToken 1;
                 log_request baseUrl userId accessToken 2;
                 log_request baseUrl userId accessToken 3])
        /\ (n d1 + n d2 + n d3 = 250 ->
            exists stats h',
              OneApiAdapter_getUsageStats credentials timeRange h = (Return stats, h')
              /\ requestCount stats = Some 250%float))
  /\ (forall pages d_last,
        serves baseUrl userId accessToken h 1 (pages ++ [d_last]) ->
        (length pages < 100)%nat ->
        (forall i d, pages !! i = Some d -> is_last_page (1 + Z.of_nat i) d = false) ->
        is_last_page (1 + Z.of_nat (length pages)) d_last = true ->
        OneApiAdapter_getUsageStats credentials timeRange h
        = (Return (reported (usage_of (pages ++ [d_last]))),
           h ++ log_requests baseUrl userId accessToken 1 (S (length pages))))
  /\ (forall pages d_last,
        serves baseUrl userId accessToken h 1 (pages ++ [d_last]) ->
        length pages = 99%nat ->
        (forall i d, pages !! i = Some d -> is_last_page (1 + Z.of_nat i) d = false) ->
        OneApiAdapter_getUsageStats credentials timeRange h
        = (Return (reported (usage_of (pages ++ [d_last]))),
           h ++ log_requests baseUrl userId accessToken 1 100)).
Proof.
  intros Hauth baseUrl reported.
  assert (Hrun : forall pages d_last,
    serves baseUrl userId accessToken h 1 (pages ++ [d_last]) ->
    (length pages < 100)%nat ->
    (forall i d, pages !! i = Some d -> is_last_page (1 + Z.of_nat i) d = false) ->
    is_last_page (1 + Z.of_nat (length pages)) d_last = true
    \/ length pages = 99%nat ->
    OneApiAdapter_getUsageStats credentials timeRange h
    = (Return (reported (usage_of (pages ++ [d_last]))),
       h ++ log_requests baseUrl userId accessToken 1 (S (length pages)))).
  { intros pages d_last Hs Hlen Hgo Hend.
    unfold OneApiAdapter_getUsageStats. rewrite Hauth. fold baseUrl.
    unfold bind at 1.
    by rewrite (fetchTodayUsage_pages baseUrl userId accessToken h pages d_last
                  Hs Hlen Hgo Hend). }
  split; [reflexivity |]. split; [| split].
  - intros d1 d2 d3 Hs H1 H2 H3 q p c n.
    destruct (is_last_page_250 d1 H1) as (L1 & _ & _).
    destruct (is_last_page_250 d2 H2) as (_ & L2 & _).
    destruct (is_last_page_250 d3 H3) as (_ & _ & L3).
    assert (Hthree :
      OneApiAdapter_getUsageStats credentials timeRange h
      = (Return {| rawConsumption := (0 + q d1 + q d2 + q d3)%float;
                   use_rawUnit := "quota_points";
                   use_conversionFactor := Some 500000%float;
                   promptTokens := Some (0 + p d1 + p d2 + p d3)%float;
                   completionTokens := Some (0 + c d1 + c d2 + c d3)%float;
                   requestCount := Some (Js.of_Z (n d1 + n d2 + n d3)) |},
         h ++ [log_request baseUrl userId accessToken 1;
               log_request baseUrl userId accessToken 2;
               log_request baseUrl userId accessToken 3])).
    { rewrite (Hrun [d1; d2] d3 Hs).
      + subst reported q p c n. unfold usage_of, add_page, page_items. simpl.
        rewrite Z.add_0_l. reflexivity.
      + simpl. lia.
      + intros [| [| i]] d Hd; simpl in Hd; try discriminate;
          injection Hd as <-; assumption.
      + by left. }
    split; [exact Hthree |].
    intros Hn. eexists _, _. split; [exact Hthree |]. simpl. by rewrite Hn.
  - intros pages d_last Hs Hlen Hgo Hend. apply Hrun; try done. by left.
  - intros pages d_last Hs Hlen Hgo.
    rewrite (Hrun pages d_last Hs).
    + by rewrite Hlen.
    + lia.
    + done.
    + by right.
Qed.

(** ** Refresh *)

Lemma with_defaults_idempotent account :
  with_defaults (with_defaults account) = with_defaults account.
Proof. reflexivity. Qed.

(** The accounts [getAllAccounts] reads in a world. *)
Definition accounts_of (w : World) : list SiteAccount :=
  map with_defaults (accounts (Js.nullish (stored w) DEFAULT_CONFIG)).

Definition lookup_account (id : string) (l : list SiteAccount) : option SiteAccount :=
  find (fun account => String.eqb (sa_id account) id) l.

Lemma getAllAccounts_run w : getAllAccounts w = (Return (accounts_of w), w).
Proof. reflexivity. Qed.

Lemma getAccountById_run id w :
  getAccountById id w = (Return (lookup_account id (accounts_of w)), w).
Proof. reflexivity. Qed.

Lemma replace_first_found id updates l account :
  lookup_account id l = Some account ->
  exists l',
    replace_first id updates l = Some l'
    /\ lookup_account id l' = Some (merge account updates)
    /\ forall id', id' <> id -> lookup_account id' l' = lookup_account id' l.
Proof.
  unfold lookup_account.
  induction l as [| a rest IH]; simpl; [discriminate |].
  destruct (String.eqb_spec (sa_id a) id) as [Heq | Hne].
  - intros [= ->]. eexists. split; [reflexivity |]. simpl.
    rewrite <- Heq, String.eqb_refl. split; [reflexivity |].
    intros id' Hid'.
    by destruct (String.eqb_spec (sa_id account) id') as [E | E];
      [rewrite E in Hid' |].
  - intros Hfind. destruct (IH Hfind) as (l' & -> & Hl' & Hother).
    eexists. split; [reflexivity |]. simpl.
    destruct (String.eqb_spec (sa_id a) id) as [E | _]; [done |].
    split; [done |]. intros id' Hid'.
    destruct (String.eqb (sa_id a) id'); [done | by apply Hother].
Qed.

Lemma lookup_with_defaults id l :
  lookup_account id (map with_defaults l) = with_defaults <$> lookup_account id l.
Proof.
  unfold lookup_account. induction l as [| a rest IH]; simpl; [done |].
  by destruct (String.eqb (sa_id a) id).
Qed.

(** [updateAccount] on a stored account: it returns [true], leaves the
    requests alone, and the account reads back merged with the update;
    every other account reads back as before. *)
Lemma updateAccount_found id updates w account :
  lookup_account id (accounts_of w) = Some account ->
  exists w',
    updateAccount id updates w = (Return true, w')
    /\ sent w' = sent w
    /\ lookup_account id (accounts_of w') = Some (with_defaults (merge account updates))
    /\ forall id', id' <> id ->
         lookup_account id' (accounts_of w') = lookup_account id' (accounts_of w).
Proof.
  intros Hfound.
  destruct (replace_first_found id updates _ _ Hfound) as (l' & Hrep & Hl' & Hother).
  unfold updateAccount. run. fold (accounts_of w). rewrite Hrep. simpl.
  eexists. split; [reflexivity |]. split; [reflexivity |].
  match goal with
  | |- context [accounts_of ?w1] =>
      change (accounts_of w1) with (map with_defaults l')
  end.
  rewrite lookup_with_defaults, Hl'. split; [reflexivity |].
  intros id' Hid'. rewrite lookup_with_defaults, (Hother id' Hid').
  unfold accounts_of. rewrite lookup_with_defaults.
  by destruct (lookup_account id' _).
Qed.

Lemma Promise_all2_throws {S A B} second_first (p : ST S A) (q : ST S B) s :
  (exists e s', p s = (Throw e, s'))
  \/ (exists e, q (snd (p s)) = (Throw e, snd (q (snd (p s))))) ->
  exists e, Promise_all2 second_first p q s = (Throw e, snd (q (snd (p s)))).
Proof.
  unfold Promise_all2.
  destruct (p s) as [[a | e1] s1]; simpl;
    destruct (q s1) as [[b | e2] s2]; simpl; intros [H | H];
    try (destruct H as (e & s' & H); discriminate);
    try (destruct H as (e & H); discriminate); by eauto.
Qed.

(** The classification of a thrown error. *)
Lemma determineHealthStatus_classes :
  (forall message,
     Js.includes message "fetch" = true ->
     status (determineHealthStatus (TypeError message)) = error)
  /\ (forall message statusCode endpoint,
        statusCode <> 0 ->
        status (determineHealthStatus (ApiError message (Some statusCode) endpoint))
        = warning)
  /\ (forall e,
        (forall message, e = TypeError message -> Js.includes message "fetch" = false) ->
        (forall message statusCode endpoint,
           e = ApiError message (Some statusCode) endpoint -> statusCode = 0) ->
        status (determineHealthStatus e) = unknown).
Proof.
  split; [| split].
  - intros message H. simpl. by rewrite H.
  - intros message statusCode endpoint H. simpl.
    by destruct (Z.eqb_spec statusCode 0).
  - intros e Htype Hapi. destruct e as [m [c |] ep | m | m | m | m | m]; simpl; try done.
    + by rewrite (Hapi m c ep eq_refl).
    + by rewrite (Htype m eq_refl).
Qed.

(** What [apiRequest] throws: the rejection of [fetch] itself, or an
    [ApiError] carrying the status of a response that is not 2xx. *)
Lemma apiRequest_failures {T}
    (reply : History -> string -> RequestInit -> HttpReply (ApiResponse T))
    url options endpoint h :
  (forall e, reply h url options = Rejected e ->
     apiRequest reply url options endpoint h = (Throw e, h ++ [Fetch url options]))
  /\ (forall st body,
        reply h url options = Response st body -> ok_status st = false ->
        apiRequest reply url options endpoint h
        = (Throw (ApiError ("请求失败: " +:+ Js.Z_toString st) (Some st) (Some endpoint)),
           h ++ [Fetch url options])).
Proof.
  unfold apiRequest, fetch. run. split.
  - by intros e ->.
  - intros st body -> Hok. simpl. by rewrite Hok.
Qed.

Lemma stored_account_normal id w account :
  lookup_account id (accounts_of w) = Some account -> with_defaults account = account.
Proof.
  unfold accounts_of. rewrite lookup_with_defaults.
  destruct (lookup_account id _) as [raw |]; [| discriminate].
  by intros [= <-].
Qed.

(** C2. When the rebuilding of the credentials of a stored account throws,
    or the concurrent balance and usage fetch of [refreshAccount] rejects,
    with an error [e], [refreshAccount] does not rethrow: it returns
    [false]. The update it hands to the storage sets [health_status] and
    [last_sync_time] and nothing else; the account then reads back with the
    [account_info] it had, [quota] included, with every other field of the
    record as before (the storage layer stamps [updated_at]), and every
    other account reads back unchanged. The [health_status] written is the
    class of [e]: a [TypeError] whose message mentions [fetch] is
    ["error"], an [ApiError] carrying the status code of a non-2xx response
    is ["warning"], anything else is ["unknown"]. *)
Theorem refreshAccount_failure_keeps_data registry accountId w account adapter e h1 :
  getAccountById accountId w = (Return (Some account), w) ->
  getAdapter registry (getAccountSiteType account) = Some adapter ->
  (buildCredentialsFromStoredAccount account w = (Throw e, w) /\ h1 = sent w)
  \/ (exists credentials,
        buildCredentialsFromStoredAccount account w = (Return credentials, w)
        /\ fetchBalanceAndUsage adapter credentials getTodayTimeRange (sent w)
           = (Throw e, h1)) ->
  let health := determineHealthStatus e in
  (exists w' account',
     refreshAccount registry accountId w = (Return false, w')
     /\ w' = snd (updateAccount accountId (failure_update health)
                    {| sent := h1; stored := stored w |})
     /\ failure_update health
        = {| set_emoji := None; set_site_name := None; set_site_url := None;
             set_site_type := None; set_adapter_config := None;
             set_health_status := Some (status health); set_exchange_rate := None;
             set_account_info := None; set_last_sync_time := Some (Date_now env);
             set_updated_at := None |}
     /\ sent w' = h1
     /\ getAccountById accountId w' = (Return (Some account'), w')
     /\ account_info account' = account_info account
     /\ ai_quota (account_info account') = ai_quota (account_info account)
     /\ health_status account' = status health
     /\ last_sync_time account' = Date_now env
     /\ account'
        = {| sa_id := sa_id account; emoji := emoji account;
             site_name := site_name account; site_url := site_url account;
             site_type := site_type account;
             adapter_config := adapter_config account;
             health_status := status health;
             exchange_rate := exchange_rate account;
             account_info := account_info account;
             last_sync_time := Date_now env; updated_at := Date_now env;
             created_at := created_at account |}
     /\ forall other, other <> accountId ->
          fst (getAccountById other w') = fst (getAccountById other w))
  /\ (forall message,
        Js.includes message "fetch" = true ->
        status (determineHealthStatus (TypeError message)) = error)
  /\ (forall message statusCode endpoint,
        statusCode <> 0 ->
        status (determineHealthStatus (ApiError message (Some statusCode) endpoint))
        = warning)
  /\ (forall e',
        (forall message, e' = TypeError message -> Js.includes message "fetch" = false) ->
        (forall message statusCode endpoint,
           e' = ApiError message (Some statusCode) endpoint -> statusCode = 0) ->
        status (determineHealthStatus e') = unknown).
Proof.
  intros Hget Hadapter Hthrow health.
  split; [| exact determineHealthStatus_classes].
  rewrite getAccountById_run in Hget.
  assert (Hfound : lookup_account accountId (accounts_of w) = Some account)
    by congruence.
  clear Hget.
  set (w1 := {| sent := h1; stored := stored w |}).
  assert (Htry : refreshAccount_try registry accountId w = (Throw e, w1)).
  { unfold refreshAccount_try. unfold bind at 1.
    rewrite getAccountById_run, Hfound, Hadapter. unfold bind at 1.
    destruct Hthrow as [[Hbuild ->] | (credentials & Hbuild & Hfetch)].
    - rewrite Hbuild. subst w1. by destruct w.
    - rewrite Hbuild. unfold bind at 1. unfold network. by rewrite Hfetch. }
  assert (Hfound1 : lookup_account accountId (accounts_of w1) = Some account)
    by exact Hfound.
  destruct (updateAccount_found accountId (failure_update health) w1 account Hfound1)
    as (w' & Hup & Hsent & Hread & Hother).
  assert (Hnormal : with_defaults account = account)
    by exact (stored_account_normal _ _ _ Hfound).
  exists w', (with_defaults (merge account (failure_update health))).
  split.
  { unfold refreshAccount, try_catch. rewrite Htry. unfold bind at 1.
    fold health. unfold bind at 1. by rewrite Hup. }
  split; [by rewrite Hup |]. split; [reflexivity |]. split; [exact Hsent |].
  split; [by rewrite getAccountById_run, Hread |].
  split; [reflexivity |]. split; [reflexivity |]. split; [reflexivity |].
  split; [reflexivity |]. split.
  { pose proof (f_equal site_type Hnormal) as Htype.
    pose proof (f_equal adapter_config Hnormal) as Hconfig.
    simpl in Htype, Hconfig. unfold with_defaults, merge. simpl.
    by rewrite Htype, Hconfig. }
  intros other Hne. rewrite !getAccountById_run. simpl.
  by rewrite (Hother other Hne).
Qed.

(** ** Auto-detection through the manager *)

(** The [autoDetectAccount] of an adapter that declares AUTO_DETECT and
    implements it. *)
Definition auto_detect_of (adapter : ISiteAdapter)
  : option (string -> Async AutoDetectResult) :=
  if has_capability (capabilities (metadata adapter)) AUTO_DETECT
  then autoDetectAccount adapter else None.

Lemma auto_detect_of_None adapter :
  auto_detect_of adapter = None
  <-> AUTO_DETECT ∉ capabilities (metadata adapter) \/ autoDetectAccount adapter = None.
Proof.
  unfold auto_detect_of.
  destruct (has_capability _ AUTO_DETECT) eqn:E.
  - apply has_capability_true in E. split; [by right | by intros [? | ?]].
  - split; [| done]. intros _. left. intros Hin.
    apply has_capability_true in Hin. congruence.
Qed.

Lemma resolveSiteType_returns registry siteUrl siteType h :
  exists resolved h1,
    resolveSiteType registry siteUrl siteType h = (Return resolved, h1)
    /\ let explicit := Js.toLowerCase (trimmed siteType) in
       if Js.truthy_string explicit && negb (String.eqb explicit "auto")
       then resolved = explicit /\ h1 = h
       else exists detected,
           detectSiteType registry siteUrl h = (Return detected, h1)
           /\ resolved = match detected with
                         | Some i => Js.or_string i "one-api"
                         | None => "one-api"
                         end.
Proof.
  unfold resolveSiteType. simpl.
  destruct (Js.truthy_string _ && negb _).
  - by eexists _, _.
  - destruct (probeAdapters_Probed (normalizeSiteUrl siteUrl)
                (getAllAdapters registry) h) as (detected & h1 & Hrun & _).
    fold (detectSiteType registry siteUrl) in Hrun.
    unfold bind. rewrite Hrun. eexists _, _. split; [reflexivity |].
    exists detected. split; [done |]. by destruct detected.
Qed.

(** C8. [autoDetectAccount] of the manager never throws. For a site URL
    that is not blank it settles on a site type: the explicit one, trimmed
    and lower-cased, when that is neither empty nor ["auto"]; otherwise what
    [detectSiteType] finds for the trimmed URL, or ["one-api"] when it
    finds nothing. It answers [{success: false, error}] when no adapter
    serves that site type, or the adapter does not declare AUTO_DETECT or
    has no [autoDetectAccount]; an exception of the adapter and a failure
    the adapter reports both become [{success: false, error,
    detailedError}]; on success the data of the adapter (user name, access
    token, user id and exchange rate) come back unchanged, with [siteType]
    set to the site type settled on, and without an error. *)
Theorem autoDetectAccount_never_throws registry siteUrl requested h :
  exists result h',
    AccountManager_autoDetectAccount registry siteUrl requested h = (Return result, h')
    /\ (avr_success result = false ->
        avr_data result = None /\ is_Some (avr_error result))
    /\ (Js.trim siteUrl <> "" ->
        exists resolved h1,
          (let explicit := Js.toLowerCase (trimmed requested) in
           if Js.truthy_string explicit && negb (String.eqb explicit "auto")
           then resolved = explicit /\ h1 = h
           else exists detected,
               detectSiteType registry (Js.trim siteUrl) h = (Return detected, h1)
               /\ resolved = match detected with
                             | Some i => Js.or_string i "one-api"
                             | None => "one-api"
                             end)
          /\ match getAdapter registry resolved with
             | None =>
                 avr_success result = false /\ is_Some (avr_error result) /\ h' = h1
             | Some adapter =>
                 match auto_detect_of adapter with
                 | None =>
                     avr_success result = false /\ is_Some (avr_error result)
                     /\ h' = h1
                 | Some detect =>
                     match detect (Js.trim siteUrl) h1 with
                     | (Throw e, h2) =>
                         avr_success result = false
                         /\ avr_error result
                            = Some ("自动识别失败: " +:+ message_or_unknown e)
                         /\ avr_detailedError result
                            = Some (analyzeAutoDetectError (inr e))
                         /\ h' = h2
                     | (Return found, h2) =>
                         h' = h2
                         /\ if success found
                            then avr_success result = true
                                 /\ avr_error result = None
                                 /\ match data found with
                                    | Some d =>
                                        exists v,
                                          avr_data result = Some v
                                          /\ siteType v = Some resolved
                                          /\ va_username v = username d
                                          /\ va_accessToken v = accessToken d
                                          /\ va_userId v = userId d
                                          /\ va_exchangeRate v = exchangeRate d
                                    | None => avr_data result = None
                                    end
                            else avr_success result = false
                                 /\ is_Some (avr_error result)
                                 /\ is_Some (avr_detailedError result)
                     end
                 end
             end).
Proof.
  unfold AccountManager_autoDetectAccount, Js.truthy_string.
  destruct (String.eqb_spec (Js.trim siteUrl) "") as [Hblank | Hurl]; simpl.
  { eexists _, _. split; [reflexivity |]. split; [by eauto | done]. }
  destruct (resolveSiteType_returns registry (Js.trim siteUrl) requested h)
    as (resolved & h1 & Hres & Hhow).
  unfold bind at 1. rewrite Hres. fold (auto_detect_of).
  destruct (getAdapter registry resolved) as [adapter |] eqn:Eadapter.
  2: { eexists _, _. split; [reflexivity |]. split; [by eauto |].
       intros _. exists resolved, h1. rewrite Eadapter. by eauto. }
  change (if has_capability (capabilities (metadata adapter)) AUTO_DETECT
          then autoDetectAccount adapter else None) with (auto_detect_of adapter).
  destruct (auto_detect_of adapter) as [detect |] eqn:Edetect.
  2: { eexists _, _. split; [reflexivity |]. split; [by eauto |].
       intros _. exists resolved, h1. rewrite Eadapter, Edetect. by eauto. }
  unfold try_catch, bind, ret.
  destruct (detect (Js.trim siteUrl) h1) as [[found | e] h2] eqn:Edet.
  - destruct (success found) eqn:Esucc; simpl.
    + eexists _, _. split; [reflexivity |]. split; [done |].
      intros _. exists resolved, h1. rewrite Eadapter, Edetect, Edet, Esucc.
      split; [exact Hhow |]. split; [reflexivity |].
      split; [reflexivity |]. split; [reflexivity |].
      destruct (data found) as [d |]; simpl; [| reflexivity].
      eexists. split; [reflexivity |]. by repeat split.
    + eexists _, _. split; [reflexivity |]. split; [by eauto |].
      intros _. exists resolved, h1. rewrite Eadapter, Edetect, Edet, Esucc.
      simpl. by eauto 10.
  - eexists _, _. split; [reflexivity |]. split; [by eauto |].
    intros _. exists resolved, h1. rewrite Eadapter, Edetect, Edet.
    simpl. by eauto 10.
Qed.

(** ** The built-in registry *)

Arguments usage_loop : simpl never.

Lemma OneApiAdapter_well_formed : ~ capability_gap OneApiAdapter_adapter.
Proof.
  intros (cap & _ & Hl). by destruct cap.
Qed.

Lemma CubenceAdapter_well_formed : ~ capability_gap CubenceAdapter_adapter.
Proof.
  intros (cap & Hin & Hl).
  destruct cap; try discriminate; simpl in Hin;
    repeat (apply elem_of_cons in Hin as [Hin | Hin]; [discriminate |]);
    by apply elem_of_nil in Hin.
Qed.

Definition one_api_keys : list string :=
  ["one-api"; "new-api"; "veloera"; "one-hub"; "done-hub"].

Lemma one_api_keys_normal :
  map normalizeSiteType (supportedSiteTypes (metadata OneApiAdapter_adapter))
  = one_api_keys.
Proof. vm_compute. reflexivity. Qed.

Lemma cubence_keys_normal :
  map normalizeSiteType (supportedSiteTypes (metadata CubenceAdapter_adapter))
  = ["cubence"].
Proof. vm_compute. reflexivity. Qed.

(** The registry [getInstance()] builds: the OneApi adapter, then the
    Cubence adapter, each under its own site types. *)
Lemma getInstance_adapters :
  adaptersById getInstance
  = [("one-api", OneApiAdapter_adapter); ("cubence", CubenceAdapter_adapter)]
  /\ forall k,
       adaptersBySiteType getInstance !! k
       = if decide (k = "cubence") then Some CubenceAdapter_adapter
         else if decide (k ∈ one_api_keys) then Some OneApiAdapter_adapter
         else None.
Proof.
  unfold getInstance, ensureBuiltInAdaptersRegistered. run.
  set (r0 := {| adaptersById := []; adaptersBySiteType := ∅;
                builtInsRegistered := true |}).
  destruct (registerAdapter_cases OneApiAdapter_adapter r0)
    as [[Href _] | [_ (r1 & Hrun1 & Hid1 & _ & Hin1 & Hout1)]].
  { exfalso. simpl in Href.
    destruct Href as [Hid | [Hgap | [Hreg | [(t & _ & Hx) | Hrep]]]].
    - discriminate.
    - by apply OneApiAdapter_well_formed.
    - discriminate.
    - simpl in Hx. rewrite lookup_empty in Hx. by destruct Hx.
    - apply Hrep. rewrite one_api_keys_normal.
      refine (bool_decide_unpack _ _). vm_compute. exact I. }
  change (registerAdapter OneApiAdapter_adapter r0) with
    (registerAdapter OneApiAdapter_adapter r0) in Hrun1.
  rewrite one_api_keys_normal in Hout1.
  assert (Hk1 : forall k, adaptersBySiteType r1 !! k
                          = if decide (k ∈ one_api_keys)
                            then Some OneApiAdapter_adapter else None).
  { intros k. destruct (decide (k ∈ one_api_keys)) as [Hk | Hk].
    - rewrite <- one_api_keys_normal in Hk.
      apply list_elem_of_fmap in Hk as (t & -> & Ht). by apply Hin1.
    - rewrite (Hout1 k Hk). apply lookup_empty. }
  destruct (registerAdapter_cases CubenceAdapter_adapter r1)
    as [[Href _] | [_ (r2 & Hrun2 & Hid2 & _ & Hin2 & Hout2)]].
  { exfalso. simpl in Href.
    destruct Href as [Hid | [Hgap | [Hreg | [(t & Ht & Hx) | Hrep]]]].
    - discriminate.
    - by apply CubenceAdapter_well_formed.
    - unfold id_registered in Hreg. rewrite Hid1 in Hreg. discriminate.
    - simpl in Ht. apply list_elem_of_singleton in Ht as ->.
      rewrite Hk1 in Hx.
      assert (Hfree : normalizeSiteType "cubence" ∉ one_api_keys)
        by (refine (bool_decide_unpack _ _); vm_compute; exact I).
      destruct (decide _); [done | by destruct Hx].
    - apply Hrep. rewrite cubence_keys_normal.
      refine (bool_decide_unpack _ _). vm_compute. exact I. }
  rewrite cubence_keys_normal in Hout2.
  rewrite Hrun1. cbn beta iota. rewrite Hrun2. cbn [snd].
  split.
  - by rewrite Hid2, Hid1.
  - intros k. destruct (decide (k = "cubence")) as [-> | Hk].
    + apply (Hin2 "cubence"). by left.
    + rewrite Hout2; [apply Hk1 |]. by intros ->%list_elem_of_singleton.
Qed.

Lemma getAdapter_getInstance_one_api siteType :
  siteType ∈ supportedSiteTypes OneApiAdapter_metadata ->
  getAdapter getInstance siteType = Some OneApiAdapter_adapter.
Proof.
  intros Hin. unfold getAdapter.
  destruct getInstance_adapters as [_ ->].
  assert (Hk : normalizeSiteType siteType ∈ one_api_keys).
  { rewrite <- one_api_keys_normal. by apply list_elem_of_fmap_2. }
  assert (Hne : normalizeSiteType siteType <> "cubence").
  { intros Heq. rewrite Heq in Hk. revert Hk.
    refine (bool_decide_unpack (_ ∉ _) _). vm_compute. exact I. }
  destruct (decide _); [done |]. by destruct (decide _).
Qed.

(** Every site type but [cubence] that the built-in registry serves is
    served by the OneApi adapter. *)
Lemma getAdapter_getInstance_not_cubence siteType adapter :
  getAdapter getInstance siteType = Some adapter ->
  normalizeSiteType siteType <> "cubence" ->
  adapter = OneApiAdapter_adapter.
Proof.
  unfold getAdapter. destruct getInstance_adapters as [_ ->].
  intros H Hne. destruct (decide _); [done |].
  destruct (decide _); congruence.
Qed.

(** ** Saving an account *)

Lemma truthy_string_true s : s <> "" -> Js.truthy_string s = true.
Proof.
  intros H. unfold Js.truthy_string. by destruct (String.eqb_spec s "").
Qed.

Lemma buildCredentialsFromParams_api_key {S} adapterId siteUrl params (s : S) :
  adapterId <> "cubence" ->
  trimmed (param_apiKey params) <> "" ->
  buildCredentialsFromParams adapterId siteUrl params s
  = (Return {| built_credentials :=
                 {| siteUrl := siteUrl;
                    auth := api_key (trimmed (param_apiKey params));
                    adapterConfig := None |};
               built_username := Js.trim (param_username params);
               accountInfoSeed :=
                 {| seed_id := None; seed_access_token := None;
                    seed_api_key := Some (trimmed (param_apiKey params)) |} |},
     s).
Proof.
  intros Hid Hkey. unfold buildCredentialsFromParams.
  destruct (String.eqb_spec adapterId "cubence"); [done |].
  by rewrite (truthy_string_true _ Hkey).
Qed.

(** C9 (as amended). On the built-in registry, when the site type settled
    on is one of the site types of the OneApi adapter, the URL and the site
    name are not blank and [params.apiKey] is not blank after trimming,
    [validateAndSaveAccount] builds api-key credentials, which
    [validateConnection] of the OneApi adapter refuses: the call returns
    [{success: false}] with the adapter's kind-mismatch message, the adapter
    sends no request (the only requests are the probes of the detection,
    none when the site type is explicit), and nothing is persisted. The
    same holds for [validateAndUpdateAccount] with an account id that is not
    empty. The OneApi adapter is the adapter of every site type of the
    built-in registry but [cubence]. *)
Theorem apiKey_on_OneApi_site_is_refused params w resolved h1 :
  Js.trim (param_url params) <> "" ->
  Js.trim (param_siteName params) <> "" ->
  trimmed (param_apiKey params) <> "" ->
  resolveSiteType getInstance (Js.trim (param_url params)) (param_siteType params)
    (sent w) = (Return resolved, h1) ->
  resolved ∈ supportedSiteTypes OneApiAdapter_metadata ->
  let refused :=
    (Return (save_failure OneApiAdapter_kind_mismatch),
     {| sent := h1; stored := stored w |}) in
  validateAndSaveAccount getInstance params w = refused
  /\ (forall accountId,
        accountId <> "" ->
        validateAndUpdateAccount getInstance accountId params w = refused)
  /\ (let explicit := Js.toLowerCase (trimmed (param_siteType params)) in
      Js.truthy_string explicit && negb (String.eqb explicit "auto") = true ->
      h1 = sent w)
  /\ (forall siteType adapter,
        getAdapter getInstance siteType = Some adapter ->
        normalizeSiteType siteType <> "cubence" ->
        adapter = OneApiAdapter_adapter).
Proof.
  intros Hurl Hname Hkey Hres Hserved refused.
  split; [| split; [| split]].
  - unfold validateAndSaveAccount.
    rewrite (truthy_string_true _ Hurl), (truthy_string_true _ Hname).
    cbn [negb orb]. unfold bind at 1. unfold network at 1. rewrite Hres.
    rewrite (getAdapter_getInstance_one_api _ Hserved).
    unfold try_catch. unfold bind at 1.
    rewrite buildCredentialsFromParams_api_key; [| discriminate | done].
    reflexivity.
  - intros accountId Hid. unfold validateAndUpdateAccount.
    rewrite (truthy_string_true _ Hid), (truthy_string_true _ Hurl),
      (truthy_string_true _ Hname).
    cbn [negb orb]. unfold bind at 1. unfold network at 1. rewrite Hres.
    rewrite (getAdapter_getInstance_one_api _ Hserved).
    unfold try_catch. unfold bind at 1.
    rewrite buildCredentialsFromParams_api_key; [| discriminate | done].
    reflexivity.
  - intros explicit Hexplicit.
    destruct (resolveSiteType_returns getInstance (Js.trim (param_url params))
                (param_siteType params) (sent w)) as (r & h2 & Hres' & Hhow).
    rewrite Hres in Hres'. injection Hres' as <- <-.
    simpl in Hhow. fold explicit in Hhow. rewrite Hexplicit in Hhow.
    by destruct Hhow.
  - exact getAdapter_getInstance_not_cubence.
Qed.

(** The same parameters with another text for the exchange rate. *)
Definition with_exchangeRate (text : string) (params : ValidateAndSaveParams)
  : ValidateAndSaveParams :=
  {| param_siteType := param_siteType params;
     param_url := param_url params;
     param_siteName := param_siteName params;
     param_username := param_username params;
     param_accessToken := param_accessToken params;
     param_userId := param_userId params;
     param_apiKey := param_apiKey params;
     param_exchangeRate := text |}.

Lemma buildCredentialsFromParams_exchangeRate {S} adapterId siteUrl text params (s : S) :
  buildCredentialsFromParams adapterId siteUrl (with_exchangeRate text params) s
  = buildCredentialsFromParams adapterId siteUrl params s.
Proof. reflexivity. Qed.

Lemma accounts_of_normal w :
  map with_defaults (accounts_of w) = accounts_of w.
Proof.
  unfold accounts_of. rewrite map_map. apply map_ext. intros a.
  apply with_defaults_idempotent.
Qed.

(** Case analysis on a scrutinee of the goal that has no [match] inside. *)
Ltac case_step :=
  match goal with
  | |- context [match ?x with _ => _ end] =>
      lazymatch x with
      | context [match _ with _ => _ end] => fail
      | _ => destruct x eqn:?; simpl
      end
  end.

Ltac invert_step H :=
  match type of H with
  | context [match ?x with _ => _ end] =>
      lazymatch x with
      | context [match _ with _ => _ end] => fail
      | _ => destruct x eqn:?; simpl in H
      end
  end.

Lemma validateAndSaveAccount_result_ignores_rate registry params text w :
  fst (validateAndSaveAccount registry (with_exchangeRate text params) w)
  = fst (validateAndSaveAccount registry params w).
Proof.
  unfold validateAndSaveAccount, buildCredentialsFromParams, requireOneApiParams,
    with_exchangeRate, try_catch, bind, ret, throw, network.
  simpl.
  repeat case_step; try reflexivity.
Qed.

(** Whether [updateAccount] succeeds depends on the id alone. *)
Lemma updateAccount_result id updates w :
  fst (updateAccount id updates w)
  = Return (present (lookup_account id (accounts_of w))).
Proof.
  unfold updateAccount. run. fold (accounts_of w).
  generalize (accounts_of w). intros l.
  assert (H : forall l0, present (replace_first id updates l0)
                         = present (lookup_account id l0)).
  { unfold lookup_account. induction l0 as [| a rest IH]; simpl; [done |].
    destruct (String.eqb (sa_id a) id); [done |].
    rewrite <- IH. by destruct (replace_first id updates rest). }
  rewrite <- H. by destruct (replace_first id updates l).
Qed.

Lemma validateAndUpdateAccount_result_ignores_rate registry accountId params text w :
  fst (validateAndUpdateAccount registry accountId (with_exchangeRate text params) w)
  = fst (validateAndUpdateAccount registry accountId params w).
Proof.
  unfold validateAndUpdateAccount, buildCredentialsFromParams,
    requireOneApiParams, with_exchangeRate, try_catch, bind, ret, throw, network.
  simpl.
  repeat case_step; try reflexivity;
    repeat match goal with
           | H : updateAccount _ _ _ = (_, _) |- _ =>
               apply (f_equal fst) in H; rewrite updateAccount_result in H;
               simpl in H
           end;
    congruence.
Qed.

Lemma buildCredentialsFromParams_pure {S} adapterId siteUrl params (s : S) :
  snd (buildCredentialsFromParams adapterId siteUrl params s) = s.
Proof.
  unfold buildCredentialsFromParams, requireOneApiParams, bind, ret, throw.
  repeat case_step; reflexivity.
Qed.

(** A successful save appends one account, with the rate read from the
    parameters. *)
Lemma validateAndSaveAccount_persists_rate registry params w r w' :
  validateAndSaveAccount registry params w = (Return r, w') ->
  asr_success r = true ->
  exists account,
    accounts_of w' = accounts_of w ++ [account]
    /\ accountId r = Some (sa_id account)
    /\ exchange_rate account = parsedExchangeRate params.
Proof.
  unfold validateAndSaveAccount, try_catch, bind, ret, throw, network. simpl.
  intros H Hs.
  repeat invert_step H; try discriminate H;
    try (injection H as <- <-; simpl in Hs; discriminate Hs).
  injection H as <- <-.
  match goal with
  | H : buildCredentialsFromParams _ _ _ _ = (_, ?w0) |- _ =>
      assert (Hw : stored w0 = stored w)
        by (apply (f_equal snd) in H;
            rewrite buildCredentialsFromParams_pure in H; simpl in H;
            by rewrite <- H)
  end.
  eexists. split.
  { unfold accounts_of at 1. simpl. rewrite map_app, map_map. simpl.
    f_equal. unfold accounts_of. rewrite Hw. apply map_ext. intros x. reflexivity. }
  split; reflexivity.
Qed.

(** A successful update leaves the account with the rate read from the
    parameters. *)
Lemma validateAndUpdateAccount_persists_rate registry id params w r w' :
  validateAndUpdateAccount registry id params w = (Return r, w') ->
  asr_success r = true ->
  exists account,
    lookup_account id (accounts_of w') = Some account
    /\ exchange_rate account = parsedExchangeRate params.
Proof.
  unfold validateAndUpdateAccount, try_catch, bind, ret, throw, network. simpl.
  intros H Hs.
  repeat invert_step H; try discriminate H;
    try (injection H as <- <-; simpl in Hs; discriminate Hs).
  injection H as <- <-.
  match goal with
  | H : updateAccount id ?u ?w1 = (Return true, ?w2) |- _ =>
      pose proof (updateAccount_result id u w1) as Hfound;
      rewrite H in Hfound; simpl in Hfound;
      destruct (lookup_account id (accounts_of w1)) as [account |] eqn:Elook;
      [| discriminate Hfound];
      destruct (updateAccount_found id u w1 account Elook)
        as (w3 & Hup & _ & Hread & _);
      rewrite H in Hup; injection Hup as <-
  end.
  eexists. split; [exact Hread | reflexivity].
Qed.

(** What [buildCredentialsFromParams] builds does not depend on the
    state it runs in, and it leaves that state alone. *)
Lemma buildCredentialsFromParams_any {S} adapterId siteUrl params (s : S) :
  buildCredentialsFromParams adapterId siteUrl params s
  = (fst (buildCredentialsFromParams (S := unit) adapterId siteUrl params tt), s).
Proof.
  unfold buildCredentialsFromParams, requireOneApiParams, bind, ret, throw.
  repeat case_step; reflexivity.
Qed.

(** The site accepts the parameters of a save: the site type resolves to
    a registered adapter, the adapter validates the credentials built from
    the parameters, a user name is known, and the balance and the usage are
    fetched. [h] is the history of the requests before and [h3] the history
    after all that. *)
Definition site_accepts (registry : SiteAdapterRegistry)
    (params : ValidateAndSaveParams) (h h3 : History) : Prop :=
  exists resolved h1 adapter built validate h2 balance usage,
    resolveSiteType registry (Js.trim (param_url params)) (param_siteType params) h
    = (Return resolved, h1)
    /\ getAdapter registry resolved = Some adapter
    /\ buildCredentialsFromParams (S := unit) (id (metadata adapter))
         (Js.trim (param_url params)) params tt
       = (Return built, tt)
    /\ validateConnection adapter (built_credentials built) h1 = (Return validate, h2)
    /\ ok validate = true
    /\ Js.or_string (built_username built) (details_name validate) <> ""
    /\ fetchBalanceAndUsage adapter (built_credentials built) getTodayTimeRange h2
       = (Return (balance, usage), h3).

(** On a site that accepts the parameters the save succeeds. *)
Lemma validateAndSaveAccount_succeeds registry params w h3 :
  Js.trim (param_url params) <> "" ->
  Js.trim (param_siteName params) <> "" ->
  site_accepts registry params (sent w) h3 ->
  exists w',
    validateAndSaveAccount registry params w
    = (Return {| asr_success := true; accountId := Some generateId;
                 asr_error := None |}, w')
    /\ sent w' = h3.
Proof.
  intros Hurl Hname
    (resolved & h1 & adapter & built & validate & h2 & balance & usage
     & Hres & Hadapter & Hbuild & Hvalidate & Hok & Huser & Hfetch).
  unfold validateAndSaveAccount.
  rewrite (truthy_string_true _ Hurl), (truthy_string_true _ Hname).
  cbn [negb orb]. unfold bind at 1. unfold network at 1. rewrite Hres.
  rewrite Hadapter. unfold try_catch. unfold bind at 1.
  rewrite buildCredentialsFromParams_any, Hbuild. cbn [fst].
  unfold bind at 1. unfold network at 1. cbn [sent stored]. rewrite Hvalidate.
  rewrite Hok. cbn [negb]. rewrite (truthy_string_true _ Huser). cbn [negb].
  unfold bind at 1. unfold network at 1. cbn [sent stored]. rewrite Hfetch.
  eexists. split; reflexivity.
Qed.

(** On a site that accepts the parameters the update of a stored account
    succeeds. *)
Lemma validateAndUpdateAccount_succeeds registry target params w h3 old :
  target <> "" ->
  Js.trim (param_url params) <> "" ->
  Js.trim (param_siteName params) <> "" ->
  site_accepts registry params (sent w) h3 ->
  lookup_account target (accounts_of w) = Some old ->
  exists w',
    validateAndUpdateAccount registry target params w
    = (Return {| asr_success := true; accountId := Some target;
                 asr_error := None |}, w')
    /\ sent w' = h3
    /\ forall other, other <> target ->
         lookup_account other (accounts_of w') = lookup_account other (accounts_of w).
Proof.
  intros Htarget Hurl Hname
    (resolved & h1 & adapter & built & validate & h2 & balance & usage
     & Hres & Hadapter & Hbuild & Hvalidate & Hok & Huser & Hfetch) Hold.
  unfold validateAndUpdateAccount.
  rewrite (truthy_string_true _ Htarget), (truthy_string_true _ Hurl),
    (truthy_string_true _ Hname).
  cbn [negb orb]. unfold bind at 1. unfold network at 1. rewrite Hres.
  rewrite Hadapter. unfold try_catch. unfold bind at 1.
  rewrite buildCredentialsFromParams_any, Hbuild. cbn [fst].
  unfold bind at 1. unfold network at 1. cbn [sent stored]. rewrite Hvalidate.
  rewrite Hok. cbn [negb]. rewrite (truthy_string_true _ Huser). cbn [negb].
  unfold bind at 1. unfold network at 1. cbn [sent stored]. rewrite Hfetch.
  match goal with
  | |- context [bind (updateAccount target ?u) _ ?w1] =>
      destruct (updateAccount_found target u w1 old) as (w' & Hup & Hsent & _ & Hother);
      [exact Hold |]; unfold bind at 1; rewrite Hup
  end.
  exists w'. split; [reflexivity |]. split; [exact Hsent |]. exact Hother.
Qed.

(** C10. Both save paths read the exchange rate as
    [parseFloat(params.exchangeRate) || 7.2]: a text that parses to [NaN]
    (the empty text, text that is not a number) or to zero gives 7.2. On a
    site that accepts the parameters, [validateAndSaveAccount] succeeds and
    appends an account with that rate, and [validateAndUpdateAccount]
    succeeds on a stored account and leaves it with that rate, the other
    accounts as they were. The answer of either call (success, account id,
    error) is the same whatever the text of the exchange rate: no error is
    ever reported for it. The rates read back are stated for finite rates:
    the storage area keeps numbers as JSON text. *)
Theorem exchangeRate_defaults_to_7_2 registry params w :
  let rate :=
    if Js.isNaN (Js.parseFloat (param_exchangeRate params))
       || PrimFloat.is_zero (Js.parseFloat (param_exchangeRate params))
    then 7.2%float else Js.parseFloat (param_exchangeRate params) in
  parsedExchangeRate params = rate
  /\ (forall text,
        parsedExchangeRate (with_exchangeRate text params)
        = (if Js.isNaN (Js.parseFloat text) || PrimFloat.is_zero (Js.parseFloat text)
           then 7.2%float else Js.parseFloat text))
  /\ parsedExchangeRate (with_exchangeRate "" params) = 7.2%float
  /\ parsedExchangeRate (with_exchangeRate "abc" params) = 7.2%float
  /\ parsedExchangeRate (with_exchangeRate "0" params) = 7.2%float
  /\ parsedExchangeRate (with_exchangeRate "6.5" params) = 6.5%float
  /\ (forall h3,
        Js.trim (param_url params) <> "" ->
        Js.trim (param_siteName params) <> "" ->
        site_accepts registry params (sent w) h3 ->
        Js.isFinite rate = true ->
        (exists w' account,
           validateAndSaveAccount registry params w
           = (Return {| asr_success := true; accountId := Some generateId;
                        asr_error := None |}, w')
           /\ sent w' = h3
           /\ accounts_of w' = accounts_of w ++ [account]
           /\ sa_id account = generateId
           /\ exchange_rate account = rate)
        /\ (forall target old,
              target <> "" ->
              lookup_account target (accounts_of w) = Some old ->
              exists w' account,
                validateAndUpdateAccount registry target params w
                = (Return {| asr_success := true; accountId := Some target;
                             asr_error := None |}, w')
                /\ sent w' = h3
                /\ lookup_account target (accounts_of w') = Some account
                /\ exchange_rate account = rate
                /\ forall other, other <> target ->
                     lookup_account other (accounts_of w')
                     = lookup_account other (accounts_of w)))
  /\ (forall r w',
        validateAndSaveAccount registry params w = (Return r, w') ->
        asr_success r = true ->
        Js.isFinite rate = true ->
        exists account,
          accounts_of w' = accounts_of w ++ [account]
          /\ accountId r = Some (sa_id account)
          /\ exchange_rate account = rate)
  /\ (forall id r w',
        validateAndUpdateAccount registry id params w = (Return r, w') ->
        asr_success r = true ->
        Js.isFinite rate = true ->
        exists account,
          lookup_account id (accounts_of w') = Some account
          /\ exchange_rate account = rate)
  /\ (forall text,
        fst (validateAndSaveAccount registry (with_exchangeRate text params) w)
        = fst (validateAndSaveAccount registry params w))
  /\ (forall text id,
        fst (validateAndUpdateAccount registry id (with_exchangeRate text params) w)
        = fst (validateAndUpdateAccount registry id params w)).
Proof.
  assert (Hrate : forall text,
             Js.or_number (Js.parseFloat text) 7.2
             = (if Js.isNaN (Js.parseFloat text)
                   || PrimFloat.is_zero (Js.parseFloat text)
                then 7.2%float else Js.parseFloat text)).
  { intros text. unfold Js.or_number, Js.truthy.
    by destruct (Js.isNaN _), (PrimFloat.is_zero _). }
  intros rate.
  assert (Hparsed : parsedExchangeRate params = rate) by apply Hrate.
  split; [exact Hparsed |]. split; [intros text; apply Hrate |].
  split; [vm_compute; reflexivity |]. split; [vm_compute; reflexivity |].
  split; [vm_compute; reflexivity |]. split; [vm_compute; reflexivity |].
  split.
  { intros h3 Hurl Hname Hsite _. split.
    - destruct (validateAndSaveAccount_succeeds registry params w h3 Hurl Hname Hsite)
        as (w' & Hrun & Hsent).
      destruct (validateAndSaveAccount_persists_rate registry params w _ w' Hrun
                  eq_refl) as (account & Hstored & Hid & Hsaved).
      exists w', account. split; [exact Hrun |]. split; [exact Hsent |].
      split; [exact Hstored |]. split; [by injection Hid as <- |].
      by rewrite Hsaved.
    - intros target old Htarget Hold.
      destruct (validateAndUpdateAccount_succeeds registry target params w h3 old
                  Htarget Hurl Hname Hsite Hold) as (w' & Hrun & Hsent & Hother).
      destruct (validateAndUpdateAccount_persists_rate registry target params w _ w'
                  Hrun eq_refl) as (account & Hstored & Hsaved).
      exists w', account. split; [exact Hrun |]. split; [exact Hsent |].
      split; [exact Hstored |]. split; [by rewrite Hsaved | exact Hother]. }
  split.
  { intros r w' Hrun Hs _. rewrite <- Hparsed.
    by apply (validateAndSaveAccount_persists_rate registry params w r w'). }
  split.
  { intros id r w' Hrun Hs _. rewrite <- Hparsed.
    by apply (validateAndUpdateAccount_persists_rate registry id params w r w'). }
  split; [intros text; apply validateAndSaveAccount_result_ignores_rate |].
  intros text id. apply validateAndUpdateAccount_result_ignores_rate.
Qed.

(** * Further properties of the code *)

(** ** The registry: what a registration leaves in place *)

Lemma Map_get_app {V} i (a : V) m extra :
  Map_get i m = Some a -> Map_get i (m ++ extra) = Some a.
Proof.
  induction m as [| [k v] r IH]; simpl; [done |].
  destruct (String.eqb k i); [done | exact IH].
Qed.

(** The loop over the site types only adds keys: whatever its outcome,
    the adapters by id, the flag and every key held before are as they
    were. *)
Lemma claimSiteTypes_keeps adapter siteTypes : forall registry,
  let registry' := snd (claimSiteTypes adapter siteTypes registry) in
  adaptersById registry' = adaptersById registry
  /\ builtInsRegistered registry' = builtInsRegistered registry
  /\ forall k a, adaptersBySiteType registry !! k = Some a ->
       adaptersBySiteType registry' !! k = Some a.
Proof.
  induction siteTypes as [| t rest IH]; intros registry; simpl; [done |].
  run.
  destruct (adaptersBySiteType registry !! normalizeSiteType t) eqn:Ek; simpl; [done |].
  match goal with
  | |- context [claimSiteTypes adapter rest ?r] =>
      destruct (IH r) as (Hid & Hflag & Hkeys)
  end.
  simpl in *. split; [done |]. split; [done |].
  intros k a Hk. apply Hkeys. rewrite lookup_insert_ne; [done |].
  intros <-. congruence.
Qed.

Lemma registerAdapter_keeps adapter registry :
  let registry' := snd (registerAdapter adapter registry) in
  (adaptersById registry' = adaptersById registry
   \/ adaptersById registry'
      = adaptersById registry ++ [(id (metadata adapter), adapter)])
  /\ builtInsRegistered registry' = builtInsRegistered registry
  /\ forall k a, adaptersBySiteType registry !! k = Some a ->
       adaptersBySiteType registry' !! k = Some a.
Proof.
  unfold registerAdapter.
  destruct (Js.truthy_string (id (metadata adapter))); simpl; [| by auto].
  run.
  destruct (assertCapabilitiesImplemented_cases adapter registry)
    as [[_ Hrun] | [_ [m Hrun]]]; rewrite Hrun; simpl; [| by auto].
  destruct (Map_has (id (metadata adapter)) (adaptersById registry)) eqn:Ehas;
    simpl; [by auto |].
  match goal with
  | |- context [claimSiteTypes adapter ?l ?r] =>
      destruct (claimSiteTypes_keeps adapter l r) as (Hid & Hflag & Hkeys)
  end.
  simpl in *. rewrite Hid, Hflag.
  split; [right; by apply Map_has_false_set |]. split; [done | exact Hkeys].
Qed.

(** X1. Whatever its outcome, [registerAdapter] takes nothing away: a
    site type that resolved to an adapter resolves to the same adapter
    afterwards, the adapters registered before stay registered under their
    ids and in their order (at most the new adapter is added, last), and
    the flag of the built-ins is untouched. *)
Theorem registerAdapter_keeps_earlier_registrations adapter registry :
  let registry' := snd (registerAdapter adapter registry) in
  (forall siteType a,
     getAdapter registry siteType = Some a -> getAdapter registry' siteType = Some a)
  /\ (adaptersById registry' = adaptersById registry
      \/ adaptersById registry'
         = adaptersById registry ++ [(id (metadata adapter), adapter)])
  /\ (forall i a,
        Map_get i (adaptersById registry) = Some a ->
        Map_get i (adaptersById registry') = Some a)
  /\ (exists rest, getAllAdapters registry' = getAllAdapters registry ++ rest)
  /\ builtInsRegistered registry' = builtInsRegistered registry.
Proof.
  intros registry'.
  destruct (registerAdapter_keeps adapter registry) as (Hid & Hflag & Hkeys).
  fold registry' in Hid, Hflag, Hkeys.
  split; [intros siteType a; apply Hkeys |]. split; [exact Hid |].
  split; [| split; [| exact Hflag]].
  - intros i a Hi. destruct Hid as [-> | ->]; [done | by apply Map_get_app].
  - unfold getAllAdapters. destruct Hid as [-> | ->].
    + exists []. by rewrite app_nil_r.
    + eexists. by rewrite map_app.
Qed.

(** The first site type of the list, when free, is claimed before the
    loop looks at the others. *)
Lemma claimSiteTypes_first adapter t rest registry :
  adaptersBySiteType registry !! normalizeSiteType t = None ->
  adaptersBySiteType (snd (claimSiteTypes adapter (t :: rest) registry))
    !! normalizeSiteType t = Some adapter.
Proof.
  intros Hfree. simpl. run. rewrite Hfree.
  match goal with
  | |- context [claimSiteTypes adapter rest ?r] =>
      destruct (claimSiteTypes_keeps adapter rest r) as (_ & _ & Hkeys)
  end.
  apply Hkeys. simpl. apply lookup_insert_eq.
Qed.

(** X2. A registration is not undone when it fails on the site types.
    When the id is new and the capabilities are implemented but a site type
    is taken already (or comes twice in the adapter's own list),
    [registerAdapter] throws, and yet the adapter stays registered under
    its id, is listed by [getAllAdapters] (so [detectSiteType] probes it),
    and keeps the first site type of its list when that one was free. *)
Theorem registerAdapter_conflict_leaves_adapter_listed adapter registry :
  id (metadata adapter) <> "" ->
  ~ capability_gap adapter ->
  ~ id_registered registry adapter ->
  site_type_claimed registry adapter \/ site_type_repeated adapter ->
  exists message registry',
    registerAdapter adapter registry
    = (Throw (AdapterRegistrationError message), registry')
    /\ getAllAdapters registry' = getAllAdapters registry ++ [adapter]
    /\ Map_get (id (metadata adapter)) (adaptersById registry') = Some adapter
    /\ (forall t rest,
          supportedSiteTypes (metadata adapter) = t :: rest ->
          getAdapter registry t = None ->
          getAdapter registry' t = Some adapter).
Proof.
  intros Hid Hgap Hreg Hconflict.
  destruct (registerAdapter_cases adapter registry)
    as [[_ (message & registry' & Hrun)] | [Hok _]]; [| exfalso; apply Hok; tauto].
  exists message, registry'. split; [exact Hrun |].
  assert (Hsnd : registry' = snd (registerAdapter adapter registry))
    by (by rewrite Hrun).
  unfold registerAdapter in Hsnd.
  rewrite (truthy_string_true _ Hid) in Hsnd. cbn [negb] in Hsnd.
  revert Hsnd. run.
  destruct (assertCapabilitiesImplemented_cases adapter registry)
    as [[_ Hcaps] | [Hgap' _]]; [| done].
  rewrite Hcaps.
  unfold id_registered in Hreg.
  destruct (Map_has (id (metadata adapter)) (adaptersById registry)) eqn:Ehas; [done |].
  match goal with
  | |- context [claimSiteTypes adapter ?l ?r] =>
      pose proof (claimSiteTypes_keeps adapter l r) as (Hbyid & _ & _);
      pose proof (fun t rest => claimSiteTypes_first adapter t rest r) as Hfirst
  end.
  simpl in *. intros ->.
  split; [| split].
  - unfold getAllAdapters.
    by rewrite Hbyid, (Map_has_false_set _ _ _ Ehas), map_app.
  - rewrite Hbyid. apply Map_get_set.
  - intros t rest Hlist Hfree. unfold getAdapter in *. rewrite Hlist.
    by apply Hfirst.
Qed.

(** ** The registry of the built-in adapters *)

Lemma getInstance_flag : builtInsRegistered getInstance = true.
Proof.
  unfold getInstance, ensureBuiltInAdaptersRegistered. run.
  set (r0 := {| adaptersById := []; adaptersBySiteType := ∅;
                builtInsRegistered := true |}).
  destruct (registerAdapter_keeps OneApiAdapter_adapter r0) as (_ & Hflag1 & _).
  destruct (registerAdapter OneApiAdapter_adapter r0) as [[[] | e] r1]; simpl in *.
  - destruct (registerAdapter_keeps CubenceAdapter_adapter r1) as (_ & Hflag2 & _).
    by rewrite Hflag2.
  - done.
Qed.

(** X3. [getInstance()] registers the built-in adapters once. The registry
    it hands out holds the OneApi adapter and then the Cubence adapter, has
    its flag set, and is left as it is by every later
    [ensureBuiltInAdaptersRegistered]; registering either built-in adapter
    again would throw. *)
Theorem getInstance_registers_once :
  getAllAdapters getInstance = [OneApiAdapter_adapter; CubenceAdapter_adapter]
  /\ builtInsRegistered getInstance = true
  /\ ensureBuiltInAdaptersRegistered getInstance = (Return tt, getInstance)
  /\ registration_throws OneApiAdapter_adapter getInstance
  /\ registration_throws CubenceAdapter_adapter getInstance.
Proof.
  destruct getInstance_adapters as [Hbyid _].
  split; [unfold getAllAdapters; by rewrite Hbyid |].
  split; [exact getInstance_flag |].
  split.
  { unfold ensureBuiltInAdaptersRegistered. run. by rewrite getInstance_flag. }
  split.
  - destruct (registerAdapter_cases OneApiAdapter_adapter getInstance)
      as [[_ Hthrow] | [Hok _]]; [exact Hthrow |].
    exfalso. apply Hok. right; right; left.
    unfold id_registered. by rewrite Hbyid.
  - destruct (registerAdapter_cases CubenceAdapter_adapter getInstance)
      as [[_ Hthrow] | [Hok _]]; [exact Hthrow |].
    exfalso. apply Hok. right; right; left.
    unfold id_registered. by rewrite Hbyid.
Qed.

(** X4. The site types the built-in registry supports are the five of the
    OneApi adapter and [cubence], in any letter case and with any white
    space around them; [cubence] goes to the Cubence adapter and the five
    others to the OneApi adapter. *)
Theorem isSiteTypeSupported_getInstance siteType :
  (isSiteTypeSupported getInstance siteType = true
   <-> normalizeSiteType siteType
       ∈ ["one-api"; "new-api"; "veloera"; "one-hub"; "done-hub"; "cubence"])
  /\ (getAdapter getInstance siteType = Some CubenceAdapter_adapter
      <-> normalizeSiteType siteType = "cubence")
  /\ (getAdapter getInstance siteType = Some OneApiAdapter_adapter
      <-> normalizeSiteType siteType
          ∈ ["one-api"; "new-api"; "veloera"; "one-hub"; "done-hub"]).
Proof.
  unfold isSiteTypeSupported, getAdapter.
  destruct getInstance_adapters as [_ ->].
  assert (Hdiff : OneApiAdapter_adapter <> CubenceAdapter_adapter).
  { intros H. apply (f_equal (fun a => id (metadata a))) in H. discriminate. }
  assert (Hfree : "cubence" ∉ one_api_keys)
    by (refine (bool_decide_unpack _ _); vm_compute; exact I).
  fold one_api_keys.
  change ["one-api"; "new-api"; "veloera"; "one-hub"; "done-hub"; "cubence"]
    with (one_api_keys ++ ["cubence"]).
  destruct (decide (normalizeSiteType siteType = "cubence")) as [-> | Hne].
  - split; [| split].
    + split; [intros _ | done]. apply elem_of_app. right. by left.
    + done.
    + split; [congruence | done].
  - destruct (decide (normalizeSiteType siteType ∈ one_api_keys)) as [Hin | Hout].
    + split; [| split].
      * split; [intros _ | done]. apply elem_of_app. by left.
      * split; [congruence | done].
      * done.
    + split; [| split].
      * split; [done |]. intros [H | H%list_elem_of_singleton]%elem_of_app; done.
      * split; [done | done].
      * split; [done | done].
Qed.

(** ** Detection on the built-in registry *)

Definition status_request (url : string) : Request :=
  Fetch (url +:+ "/api/status")
    {| method := "GET"; user_headers := None; authorization := None;
       credentials := omit |}.

(** [fetchSiteStatus] never throws and sends one request. *)
Lemma fetchSiteStatus_returns baseUrl h :
  exists status,
    fetchSiteStatus baseUrl h = (Return status, h ++ [status_request baseUrl]).
Proof.
  unfold fetchSiteStatus, fetch, json, status_request. run.
  destruct (api_status server h _ _) as [e | st body]; simpl; [by eauto |].
  destruct (ok_status st); simpl; [| by eauto].
  destruct body as [data | e]; simpl; [| by eauto].
  destruct (ar_success data), (ar_data data); by eauto.
Qed.

(** The host-name test of the Cubence adapter. *)
Definition cubence_host (url : string) : bool :=
  match URL_hostname env url with
  | Some hostname =>
      String.eqb (Js.toLowerCase hostname) "cubence.com"
      || Js.endsWith (Js.toLowerCase hostname) ".cubence.com"
  | None => false
  end.

(** X6. On the built-in registry [detectSiteType] sends one request, the
    [GET /api/status] of the normalized URL without credentials, and never
    throws. It answers [one-api] whenever that request gives a site status,
    whatever the host; otherwise [cubence] when the host name is
    [cubence.com] or ends with [.cubence.com]; otherwise [null]. *)
Theorem detectSiteType_getInstance siteUrl h :
  let url := normalizeSiteUrl siteUrl in
  exists status,
    fetchSiteStatus url h = (Return status, h ++ [status_request url])
    /\ detectSiteType getInstance siteUrl h
       = (Return (match status with
                  | Some _ => Some "one-api"
                  | None => if cubence_host url then Some "cubence" else None
                  end),
          h ++ [status_request url]).
Proof.
  intros url.
  destruct (fetchSiteStatus_returns url h) as (status & Hrun).
  exists status. split; [exact Hrun |].
  unfold detectSiteType, getAllAdapters.
  destruct getInstance_adapters as [-> _]. fold url.
  cbn [map snd probeAdapters getSiteStatus OneApiAdapter_adapter CubenceAdapter_adapter
         metadata id OneApiAdapter_metadata CubenceAdapter_metadata].
  unfold OneApiAdapter_getSiteStatus, CubenceAdapter_getSiteStatus, cubence_host.
  unfold bind at 1. unfold try_catch. unfold bind at 1. rewrite Hrun.
  destruct status as [info |]; [reflexivity |].
  cbn [present ret]. unfold bind at 1.
  destruct (URL_hostname env url) as [hostname |]; [| reflexivity].
  destruct (String.eqb (Js.toLowerCase hostname) "cubence.com"
            || Js.endsWith (Js.toLowerCase hostname) ".cubence.com"); reflexivity.
Qed.

(** ** Requests to a One API site *)

(** X7. [apiRequest] sends exactly one request. It returns [d] exactly
    when the response has a 2xx status and a body that parses with
    [success] true and [data] equal to [d]. Otherwise it throws: the error
    of [fetch] or of [json()] as it is, an [ApiError] carrying the status
    for a response outside 2xx, an [ApiError] without status for a body
    without [success] or without [data]. *)
Theorem apiRequest_returns_iff {T}
    (reply : History -> string -> RequestInit -> HttpReply (ApiResponse T))
    url options endpoint h :
  snd (apiRequest reply url options endpoint h) = h ++ [Fetch url options]
  /\ (forall d,
        fst (apiRequest reply url options endpoint h) = Return d
        <-> exists st body,
              reply h url options = Response st (Return body)
              /\ ok_status st = true
              /\ ar_success body = true /\ ar_data body = Some d)
  /\ (forall e,
        fst (apiRequest reply url options endpoint h) = Throw e ->
        reply h url options = Rejected e
        \/ (exists st, reply h url options = Response st (Throw e)
                       /\ ok_status st = true)
        \/ (exists st body,
              reply h url options = Response st body /\ ok_status st = false
              /\ e = ApiError ("请求失败: " +:+ Js.Z_toString st) (Some st)
                       (Some endpoint))
        \/ (exists st body,
              reply h url options = Response st (Return body)
              /\ ok_status st = true
              /\ (ar_success body = false \/ ar_data body = None)
              /\ e = ApiError "响应数据格式错误" None (Some endpoint))).
Proof.
  unfold apiRequest, fetch, json. run.
  destruct (reply h url options) as [e0 | st body]; simpl.
  { split; [done |]. split.
    - intros d. split; [done | by intros (? & ? & ? & _)].
    - intros e [= ->]. by left. }
  destruct (ok_status st) eqn:Eok; simpl.
  2: { split; [done |]. split.
       - intros d. split; [done |]. intros (st' & b & [= -> _] & Hok & _). congruence.
       - intros e [= <-]. right; right; left. by eauto. }
  destruct body as [data | e0]; simpl.
  2: { split; [done |]. split.
       - intros d. split; [done | by intros (? & ? & ? & _)].
       - intros e [= ->]. right; left. by eauto. }
  destruct (ar_success data) eqn:Es, (ar_data data) as [d0 |] eqn:Ed; simpl;
    (split; [done |]); split.
  - intros d. split.
    + intros [= <-]. exists st, data. repeat split; assumption.
    + intros (st' & b & [= <- <-] & _ & Hs & Hd). congruence.
  - done.
  - intros d. split; [done |].
    intros (st' & b & [= <- <-] & _ & Hs & Hd). congruence.
  - intros e [= <-]. right; right; right. exists st, data. by auto.
  - intros d. split; [done |].
    intros (st' & b & [= <- <-] & _ & Hs & Hd). congruence.
  - intros e [= <-]. right; right; right. exists st, data. by auto.
  - intros d. split; [done |].
    intros (st' & b & [= <- <-] & _ & Hs & Hd). congruence.
  - intros e [= <-]. right; right; right. exists st, data. by auto.
Qed.

(** X8. [fetchSiteStatus] never throws, whatever the site does, and sends
    one request without credentials; it gives a status exactly when the
    response has a 2xx status and a body with [success] and [data]. *)
Theorem fetchSiteStatus_never_throws baseUrl h :
  exists status,
    fetchSiteStatus baseUrl h = (Return status, h ++ [status_request baseUrl])
    /\ forall d,
         status = Some d
         <-> exists st body,
               api_status server h (baseUrl +:+ "/api/status")
                 {| method := "GET"; user_headers := None; authorization := None;
                    credentials := omit |}
               = Response st (Return body)
               /\ ok_status st = true
               /\ ar_success body = true /\ ar_data body = Some d.
Proof.
  unfold fetchSiteStatus, fetch, json, status_request. run.
  destruct (api_status server h _ _) as [e | st body]; simpl.
  { eexists. split; [reflexivity |]. intros d. split; [done | by intros (? & ? & ? & _)]. }
  destruct (ok_status st) eqn:Eok; simpl.
  2: { eexists. split; [reflexivity |]. intros d. split; [done |].
       intros (st' & b & [= -> _] & Hok & _). congruence. }
  destruct body as [data | e]; simpl.
  2: { eexists. split; [reflexivity |]. intros d.
       split; [done | by intros (? & ? & ? & _)]. }
  destruct (ar_success data) eqn:Es, (ar_data data) as [d0 |] eqn:Ed; simpl;
    eexists; (split; [reflexivity |]); intros d; split.
  - intros [= <-]. exists st, data. repeat split; assumption.
  - intros (st' & b & [= <- <-] & _ & Hs & Hd). congruence.
  - done.
  - intros (st' & b & [= <- <-] & _ & Hs & Hd). congruence.
  - done.
  - intros (st' & b & [= <- <-] & _ & Hs & Hd). congruence.
  - done.
  - intros (st' & b & [= <- <-] & _ & Hs & Hd). congruence.
Qed.

(** X9. [extractDefaultExchangeRate] never gives a rate that is not
    positive: what it returns is greater than zero (so neither [NaN] nor
    zero nor negative) and is the first positive one of [price],
    [stripe_unit_price] and [PaymentUSDRate]; it returns [null] exactly
    when there is no status or none of the three is positive. *)
Theorem extractDefaultExchangeRate_positive statusInfo :
  let positive (o : option number) :=
    match o with Some x => (0 <? x)%float | None => false end in
  (forall r, extractDefaultExchangeRate statusInfo = Some r -> (0 <? r)%float = true)
  /\ (forall info,
        statusInfo = Some info ->
        extractDefaultExchangeRate statusInfo
        = if positive (price info) then price info
          else if positive (stripe_unit_price info) then stripe_unit_price info
          else if positive (PaymentUSDRate info) then PaymentUSDRate info
          else None)
  /\ (extractDefaultExchangeRate statusInfo = None
      <-> match statusInfo with
          | None => True
          | Some info =>
              positive (price info) = false
              /\ positive (stripe_unit_price info) = false
              /\ positive (PaymentUSDRate info) = false
          end).
Proof.
  intros positive.
  assert (Hpos : forall o,
             match o with
             | Some x => Js.truthy x && (0 <? x)%float
             | None => false
             end = positive o).
  { intros [x |]; [| done]. simpl. unfold Js.truthy, Js.isNaN.
    destruct (0 <? x)%float eqn:Elt; [| by rewrite andb_false_r].
    rewrite andb_true_r.
    rewrite FloatAxioms.ltb_spec in Elt.
    unfold PrimFloat.is_nan, PrimFloat.is_zero.
    rewrite !FloatAxioms.eqb_spec.
    change (Prim2SF 0) with (S754_zero false) in Elt.
    change (Prim2SF zero) with (S754_zero false).
    destruct (Prim2SF x) as [s | s | | s m e] eqn:Ex; try discriminate Elt.
    - destruct s; [discriminate Elt | reflexivity].
    - destruct s; [discriminate Elt |].
      unfold SFeqb, SFcompare. rewrite Z.compare_refl, Pos.compare_refl.
      reflexivity. }
  destruct statusInfo as [info |]; simpl.
  2: { split; [done |]. split; [done | done]. }
  rewrite !Hpos.
  split; [| split].
  - intros r.
    destruct (price info) as [p |] eqn:Ep; simpl;
      [destruct (0 <? p)%float eqn:E1; [by intros [= <-] |] |];
      (destruct (stripe_unit_price info) as [p2 |] eqn:Ep2; simpl;
       [destruct (0 <? p2)%float eqn:E2; [by intros [= <-] |] |]);
      (destruct (PaymentUSDRate info) as [p3 |] eqn:Ep3; simpl;
       [destruct (0 <? p3)%float eqn:E3; [by intros [= <-] |] |]);
      done.
  - by intros ? [= <-].
  - destruct (price info) as [p |]; simpl;
      [destruct (0 <? p)%float; [by split; [| intros (? & _)] |] |];
      (destruct (stripe_unit_price info) as [p2 |]; simpl;
       [destruct (0 <? p2)%float; [by split; [| intros (_ & ? & _)] |] |]);
      (destruct (PaymentUSDRate info) as [p3 |]; simpl;
       [destruct (0 <? p3)%float; [by split; [| intros (_ & _ & ?)] |] |]);
      done.
Qed.

(** The two requests [getOrCreateAccessToken] can make, both with the
    cookies of the browser. *)
Definition self_cookie_request (baseUrl : string) (userId : number) : Request :=
  Fetch (baseUrl +:+ "/api/user/self") (createCookieAuthRequest (Some userId)).

Definition token_request (baseUrl : string) (userId : number) : Request :=
  Fetch (baseUrl +:+ "/api/user/token") (createCookieAuthRequest (Some userId)).

(** X10. [getOrCreateAccessToken] asks the site to create a token only
    when the user it read has none. With a user whose [access_token] is a
    non-empty string it returns that token after one request; with a user
    without token (missing or empty) it sends the token request next and
    returns what that request gives, or throws what it throws; when the
    user cannot be read it throws after the one request, without asking
    for a token. *)
Theorem getOrCreateAccessToken_creates_only_when_missing baseUrl userId h :
  let r1 := self_cookie_request baseUrl userId in
  let r2 := token_request baseUrl userId in
  (forall e,
     fst (fetchUserInfo baseUrl (Some userId) h) = Throw e ->
     getOrCreateAccessToken baseUrl userId h = (Throw e, h ++ [r1]))
  /\ (forall st user message,
        api_user_self server h (baseUrl +:+ "/api/user/self")
          (createCookieAuthRequest (Some userId))
        = Response st (Return {| ar_success := true; ar_data := Some user;
                                 ar_message := message |}) ->
        ok_status st = true ->
        match self_access_token user with
        | Some t =>
            if Js.truthy_string t then
              getOrCreateAccessToken baseUrl userId h
              = (Return {| ati_username := self_username user; access_token := t |},
                 h ++ [r1])
            else
              getOrCreateAccessToken baseUrl userId h
              = (match fst (createAccessToken baseUrl userId (h ++ [r1])) with
                 | Return t' =>
                     Return {| ati_username := self_username user;
                               access_token := t' |}
                 | Throw e => Throw e
                 end, h ++ [r1; r2])
        | None =>
            getOrCreateAccessToken baseUrl userId h
            = (match fst (createAccessToken baseUrl userId (h ++ [r1])) with
               | Return t' =>
                   Return {| ati_username := self_username user;
                             access_token := t' |}
               | Throw e => Throw e
               end, h ++ [r1; r2])
        end).
Proof.
  intros r1 r2.
  assert (Hsent : snd (fetchUserInfo baseUrl (Some userId) h) = h ++ [r1]).
  { unfold fetchUserInfo, bind.
    pose proof (apiRequest_sends (api_user_self server)
                  (baseUrl +:+ "/api/user/self")
                  (createCookieAuthRequest (Some userId)) "/api/user/self" h) as Hs.
    destruct (apiRequest _ _ _ _ h) as [[u | e] h1]; simpl in *; by subst. }
  assert (Hcreate : forall h0,
             snd (createAccessToken baseUrl userId h0) = h0 ++ [r2])
    by (intros h0; apply apiRequest_sends).
  split.
  - intros e He. unfold getOrCreateAccessToken, bind.
    destruct (fetchUserInfo baseUrl (Some userId) h) as [[u | e0] h1]; simpl in *;
      [discriminate |].
    injection He as ->. by subst.
  - intros st user message Hreply Hok.
    assert (Hinfo : fetchUserInfo baseUrl (Some userId) h
                    = (Return {| ui_id := self_id user;
                                 ui_username := self_username user;
                                 ui_access_token :=
                                   match self_access_token user with
                                   | Some t =>
                                       if Js.truthy_string t then Some t else None
                                   | None => None
                                   end |}, h ++ [r1])).
    { unfold fetchUserInfo, bind.
      by rewrite (apiRequest_ok _ _ _ _ _ _ _ _ Hreply Hok). }
    assert (Hcreated : ui_access_token
                         {| ui_id := self_id user;
                            ui_username := self_username user;
                            ui_access_token :=
                              match self_access_token user with
                              | Some t =>
                                  if Js.truthy_string t then Some t else None
                              | None => None
                              end |} = None ->
                       getOrCreateAccessToken baseUrl userId h
                       = (match fst (createAccessToken baseUrl userId (h ++ [r1])) with
                          | Return t' =>
                              Return {| ati_username := self_username user;
                                        access_token := t' |}
                          | Throw e => Throw e
                          end, h ++ [r1; r2])).
    { intros Hno. unfold getOrCreateAccessToken. unfold bind at 1. rewrite Hinfo.
      rewrite Hno. cbn [ui_username]. unfold bind, ret.
      specialize (Hcreate (h ++ [r1])).
      destruct (createAccessToken baseUrl userId (h ++ [r1])) as [[t' | e] h2];
        simpl in *; subst h2; by rewrite <- app_assoc. }
    destruct (self_access_token user) as [t |] eqn:Et.
    + destruct (Js.truthy_string t) eqn:Ett.
      * unfold getOrCreateAccessToken. unfold bind at 1. by rewrite Hinfo.
      * by apply Hcreated.
    + by apply Hcreated.
Qed.

(** X11. [validateAccountConnection] never throws and sends one request,
    the [GET /api/user/self] with the token; it answers [true] exactly when
    that request is answered with a 2xx status and a body with [success]
    and [data], whatever the data. *)
Theorem validateAccountConnection_never_throws baseUrl userId accessToken h :
  exists connected,
    validateAccountConnection baseUrl userId accessToken h
    = (Return connected,
       h ++ [Fetch (baseUrl +:+ "/api/user/self")
               (createTokenAuthRequest userId accessToken)])
    /\ (connected = true
        <-> exists st body user,
              api_user_self server h (baseUrl +:+ "/api/user/self")
                (createTokenAuthRequest userId accessToken)
              = Response st (Return body)
              /\ ok_status st = true
              /\ ar_success body = true /\ ar_data body = Some user).
Proof.
  unfold validateAccountConnection, fetchAccountQuota, apiRequest, fetch, json. run.
  destruct (api_user_self server h _ _) as [e | st body]; simpl.
  { eexists. split; [reflexivity |]. split; [done | by intros (? & ? & ? & ? & _)]. }
  destruct (ok_status st) eqn:Eok; simpl.
  2: { eexists. split; [reflexivity |]. split; [done |].
       intros (st' & b & u & [= -> _] & Hok & _). congruence. }
  destruct body as [data | e]; simpl.
  2: { eexists. split; [reflexivity |].
       split; [done | by intros (? & ? & ? & ? & _)]. }
  destruct (ar_success data) eqn:Es, (ar_data data) as [d0 |] eqn:Ed; simpl;
    eexists; (split; [reflexivity |]); split.
  - intros _. exists st, data, d0. repeat split; assumption.
  - done.
  - done.
  - intros (st' & b & u & [= <- <-] & _ & Hs & Hd). congruence.
  - done.
  - intros (st' & b & u & [= <- <-] & _ & Hs & Hd). congruence.
  - done.
  - intros (st' & b & u & [= <- <-] & _ & Hs & Hd). congruence.
Qed.

(** ** A failing page of the log *)

(** The loop on pages served well and none of them the last, followed by
    a page request that fails: the error of that request is the outcome. *)
Lemma usage_loop_fails baseUrl userId accessToken e : forall pages fuel st h,
  serves baseUrl userId accessToken h (currentPage st) pages ->
  (length pages < fuel)%nat ->
  currentPage st + Z.of_nat (length pages) <= MAX_PAGES ->
  (forall i d, pages !! i = Some d ->
     is_last_page (currentPage st + Z.of_nat i) d = false) ->
  fst (apiRequest (api_log_self server)
         (log_url baseUrl (currentPage st + Z.of_nat (length pages)))
         (createTokenAuthRequest userId accessToken) "/api/log/self"
         (h ++ log_requests baseUrl userId accessToken (currentPage st) (length pages)))
  = Throw e ->
  usage_loop fuel baseUrl userId accessToken st h
  = (Throw e,
     h ++ log_requests baseUrl userId accessToken (currentPage st) (S (length pages))).
Proof.
  induction pages as [| d rest IH]; intros fuel st h Hs Hfuel Hmax Hgo Hfail.
  - destruct fuel as [| fuel]; [simpl in Hfuel; lia |].
    simpl in Hfail, Hmax. rewrite Z.add_0_r in Hfail, Hmax. rewrite app_nil_r in Hfail.
    unfold usage_loop; fold usage_loop.
    apply Z.leb_le in Hmax. rewrite Hmax.
    unfold bind at 1.
    pose proof (apiRequest_sends (api_log_self server)
                  (log_url baseUrl (currentPage st))
                  (createTokenAuthRequest userId accessToken) "/api/log/self" h)
      as Hsent.
    destruct (apiRequest _ _ _ _ h) as [[logData | e0] h1]; simpl in *;
      [discriminate |].
    injection Hfail as ->. by subst h1.
  - destruct fuel as [| fuel]; [simpl in Hfuel; lia |].
    simpl in Hmax, Hfuel, Hfail.
    assert (Hle : (currentPage st <=? MAX_PAGES) = true) by (apply Z.leb_le; lia).
    unfold usage_loop; fold usage_loop. rewrite Hle.
    unfold bind at 1. rewrite (serves_head _ _ _ _ _ _ _ Hs).
    fold (is_last_page (currentPage st) d).
    pose proof (Hgo 0%nat d eq_refl) as Hfirst.
    simpl in Hfirst. rewrite Z.add_0_r in Hfirst. rewrite Hfirst.
    match goal with
    | |- context [usage_loop fuel _ _ _ ?s1 ?h1] =>
        rewrite (IH fuel s1 h1)
    end; simpl.
    + by rewrite <- app_assoc.
    + eapply serves_tail. exact Hs.
    + lia.
    + lia.
    + intros i d' Hd. specialize (Hgo (S i) d' Hd).
      by replace (currentPage st + 1 + Z.of_nat i)
        with (currentPage st + Z.of_nat (S i)) by lia.
    + rewrite <- app_assoc. simpl.
      by replace (currentPage st + 1 + Z.of_nat (length rest))
        with (currentPage st + Z.pos (Pos.of_succ_nat (length rest))) by lia.
Qed.

(** X12. [fetchTodayUsage] has no partial result for a page that fails.
    When the pages [1..k] are served and none of them is the last
    ([k < 100]) and the request for page [k + 1] fails with [e] (rejected,
    answered outside 2xx, or with a malformed body), the call throws [e]
    after [k + 1] requests and the sums of the [k] pages read are lost. *)
Theorem fetchTodayUsage_fails_with_its_page baseUrl userId accessToken h pages e :
  serves baseUrl userId accessToken h 1 pages ->
  (length pages < 100)%nat ->
  (forall i d, pages !! i = Some d -> is_last_page (1 + Z.of_nat i) d = false) ->
  fst (apiRequest (api_log_self server)
         (log_url baseUrl (1 + Z.of_nat (length pages)))
         (createTokenAuthRequest userId accessToken) "/api/log/self"
         (h ++ log_requests baseUrl userId accessToken 1 (length pages)))
  = Throw e ->
  fetchTodayUsage baseUrl userId accessToken h
  = (Throw e, h ++ log_requests baseUrl userId accessToken 1 (S (length pages))).
Proof.
  intros Hs Hlen Hgo Hfail. unfold fetchTodayUsage, bind.
  rewrite (usage_loop_fails baseUrl userId accessToken e pages (Z.to_nat MAX_PAGES)
             {| currentPage := 1; totalRequestsCount := 0;
                aggregatedData := zero_usage |} h); simpl currentPage;
    [reflexivity | exact Hs | | | exact Hgo | exact Hfail].
  - change (Z.to_nat MAX_PAGES) with 100%nat. lia.
  - unfold MAX_PAGES. lia.
Qed.

(** ** The account storage *)

Lemma lookup_account_app id l1 l2 :
  lookup_account id (l1 ++ l2)
  = match lookup_account id l1 with
    | Some a => Some a
    | None => lookup_account id l2
    end.
Proof.
  unfold lookup_account. induction l1 as [| a r IH]; simpl; [done |].
  by destruct (String.eqb (sa_id a) id).
Qed.

(** The record [addAccount] builds from the data it is given. *)
Definition added_account (accountData : NewAccount) : SiteAccount :=
  {| sa_id := generateId;
     emoji := new_emoji accountData;
     site_name := new_site_name accountData;
     site_url := new_site_url accountData;
     site_type := Some (Js.nullish (new_site_type accountData) "one-api");
     adapter_config := Some (Js.nullish (new_adapter_config accountData) []);
     health_status := new_health_status accountData;
     exchange_rate := new_exchange_rate accountData;
     account_info := new_account_info accountData;
     last_sync_time := new_last_sync_time accountData;
     updated_at := Date_now env;
     created_at := Date_now env |}.

Lemma addAccount_run accountData w :
  addAccount accountData w
  = (Return generateId,
     {| sent := sent w;
        stored := Some {| accounts := accounts_of w ++ [added_account accountData];
                          last_updated := Date_now env |} |}).
Proof. reflexivity. Qed.

(** X13. [addAccount] returns the id it generated, sends nothing and
    appends one record: the data given, with [site_type] and
    [adapter_config] defaulted and both time stamps set to now. The accounts
    stored before read back as before. [getAccountById] of the new id gives
    the new record when no stored account had that id; were the generated
    id taken already, it would give the older account. *)
Theorem addAccount_then_getAccountById accountData w :
  exists w',
    addAccount accountData w = (Return generateId, w')
    /\ sent w' = sent w
    /\ accounts_of w' = accounts_of w ++ [added_account accountData]
    /\ (lookup_account generateId (accounts_of w) = None ->
        getAccountById generateId w' = (Return (Some (added_account accountData)), w'))
    /\ (forall old,
          lookup_account generateId (accounts_of w) = Some old ->
          getAccountById generateId w' = (Return (Some old), w'))
    /\ (forall id, id <> generateId ->
          fst (getAccountById id w') = fst (getAccountById id w)).
Proof.
  eexists. split; [apply addAccount_run |].
  split; [reflexivity |].
  assert (Hacc : accounts_of
                   {| sent := sent w;
                      stored := Some {| accounts :=
                                          accounts_of w ++ [added_account accountData];
                                        last_updated := Date_now env |} |}
                 = accounts_of w ++ [added_account accountData]).
  { unfold accounts_of at 1. simpl. rewrite map_app. by rewrite accounts_of_normal. }
  split; [exact Hacc |].
  rewrite !getAccountById_run, Hacc.
  split; [| split].
  - intros Hfresh. rewrite lookup_account_app, Hfresh.
    change (lookup_account generateId [added_account accountData])
      with (if String.eqb generateId generateId
            then Some (added_account accountData) else None).
    by rewrite String.eqb_refl.
  - intros old Hold. by rewrite lookup_account_app, Hold.
  - intros id Hid. rewrite !getAccountById_run, Hacc. cbn [fst].
    rewrite lookup_account_app. destruct (lookup_account id (accounts_of w)); [done |].
    change (lookup_account id [added_account accountData])
      with (if String.eqb generateId id
            then Some (added_account accountData) else None).
    destruct (String.eqb_spec generateId id); [congruence | reflexivity].
Qed.

Lemma replace_first_missing id updates l :
  lookup_account id l = None -> replace_first id updates l = None.
Proof.
  unfold lookup_account. induction l as [| a r IH]; simpl; [done |].
  destruct (String.eqb (sa_id a) id); [done |].
  intros H. by rewrite (IH H).
Qed.

Lemma replace_first_length id updates l l' :
  replace_first id updates l = Some l' -> length l' = length l.
Proof.
  revert l'. induction l as [| a r IH]; simpl; intros l'; [done |].
  destruct (String.eqb (sa_id a) id); [by intros [= <-] |].
  destruct (replace_first id updates r) as [r' |]; [| done].
  intros [= <-]. simpl. by rewrite (IH r').
Qed.

(** X14. [updateAccount] never throws. For an id no stored account has
    it answers [false] and leaves the storage and the requests as they
    were. Otherwise it answers [true], sends nothing, and changes the first
    account with that id only: the fields of the update replace those of
    the account, the id and [created_at] stay, and [updated_at] is now even
    when the update carries an [updated_at] of its own. *)
Theorem updateAccount_missing_or_merged id updates w :
  (lookup_account id (accounts_of w) = None ->
   updateAccount id updates w = (Return false, w))
  /\ (forall account,
        lookup_account id (accounts_of w) = Some account ->
        exists w' account',
          updateAccount id updates w = (Return true, w')
          /\ sent w' = sent w
          /\ getAccountById id w' = (Return (Some account'), w')
          /\ account' = with_defaults (merge account updates)
          /\ sa_id account' = sa_id account
          /\ created_at account' = created_at account
          /\ updated_at account' = Date_now env
          /\ length (accounts_of w') = length (accounts_of w)
          /\ forall other, other <> id ->
               fst (getAccountById other w') = fst (getAccountById other w)).
Proof.
  split.
  - intros Hmiss. unfold updateAccount. run. fold (accounts_of w).
    by rewrite (replace_first_missing _ _ _ Hmiss).
  - intros account Hfound.
    destruct (updateAccount_found id updates w account Hfound)
      as (w' & Hrun & Hsent & Hread & Hother).
    exists w', (with_defaults (merge account updates)).
    split; [exact Hrun |]. split; [exact Hsent |].
    split; [by rewrite getAccountById_run, Hread |].
    split; [done |]. split; [done |]. split; [done |]. split; [done |].
    split.
    + revert Hrun. unfold updateAccount. run. fold (accounts_of w).
      destruct (replace_first id updates (accounts_of w)) as [l' |] eqn:El;
        [| discriminate].
      intros [= <-]. unfold accounts_of at 1. simpl.
      rewrite length_map. by apply replace_first_length in El.
    + intros other Hne. rewrite !getAccountById_run. simpl. by rewrite Hother.
Qed.

(** X15. [updateSyncTime] touches nothing but the two time stamps of the
    account, sets both to now, and answers [false] without writing when no
    account has the id. *)
Theorem updateSyncTime_only_stamps id w :
  (lookup_account id (accounts_of w) = None ->
   updateSyncTime id w = (Return false, w))
  /\ (forall account,
        lookup_account id (accounts_of w) = Some account ->
        exists w',
          updateSyncTime id w = (Return true, w')
          /\ getAccountById id w'
             = (Return (Some {| sa_id := sa_id account; emoji := emoji account;
                                site_name := site_name account;
                                site_url := site_url account;
                                site_type := site_type account;
                                adapter_config := adapter_config account;
                                health_status := health_status account;
                                exchange_rate := exchange_rate account;
                                account_info := account_info account;
                                last_sync_time := Date_now env;
                                updated_at := Date_now env;
                                created_at := created_at account |}), w')).
Proof.
  unfold updateSyncTime. split.
  - intros Hmiss. unfold updateAccount. run. fold (accounts_of w).
    by rewrite (replace_first_missing _ _ _ Hmiss).
  - intros account Hfound.
    destruct (updateAccount_found id
                {| set_emoji := None; set_site_name := None; set_site_url := None;
                   set_site_type := None; set_adapter_config := None;
                   set_health_status := None; set_exchange_rate := None;
                   set_account_info := None;
                   set_last_sync_time := Some (Date_now env);
                   set_updated_at := Some (Date_now env) |} w account Hfound)
      as (w' & Hrun & _ & Hread & _).
    exists w'. split; [exact Hrun |].
    rewrite getAccountById_run, Hread.
    pose proof (stored_account_normal id w account Hfound) as Hnormal.
    pose proof (f_equal site_type Hnormal) as Htype.
    pose proof (f_equal adapter_config Hnormal) as Hconfig.
    simpl in Htype, Hconfig.
    unfold with_defaults, merge. simpl. by rewrite Htype, Hconfig.
Qed.

(** [accounts.filter(account => account.id !== id)] *)
Definition without (id : string) (l : list SiteAccount) : list SiteAccount :=
  List.filter (fun account => negb (String.eqb (sa_id account) id)) l.

Lemma without_length id l :
  (length (without id l) =? length l)%nat
  = negb (present (lookup_account id l)).
Proof.
  unfold without, lookup_account.
  induction l as [| a r IH]; simpl; [done |].
  destruct (String.eqb (sa_id a) id); simpl.
  - apply Nat.eqb_neq.
    pose proof (List.filter_length_le
                  (fun account => negb (String.eqb (sa_id account) id)) r).
    lia.
  - exact IH.
Qed.

Lemma lookup_without id id' l :
  lookup_account id' (without id l)
  = if String.eqb id' id then None else lookup_account id' l.
Proof.
  unfold without, lookup_account.
  induction l as [| a r IH]; simpl; [by destruct (String.eqb id' id) |].
  destruct (String.eqb_spec (sa_id a) id) as [Ha | Ha]; simpl.
  - rewrite IH. destruct (String.eqb_spec id' id) as [-> | Hne]; [done |].
    destruct (String.eqb_spec (sa_id a) id'); [congruence | done].
  - destruct (String.eqb_spec (sa_id a) id') as [Ha' | Ha'].
    + destruct (String.eqb_spec id' id); [congruence | done].
    + exact IH.
Qed.

Lemma without_normal id l :
  map with_defaults (without id l) = without id (map with_defaults l).
Proof.
  unfold without. induction l as [| a r IH]; simpl; [done |].
  destruct (String.eqb (sa_id a) id); simpl; by rewrite IH.
Qed.

Lemma deleteAccount_run id w :
  deleteAccount id w
  = if present (lookup_account id (accounts_of w)) then
      (Return true,
       {| sent := sent w;
          stored := Some {| accounts := without id (accounts_of w);
                            last_updated := Date_now env |} |})
    else (Throw (PlainError ("账号 " +:+ id +:+ " 不存在")), w).
Proof.
  unfold deleteAccount. unfold bind at 1. rewrite getAllAccounts_run.
  fold (without id (accounts_of w)). rewrite without_length.
  by destruct (lookup_account id (accounts_of w)).
Qed.

(** X16. [deleteAccount] throws, and leaves the storage as it was, when
    no stored account has the id. Otherwise it answers [true], sends
    nothing, and removes every account with that id, keeping the others in
    their order: the id is not found afterwards and every other id reads as
    before. *)
Theorem deleteAccount_removes id w :
  (lookup_account id (accounts_of w) = None ->
   deleteAccount id w = (Throw (PlainError ("账号 " +:+ id +:+ " 不存在")), w))
  /\ (is_Some (lookup_account id (accounts_of w)) ->
      exists w',
        deleteAccount id w = (Return true, w')
        /\ sent w' = sent w
        /\ accounts_of w' = without id (accounts_of w)
        /\ getAccountById id w' = (Return None, w')
        /\ (forall other, other <> id ->
              fst (getAccountById other w') = fst (getAccountById other w))
        /\ deleteAccount id w'
           = (Throw (PlainError ("账号 " +:+ id +:+ " 不存在")), w')).
Proof.
  rewrite deleteAccount_run. split.
  - by intros ->.
  - intros [account Hfound]. rewrite Hfound. cbn [present].
    eexists. split; [reflexivity |]. split; [reflexivity |].
    assert (Hacc : accounts_of
                     {| sent := sent w;
                        stored := Some {| accounts := without id (accounts_of w);
                                          last_updated := Date_now env |} |}
                   = without id (accounts_of w)).
    { unfold accounts_of at 1. simpl.
      by rewrite without_normal, accounts_of_normal. }
    split; [exact Hacc |].
    assert (Hgone : lookup_account id (without id (accounts_of w)) = None)
      by (by rewrite lookup_without, String.eqb_refl).
    split; [by rewrite getAccountById_run, Hacc, Hgone |].
    split.
    + intros other Hne. rewrite !getAccountById_run, Hacc. cbn [fst].
      rewrite lookup_without. by destruct (String.eqb_spec other id).
    + by rewrite deleteAccount_run, Hacc, Hgone.
Qed.

Lemma without_fresh id l :
  lookup_account id l = None -> without id l = l.
Proof.
  unfold without, lookup_account.
  induction l as [| a r IH]; simpl; [done |].
  destruct (String.eqb (sa_id a) id); simpl; [done |].
  intros H. by rewrite (IH H).
Qed.

Lemma without_app id l1 l2 : without id (l1 ++ l2) = without id l1 ++ without id l2.
Proof. apply List.filter_app. Qed.

(** X17. Adding an account and deleting it again by the id returned
    restores the accounts stored, provided the generated id was not that of
    a stored account; the requests sent are untouched by both. *)
Theorem addAccount_then_deleteAccount accountData w :
  lookup_account generateId (accounts_of w) = None ->
  exists w1 w2,
    addAccount accountData w = (Return generateId, w1)
    /\ deleteAccount generateId w1 = (Return true, w2)
    /\ accounts_of w2 = accounts_of w
    /\ sent w2 = sent w.
Proof.
  intros Hfresh. eexists _, _. split; [apply addAccount_run |].
  rewrite deleteAccount_run.
  assert (Hacc : accounts_of
                   {| sent := sent w;
                      stored := Some {| accounts :=
                                          accounts_of w ++ [added_account accountData];
                                        last_updated := Date_now env |} |}
                 = accounts_of w ++ [added_account accountData]).
  { unfold accounts_of at 1. cbn [stored accounts Js.nullish].
    by rewrite map_app, accounts_of_normal. }
  assert (Hnew : lookup_account generateId [added_account accountData]
                 = Some (added_account accountData)).
  { change (lookup_account generateId [added_account accountData])
      with (if String.eqb generateId generateId
            then Some (added_account accountData) else None).
    by rewrite String.eqb_refl. }
  assert (Hdel : without generateId [added_account accountData] = []).
  { change (without generateId [added_account accountData])
      with (if negb (String.eqb generateId generateId)
            then [added_account accountData] else []).
    by rewrite String.eqb_refl. }
  rewrite Hacc, lookup_account_app, Hfresh, Hnew. cbn [present].
  split; [reflexivity |]. split; [| reflexivity].
  unfold accounts_of at 1. cbn [stored accounts Js.nullish].
  rewrite without_app, (without_fresh _ _ Hfresh), Hdel, app_nil_r.
  apply accounts_of_normal.
Qed.

(** [importData] stores the accounts it is given under a new
    [last_updated] and [exportData] reads them back as they were given;
    [getAllAccounts] then lists them with the defaults filled in. What
    [exportData] gave can be imported again without changing the accounts
    listed. After [clearAllData] no account is listed and none is found by
    id. *)
Theorem importData_exportData_round_trip data w :
  (exists w',
     importData data w = (Return true, w')
     /\ sent w' = sent w
     /\ exportData w'
        = (Return {| accounts := accounts data; last_updated := Date_now env |}, w')
     /\ getAllAccounts w' = (Return (map with_defaults (accounts data)), w'))
  /\ (exists exported w',
        exportData w = (Return exported, w)
        /\ importData exported w = (Return true, w')
        /\ fst (getAllAccounts w') = fst (getAllAccounts w))
  /\ (exists w',
        clearAllData w = (Return true, w')
        /\ sent w' = sent w
        /\ getAllAccounts w' = (Return [], w')
        /\ forall id, getAccountById id w' = (Return None, w')).
Proof.
  split; [| split].
  - eexists. split; [reflexivity |]. by repeat split.
  - eexists _, _. split; [reflexivity |]. split; [reflexivity |].
    rewrite !getAllAccounts_run. reflexivity.
  - eexists. split; [reflexivity |]. by repeat split.
Qed.

Lemma getAccountStats_run w :
  getAccountStats w = (Return (fold_left add_stats (accounts_of w) zero_stats), w).
Proof. reflexivity. Qed.

(** [getAccountStats] adds the numbers of the accounts in their
    stored order, starting from zero: nothing stored gives five zeros, and
    after [addAccount] the statistics are those from before with the
    numbers of the new account added. *)
Theorem getAccountStats_after_addAccount accountData w :
  (accounts_of w = [] -> fst (getAccountStats w) = Return zero_stats)
  /\ exists stats w',
       getAccountStats w = (Return stats, w)
       /\ snd (addAccount accountData w) = w'
       /\ getAccountStats w'
          = (Return
               {| total_quota :=
                    total_quota stats + ai_quota (new_account_info accountData);
                  today_total_consumption :=
                    today_total_consumption stats
                    + ai_today_quota_consumption (new_account_info accountData);
                  today_total_requests :=
                    today_total_requests stats
                    + ai_today_requests_count (new_account_info accountData);
                  today_total_prompt_tokens :=
                    today_total_prompt_tokens stats
                    + ai_today_prompt_tokens (new_account_info accountData);
                  today_total_completion_tokens :=
                    today_total_completion_tokens stats
                    + ai_today_completion_tokens (new_account_info accountData) |},
             w').
Proof.
  split.
  - rewrite getAccountStats_run. by intros ->.
  - exists (fold_left add_stats (accounts_of w) zero_stats),
      {| sent := sent w;
         stored := Some {| accounts := accounts_of w ++ [added_account accountData];
                           last_updated := Date_now env |} |}.
    split; [apply getAccountStats_run |].
    split; [by rewrite addAccount_run |].
    rewrite getAccountStats_run. f_equal.
    unfold accounts_of at 1. cbn [stored accounts Js.nullish].
    rewrite map_app, accounts_of_normal, fold_left_app. reflexivity.
Qed.

(** ** Saving and updating: what a failure leaves behind *)

(** X18. [validateAndSaveAccount] never throws, for any registry and any
    adapters in it. An answer with [success: false] carries an error message
    and no account id, and the storage is exactly as it was; an answer with
    [success: true] carries the id generated, and one account was appended:
    it has that id, the trimmed site name and URL, and is marked healthy. *)
Theorem validateAndSaveAccount_never_throws registry params w :
  exists r w',
    validateAndSaveAccount registry params w = (Return r, w')
    /\ (asr_success r = false ->
        stored w' = stored w /\ accountId r = None /\ is_Some (asr_error r))
    /\ (asr_success r = true ->
        accountId r = Some generateId /\ asr_error r = None
        /\ exists account,
             accounts_of w' = accounts_of w ++ [account]
             /\ sa_id account = generateId
             /\ site_name account = Js.trim (param_siteName params)
             /\ site_url account = Js.trim (param_url params)
             /\ health_status account = healthy).
Proof.
  destruct (resolveSiteType_returns registry (Js.trim (param_url params))
              (param_siteType params) (sent w)) as (resolved & h1 & Hres & _).
  unfold validateAndSaveAccount, try_catch, bind, ret, throw, network.
  destruct (negb (Js.truthy_string (Js.trim (param_url params))) || _);
    cbv beta; rewrite ?Hres; simpl;
  repeat case_step;
    repeat match goal with
           | H : buildCredentialsFromParams _ _ _ ?w0 = (_, ?w1) |- _ =>
               let Hw := fresh "Hw" in
               assert (Hw : w1 = w0)
                 by (apply (f_equal snd) in H;
                     rewrite buildCredentialsFromParams_pure in H; by simpl in H);
               subst w1; clear H
           end;
    eexists _, _; (split; [reflexivity |]); simpl;
    (split; [intros Hs; try discriminate Hs; by eauto |]);
    intros Hs; try discriminate Hs.
  split; [reflexivity |]. split; [reflexivity |].
  eexists. split.
  { unfold accounts_of. cbn [stored accounts Js.nullish].
    rewrite map_app, map_map.
    f_equal; try reflexivity; apply map_ext; intros x;
      apply with_defaults_idempotent. }
  by repeat split.
Qed.

Lemma updateAccount_false id updates w w' :
  updateAccount id updates w = (Return false, w') -> w' = w.
Proof.
  unfold updateAccount. run.
  destruct (replace_first id updates _); [discriminate | by intros [= <-]].
Qed.

Lemma updateAccount_returns id updates w :
  exists b w', updateAccount id updates w = (Return b, w').
Proof.
  unfold updateAccount. run.
  destruct (replace_first id updates _); by eauto.
Qed.

(** X19. [validateAndUpdateAccount] never throws. An answer with
    [success: false] carries an error message and the storage is exactly as
    it was. An answer with [success: true] carries the id it was called
    with; the account with that id now has the trimmed site name and URL and
    is marked healthy, its id and [created_at] are unchanged, and every
    other account reads as before. *)
Theorem validateAndUpdateAccount_never_throws registry target params w :
  exists r w',
    validateAndUpdateAccount registry target params w = (Return r, w')
    /\ (asr_success r = false -> stored w' = stored w /\ is_Some (asr_error r))
    /\ (asr_success r = true ->
        accountId r = Some target /\ asr_error r = None
        /\ exists old account,
             lookup_account target (accounts_of w) = Some old
             /\ lookup_account target (accounts_of w') = Some account
             /\ site_name account = Js.trim (param_siteName params)
             /\ site_url account = Js.trim (param_url params)
             /\ health_status account = healthy
             /\ sa_id account = sa_id old
             /\ created_at account = created_at old
             /\ forall other, other <> target ->
                  lookup_account other (accounts_of w')
                  = lookup_account other (accounts_of w)).
Proof.
  destruct (resolveSiteType_returns registry (Js.trim (param_url params))
              (param_siteType params) (sent w)) as (resolved & h1 & Hres & _).
  unfold validateAndUpdateAccount, try_catch, bind, ret, throw, network.
  destruct (negb (Js.truthy_string target)); [by eexists _, _; eauto |].
  destruct (negb (Js.truthy_string (Js.trim (param_url params))) || _);
    cbv beta; rewrite ?Hres; simpl;
  repeat case_step;
    repeat match goal with
           | H : buildCredentialsFromParams _ _ _ ?w0 = (_, ?w1) |- _ =>
               let Hw := fresh "Hw" in
               assert (Hw : w1 = w0)
                 by (apply (f_equal snd) in H;
                     rewrite buildCredentialsFromParams_pure in H; by simpl in H);
               subst w1; clear H
           end;
    repeat match goal with
           | H : updateAccount _ _ _ = (Return false, _) |- _ =>
               apply updateAccount_false in H; subst
           | H : updateAccount ?i ?u ?w0 = (Throw _, _) |- _ =>
               destruct (updateAccount_returns i u w0) as (? & ? & ?); congruence
           end;
    eexists _, _; (split; [reflexivity |]); simpl;
    (split; [intros Hs; try discriminate Hs; by eauto |]);
    intros Hs; try discriminate Hs.
  split; [reflexivity |]. split; [reflexivity |].
  match goal with
  | H : updateAccount target ?u ?w1 = (Return true, ?w2) |- _ =>
      rename H into Hupd; remember u as updates eqn:Eu;
      remember w1 as w0 eqn:Ew0
  end.
  pose proof (updateAccount_result target updates w0) as Hfound.
  rewrite Hupd in Hfound. simpl in Hfound.
  destruct (lookup_account target (accounts_of w0)) as [old |] eqn:Elook;
    [| discriminate Hfound].
  destruct (updateAccount_found target updates w0 old Elook)
    as (w3 & Hup & _ & Hread & Hother).
  rewrite Hupd in Hup. injection Hup as <-.
  assert (Hsame : accounts_of w0 = accounts_of w) by (by subst w0).
  rewrite Hsame in Elook. setoid_rewrite Hsame in Hother.
  exists old. eexists. split; [exact Elook |]. split; [exact Hread |].
  subst updates. by repeat split.
Qed.

(** ** Refreshing an account *)

(** The [catch] block of [refreshAccount]: whatever the [try] block threw,
    the call returns [false] after an attempt to record the health status. *)
Lemma refreshAccount_catch registry target w e w1 :
  refreshAccount_try registry target w = (Throw e, w1) ->
  refreshAccount registry target w
  = (Return false,
     snd (updateAccount target (failure_update (determineHealthStatus e)) w1)).
Proof.
  intros Htry. unfold refreshAccount, try_catch. rewrite Htry.
  unfold bind at 1. unfold bind at 1.
  by destruct (updateAccount_returns target
                 (failure_update (determineHealthStatus e)) w1)
    as (b & w2 & ->).
Qed.

(** The account a refresh leaves behind: [account] with the health
    status, the account data and both time stamps replaced. *)
Definition refreshed_account (account : SiteAccount) (health : SiteHealthStatus)
    (info : AccountInfo) : SiteAccount :=
  {| sa_id := sa_id account; emoji := emoji account;
     site_name := site_name account; site_url := site_url account;
     site_type := site_type account; adapter_config := adapter_config account;
     health_status := health; exchange_rate := exchange_rate account;
     account_info := info;
     last_sync_time := Date_now env; updated_at := Date_now env;
     created_at := created_at account |}.

Lemma merge_refresh_update account info :
  with_defaults account = account ->
  with_defaults (merge account (refresh_update info))
  = refreshed_account account healthy info.
Proof.
  intros Hnormal.
  pose proof (f_equal site_type Hnormal) as Htype.
  pose proof (f_equal adapter_config Hnormal) as Hconfig.
  simpl in Htype, Hconfig. unfold with_defaults, merge, refreshed_account. simpl.
  by rewrite Htype, Hconfig.
Qed.

Lemma merge_failure_update account health :
  with_defaults account = account ->
  with_defaults (merge account (failure_update health))
  = refreshed_account account (status health) (account_info account).
Proof.
  intros Hnormal.
  pose proof (f_equal site_type Hnormal) as Htype.
  pose proof (f_equal adapter_config Hnormal) as Hconfig.
  simpl in Htype, Hconfig. unfold with_defaults, merge, refreshed_account. simpl.
  by rewrite Htype, Hconfig.
Qed.

(** X20. When the balance and the usage of a stored account are fetched,
    [refreshAccount] returns [true] and the account reads back marked
    healthy, with both time stamps set to now and its [account_info]
    refreshed: the quota is the raw balance when the adapter gave a balance
    and the old quota when the adapter has no [getAccountBalance], and
    likewise for the four numbers of the usage; the identity fields of
    [account_info] and every other field of the record are those of before;
    every other account reads as before. *)
Theorem refreshAccount_success registry target w account adapter credentials
    balance usage h1 :
  lookup_account target (accounts_of w) = Some account ->
  getAdapter registry (getAccountSiteType account) = Some adapter ->
  buildCredentialsFromStoredAccount account w = (Return credentials, w) ->
  fetchBalanceAndUsage adapter credentials getTodayTimeRange (sent w)
  = (Return (balance, usage), h1) ->
  exists w',
    refreshAccount registry target w = (Return true, w')
    /\ sent w' = h1
    /\ getAccountById target w'
       = (Return (Some (refreshed_account account healthy
                          (refreshed_info (account_info account) balance usage))),
          w')
    /\ ai_quota (refreshed_info (account_info account) balance usage)
       = match balance with
         | Some b => rawBalance b
         | None => ai_quota (account_info account)
         end
    /\ (getAccountBalance adapter = None -> balance = None)
    /\ (getUsageStats adapter = None -> usage = None)
    /\ (forall other, other <> target ->
          fst (getAccountById other w') = fst (getAccountById other w)).
Proof.
  intros Hfound Hadapter Hbuild Hfetch.
  set (w1 := {| sent := h1; stored := stored w |}).
  set (info := refreshed_info (account_info account) balance usage).
  assert (Hfound1 : lookup_account target (accounts_of w1) = Some account)
    by exact Hfound.
  destruct (updateAccount_found target (refresh_update info) w1 account Hfound1)
    as (w' & Hup & Hsent & Hread & Hother).
  exists w'. split.
  { unfold refreshAccount, try_catch, refreshAccount_try. unfold bind at 1.
    rewrite getAccountById_run, Hfound, Hadapter. unfold bind at 1.
    rewrite Hbuild. unfold bind at 1. unfold network. rewrite Hfetch.
    fold w1. fold info. unfold bind at 1. by rewrite Hup. }
  split; [exact Hsent |].
  split.
  { rewrite getAccountById_run, Hread, merge_refresh_update; [done |].
    exact (stored_account_normal _ _ _ Hfound). }
  split; [reflexivity |].
  split; [| split].
  - intros Hno. revert Hfetch. unfold fetchBalanceAndUsage, Promise_all2.
    rewrite Hno. simpl. unfold ret.
    destruct (if_implemented _ credentials (sent w)) as [[u | e] h2];
      by intros [= <- _].
  - intros Hno. revert Hfetch. unfold fetchBalanceAndUsage, Promise_all2.
    rewrite Hno. simpl. unfold ret.
    destruct (if_implemented (getAccountBalance adapter) credentials (sent w))
      as [[b | e] h2]; by intros [= _ <-].
  - intros other Hne. rewrite !getAccountById_run. simpl.
    by rewrite (Hother other Hne).
Qed.

(** X21. [refreshAccount] never throws. For an id that no stored account
    has it returns [false] and leaves the storage and the requests as they
    were. For an account whose site type no adapter serves it returns
    [false] without a request: the account is marked [unknown], its time
    stamps are set to now and its data are kept. *)
Theorem refreshAccount_never_throws registry target w :
  (exists b w', refreshAccount registry target w = (Return b, w'))
  /\ (lookup_account target (accounts_of w) = None ->
      refreshAccount registry target w = (Return false, w))
  /\ (forall account,
        lookup_account target (accounts_of w) = Some account ->
        getAdapter registry (getAccountSiteType account) = None ->
        exists w',
          refreshAccount registry target w = (Return false, w')
          /\ sent w' = sent w
          /\ getAccountById target w'
             = (Return (Some (refreshed_account account unknown
                                (account_info account))), w')).
Proof.
  split; [| split].
  - destruct (refreshAccount_try registry target w) as [[b | e] w1] eqn:Htry.
    + exists b, w1. unfold refreshAccount, try_catch. by rewrite Htry.
    + eexists _, _. by apply refreshAccount_catch.
  - intros Hmiss.
    assert (Htry : refreshAccount_try registry target w
                   = (Throw (PlainError ("账号 " +:+ target +:+ " 不存在")), w)).
    { unfold refreshAccount_try. unfold bind at 1.
      by rewrite getAccountById_run, Hmiss. }
    rewrite (refreshAccount_catch _ _ _ _ _ Htry).
    unfold updateAccount. run. fold (accounts_of w).
    by rewrite (replace_first_missing _ _ _ Hmiss).
  - intros account Hfound Hnone.
    set (e := PlainError ("不支持的站点类型: " +:+ getAccountSiteType account)).
    assert (Htry : refreshAccount_try registry target w = (Throw e, w)).
    { unfold refreshAccount_try. unfold bind at 1.
      by rewrite getAccountById_run, Hfound, Hnone. }
    rewrite (refreshAccount_catch _ _ _ _ _ Htry).
    destruct (updateAccount_found target (failure_update (determineHealthStatus e))
                w account Hfound) as (w' & Hup & Hsent & Hread & _).
    exists w'. rewrite Hup. split; [reflexivity |]. split; [exact Hsent |].
    rewrite getAccountById_run, Hread, merge_failure_update;
      [| exact (stored_account_normal _ _ _ Hfound)].
    reflexivity.
Qed.

(** X22. On the built-in registry an account of a One API site type that
    was stored with an API key cannot be refreshed: the credentials built
    for it are of kind [api-key], the OneApi adapter refuses them before any
    request, and [refreshAccount] returns [false], sends nothing, marks the
    account [unknown] and keeps its data. *)
Theorem refreshAccount_api_key_account target w account key :
  lookup_account target (accounts_of w) = Some account ->
  getAccountSiteType account ∈ supportedSiteTypes OneApiAdapter_metadata ->
  ai_api_key (account_info account) = Some key ->
  key <> "" ->
  exists w',
    refreshAccount getInstance target w = (Return false, w')
    /\ sent w' = sent w
    /\ getAccountById target w'
       = (Return (Some (refreshed_account account unknown (account_info account))),
          w').
Proof.
  intros Hfound Htype Hkey Hne.
  pose proof (getAdapter_getInstance_one_api _ Htype) as Hadapter.
  assert (Hnc : String.eqb (getAccountSiteType account) "cubence" = false).
  { apply String.eqb_neq. intros Heq. rewrite Heq in Htype. revert Htype.
    refine (bool_decide_unpack (_ ∉ _) _). vm_compute. exact I. }
  set (e := PlainError OneApiAdapter_kind_mismatch).
  assert (Htry : refreshAccount_try getInstance target w = (Throw e, w)).
  { unfold refreshAccount_try. unfold bind at 1.
    rewrite getAccountById_run, Hfound, Hadapter. unfold bind at 1.
    unfold buildCredentialsFromStoredAccount. rewrite Hnc, Hkey.
    cbn [Js.opt_string]. rewrite (truthy_string_true _ Hne).
    unfold ret at 1. unfold bind at 1. unfold network, fetchBalanceAndUsage.
    cbn [getAccountBalance getUsageStats OneApiAdapter_adapter option_map
           if_implemented].
    unfold Promise_all2, bind, OneApiAdapter_getAccountBalance,
      OneApiAdapter_getUsageStats, throw.
    cbn [auth]. destruct (second_settles_first env); by destruct w. }
  rewrite (refreshAccount_catch _ _ _ _ _ Htry).
  destruct (updateAccount_found target (failure_update (determineHealthStatus e))
              w account Hfound) as (w' & Hup & Hsent & Hread & _).
  exists w'. rewrite Hup. split; [reflexivity |]. split; [exact Hsent |].
  rewrite getAccountById_run, Hread, merge_failure_update;
    [| exact (stored_account_normal _ _ _ Hfound)].
  reflexivity.
Qed.

(** ** What the form must carry for a One API site *)

(** X23. For a site whose adapter is not the Cubence adapter, with no API
    key in the form (absent or blank), both save paths need an access token
    and a numeric user id: without one of the two the call answers
    [success: false] with the message asking for them, and with a user id
    that is not a number with the message saying so. In both cases the
    adapter is not called at all and nothing is stored. *)
Theorem save_requires_token_and_numeric_user_id registry params w resolved h1 adapter :
  Js.trim (param_url params) <> "" ->
  Js.trim (param_siteName params) <> "" ->
  resolveSiteType registry (Js.trim (param_url params)) (param_siteType params)
    (sent w) = (Return resolved, h1) ->
  getAdapter registry resolved = Some adapter ->
  id (metadata adapter) <> "cubence" ->
  trimmed (param_apiKey params) = "" ->
  let w1 := {| sent := h1; stored := stored w |} in
  let missing := "请填写访问令牌与用户 ID" in
  let not_a_number := "用户 ID 必须是数字" in
  (trimmed (param_accessToken params) = "" \/ trimmed (param_userId params) = "" ->
   validateAndSaveAccount registry params w
   = (Return (save_failure ("保存失败: " +:+ missing)), w1)
   /\ forall target, target <> "" ->
        validateAndUpdateAccount registry target params w
        = (Return (save_failure ("更新失败: " +:+ missing)), w1))
  /\ (trimmed (param_accessToken params) <> "" ->
      trimmed (param_userId params) <> "" ->
      Js.isNaN (Js.Number (trimmed (param_userId params))) = true ->
      validateAndSaveAccount registry params w
      = (Return (save_failure ("保存失败: " +:+ not_a_number)), w1)
      /\ forall target, target <> "" ->
           validateAndUpdateAccount registry target params w
           = (Return (save_failure ("更新失败: " +:+ not_a_number)), w1)).
Proof.
  intros Hurl Hname Hres Hadapter Hid Hkey w1 missing not_a_number.
  assert (Hbuild : forall message,
             requireOneApiParams params w1 = (Throw (PlainError message), w1) ->
             validateAndSaveAccount registry params w
             = (Return (save_failure ("保存失败: " +:+ message)), w1)
             /\ forall target, target <> "" ->
                  validateAndUpdateAccount registry target params w
                  = (Return (save_failure ("更新失败: " +:+ message)), w1)).
  { intros message Hreq.
    assert (Hb : buildCredentialsFromParams (id (metadata adapter))
                   (Js.trim (param_url params)) params w1
                 = (Throw (PlainError message), w1)).
    { unfold buildCredentialsFromParams.
      destruct (String.eqb_spec (id (metadata adapter)) "cubence"); [done |].
      rewrite Hkey. cbn [Js.truthy_string String.eqb negb].
      unfold bind. by rewrite Hreq. }
    split.
    - unfold validateAndSaveAccount.
      rewrite (truthy_string_true _ Hurl), (truthy_string_true _ Hname).
      cbn [negb orb]. unfold bind at 1. unfold network at 1. rewrite Hres.
      fold w1. rewrite Hadapter. unfold try_catch. unfold bind at 1.
      by rewrite Hb.
    - intros target Htarget. unfold validateAndUpdateAccount.
      rewrite (truthy_string_true _ Htarget),
        (truthy_string_true _ Hurl), (truthy_string_true _ Hname).
      cbn [negb orb]. unfold bind at 1. unfold network at 1. rewrite Hres.
      fold w1. rewrite Hadapter. unfold try_catch. unfold bind at 1.
      by rewrite Hb. }
  split.
  - intros Hmissing. apply Hbuild. unfold requireOneApiParams.
    destruct Hmissing as [-> | ->]; [done |].
    by rewrite orb_true_r.
  - intros Htoken Huser Hnan. apply Hbuild. unfold requireOneApiParams.
    rewrite (truthy_string_true _ Htoken), (truthy_string_true _ Huser).
    cbn [negb orb]. by rewrite Hnan.
Qed.

(** ** The refresh of the storage service *)

Lemma bind_Return {S A B} (c : ST S A) (k : A -> ST S B) s a s' :
  c s = (Return a, s') -> bind c k s = k a s'.
Proof. intros H. unfold bind. by rewrite H. Qed.





(** ** Validating the stored accounts in a batch *)

(** An account [validateAccounts] can try: it has an access token and a
    finite user id. *)
Definition has_token_credentials (account : SiteAccount) : bool :=
  Js.truthy_string (Js.opt_string (ai_access_token (account_info account)))
  && Js.isFinite (stored_userId (account_info account)).

Lemma validateAccounts_one_run account h :
  exists isValid,
    validateAccounts_one account h
    = (Return isValid,
       if has_token_credentials account
       then h ++ [Fetch (site_url account +:+ "/api/user/self")
                    (createTokenAuthRequest (stored_userId (account_info account))
                       (Js.opt_string (ai_access_token (account_info account))))]
       else h)
    /\ (isValid = true -> has_token_credentials account = true).
Proof.
  unfold validateAccounts_one, has_token_credentials, try_catch.
  destruct (Js.truthy_string _); simpl; [| by eexists].
  destruct (Js.isFinite _); simpl; [| by eexists].
  unfold validateAccountConnection, try_catch, bind.
  pose proof (fetchAccountQuota_sends (site_url account)
                (stored_userId (account_info account))
                (Js.opt_string (ai_access_token (account_info account))) h) as Hs.
  destruct (fetchAccountQuota _ _ _ h) as [[q | e] h1]; simpl in *; subst h1;
    by eexists.
Qed.

Lemma validateAccounts_all_run accounts : forall h,
  exists results h',
    validateAccounts_all accounts h = (Return results, h')
    /\ length results = length accounts
    /\ length h'
       = (length h + length (List.filter has_token_credentials accounts))%nat
    /\ Forall2 (fun account isValid =>
                  isValid = true -> has_token_credentials account = true)
         accounts results.
Proof.
  induction accounts as [| a rest IH]; intros h.
  - exists [], h. simpl. repeat split; [lia | constructor].
  - destruct (validateAccounts_one_run a h) as (b & Hone & Hb).
    cbn [validateAccounts_all]. rewrite (bind_Return _ _ _ _ _ Hone).
    match goal with
    | |- context [bind (validateAccounts_all rest) _ ?h1] =>
        destruct (IH h1) as (results & h' & Hrun & Hlen & Hsent & Hall)
    end.
    rewrite (bind_Return _ _ _ _ _ Hrun).
    exists (b :: results), h'. split; [reflexivity |].
    split; [simpl; by rewrite Hlen |].
    split; [| by constructor].
    rewrite Hsent. cbn [List.filter]. destruct (has_token_credentials a).
    + rewrite length_app. simpl. lia.
    + lia.
Qed.

Lemma judged_partition (judged : list (SiteAccount * bool)) :
  map fst (List.filter snd judged)
  ++ map fst (List.filter (fun p => negb (snd p)) judged)
  ≡ₚ map fst judged.
Proof.
  induction judged as [| [a b] r IH]; simpl; [done |].
  destruct b; simpl.
  - by constructor.
  - rewrite <- Permutation_middle. by constructor.
Qed.

(** X25. [AccountStorageUtils.validateAccounts] never throws and loses
    no account: the valid and the invalid accounts together are the
    accounts given, each once, and [valid] holds only accounts that have an
    access token and a finite user id. One request is sent for each such
    account and none for the others. *)
Theorem validateAccounts_partitions accounts h :
  exists r h',
    AccountStorageUtils_validateAccounts accounts h = (Return r, h')
    /\ valid r ++ invalid r ≡ₚ accounts
    /\ (length (valid r) + length (invalid r))%nat = length accounts
    /\ Forall (fun account => has_token_credentials account = true) (valid r)
    /\ length h'
       = (length h + length (List.filter has_token_credentials accounts))%nat.
Proof.
  destruct (validateAccounts_all_run accounts h)
    as (results & h' & Hrun & Hlen & Hsent & Hall).
  unfold AccountStorageUtils_validateAccounts, bind, ret. rewrite Hrun.
  eexists _, h'. split; [reflexivity |]. cbn [valid invalid].
  assert (Hfst : map fst (combine accounts results) = accounts).
  { clear -Hlen. revert results Hlen.
    induction accounts as [| a r IH]; intros [| b results] Hlen; simpl in *;
      try done.
    f_equal. apply IH. lia. }
  assert (Hperm := judged_partition (combine accounts results)).
  rewrite Hfst in Hperm.
  split; [exact Hperm |].
  split; [by rewrite <- length_app, Hperm |].
  split; [| exact Hsent].
  clear -Hall. induction Hall as [| a b accounts results Hab Hall IH]; simpl;
    [constructor |].
  destruct b; simpl; [| exact IH].
  constructor; [by apply Hab | exact IH].
Qed.

(** ** Refreshing the data of an account over the network *)

Lemma fetchAccountData_sends baseUrl userId accessToken h :
  exists rest,
    snd (fetchAccountData baseUrl userId accessToken h)
    = h ++ Fetch (baseUrl +:+ "/api/user/self")
             (createTokenAuthRequest userId accessToken)
          :: log_request baseUrl userId accessToken 1 :: rest.
Proof.
  unfold fetchAccountData, Promise_all2, bind.
  pose proof (fetchAccountQuota_sends baseUrl userId accessToken h) as Hq.
  destruct (fetchAccountQuota baseUrl userId accessToken h) as [rq h1].
  simpl in Hq. subst h1.
  destruct (fetchTodayUsage_sends baseUrl userId accessToken
              (h ++ [Fetch (baseUrl +:+ "/api/user/self")
                       (createTokenAuthRequest userId accessToken)]))
    as (rest & Hu).
  destruct (fetchTodayUsage baseUrl userId accessToken _) as [ru h2].
  simpl in Hu. subst h2. exists rest. rewrite <- app_assoc.
  by destruct rq, ru.
Qed.

(** X26. [refreshAccountData] never throws. It always sends the request
    for the quota and then the request for the first page of the log, even
    when the first of the two fails. With the data fetched it reports
    [healthy]; otherwise it reports no data and the health class of the
    error [fetchAccountData] threw. *)
Theorem refreshAccountData_never_throws baseUrl userId accessToken h :
  exists result h' rest,
    refreshAccountData baseUrl userId accessToken h = (Return result, h')
    /\ h' = h ++ Fetch (baseUrl +:+ "/api/user/self")
                   (createTokenAuthRequest userId accessToken)
               :: log_request baseUrl userId accessToken 1 :: rest
    /\ (rar_success result = true ->
        status (healthStatus result) = healthy
        /\ exists data,
             rar_data result = Some data
             /\ fetchAccountData baseUrl userId accessToken h = (Return data, h'))
    /\ (rar_success result = false ->
        rar_data result = None
        /\ exists e,
             fetchAccountData baseUrl userId accessToken h = (Throw e, h')
             /\ healthStatus result = determineHealthStatus e).
Proof.
  destruct (fetchAccountData_sends baseUrl userId accessToken h) as (rest & Hsent).
  unfold refreshAccountData, try_catch, bind, ret.
  destruct (fetchAccountData baseUrl userId accessToken h) as [[data | e] h1];
    simpl in Hsent; subst h1; eexists _, _, rest;
    (split; [reflexivity |]); (split; [reflexivity |]); simpl.
  - split; [| done]. intros _. split; [reflexivity |]. by eexists.
  - split; [done |]. intros _. split; [reflexivity |]. by eexists.
Qed.

(** ** Valid exchange rates *)

Lemma positive_truthy (x : number) : (0 <? x)%float = true -> Js.truthy x = true.
Proof.
  intros Elt. unfold Js.truthy, Js.isNaN, PrimFloat.is_nan, PrimFloat.is_zero.
  rewrite FloatAxioms.ltb_spec in Elt. rewrite !FloatAxioms.eqb_spec.
  change (Prim2SF 0) with (S754_zero false) in Elt.
  change (Prim2SF zero) with (S754_zero false).
  destruct (Prim2SF x) as [s | s | | s m e] eqn:Ex; try discriminate Elt.
  - destruct s; [discriminate Elt | reflexivity].
  - destruct s; [discriminate Elt |].
    unfold SFeqb, SFcompare. rewrite Z.compare_refl, Pos.compare_refl.
    reflexivity.
Qed.

Lemma negative_truthy (x : number) :
  (x <? 0)%float = true -> Js.truthy x = true /\ (0 <? x)%float = false.
Proof.
  intros Elt. unfold Js.truthy, Js.isNaN, PrimFloat.is_nan, PrimFloat.is_zero.
  rewrite FloatAxioms.ltb_spec in *. rewrite !FloatAxioms.eqb_spec.
  change (Prim2SF 0) with (S754_zero false) in *.
  change (Prim2SF zero) with (S754_zero false).
  destruct (Prim2SF x) as [s | s | | s m e] eqn:Ex; try discriminate Elt.
  - destruct s; [by split | discriminate Elt].
  - destruct s; [| discriminate Elt].
    unfold SFeqb, SFltb, SFcompare. rewrite Z.compare_refl, Pos.compare_refl.
    by split.
Qed.

(** X27. A text [isValidExchangeRate] accepts is saved as it parses: the
    rate both save paths compute from it is [parseFloat] of the text, above
    zero and at most 100, with no default put in its place. The save paths
    themselves do not ask [isValidExchangeRate]: a text that parses to a
    negative number is not valid, and is what they would save. *)
Theorem isValidExchangeRate_rate_is_kept params :
  (isValidExchangeRate (param_exchangeRate params) = true ->
   parsedExchangeRate params = Js.parseFloat (param_exchangeRate params)
   /\ (0 <? parsedExchangeRate params)%float = true
   /\ (parsedExchangeRate params <=? 100)%float = true)
  /\ (forall text,
        (Js.parseFloat text <? 0)%float = true ->
        isValidExchangeRate text = false
        /\ parsedExchangeRate (with_exchangeRate text params) = Js.parseFloat text).
Proof.
  unfold isValidExchangeRate, parsedExchangeRate, Js.or_number. split.
  - intros [[_ Hpos]%andb_true_iff Hle]%andb_true_iff.
    rewrite (positive_truthy _ Hpos). by repeat split.
  - intros text Hneg. cbn [param_exchangeRate with_exchangeRate].
    destruct (negative_truthy _ Hneg) as [-> ->].
    split; [| reflexivity]. by rewrite andb_false_r.
Qed.

(** ** The Cubence adapter over the network *)

(** The direct request of [fetchJson] and the message that replaces it. *)
Definition cubence_direct_request (fetchUrl : string) : Request :=
  Fetch fetchUrl {| method := "GET"; user_headers := None; authorization := None;
                    credentials := include |}.

Definition cubence_page_message (baseUrl fetchUrl requestIdPrefix : string)
  : RuntimeMessage :=
  {| action := "pageFetchJson"; url := baseUrl; fetchUrl := Some fetchUrl;
     requestId := requestIdPrefix +:+ "-" +:+ Js.Z_toString (Date_now env) |}.

(** X28. [fetchJson] of the Cubence adapter asks the background page
    exactly when the direct request did not deliver a body. With a site URL
    that gives no valid request URL it throws and sends nothing. When the
    direct request is answered with a 2xx status and a body that parses, it
    returns that body after this one request. In every other case (the
    request rejected, a status outside 2xx, a body that does not parse) it
    sends the page message next, two requests in all, and returns the
    [data] of a reply with [success], or throws the [error] of the reply,
    or a default message naming the path. *)
Theorem CubenceAdapter_fetchJson_fallback {T}
    (direct : History -> string -> RequestInit -> HttpReply (option T))
    (page : History -> RuntimeMessage -> MessageReply T)
    siteUrl path requestIdPrefix h :
  let baseUrl := normalizeSiteUrl siteUrl in
  let run := CubenceAdapter_fetchJson direct page siteUrl path requestIdPrefix h in
  match URL_href env path baseUrl with
  | None => (exists e, fst run = Throw e) /\ snd run = h
  | Some fetchUrl =>
      let request := cubence_direct_request fetchUrl in
      let message := cubence_page_message baseUrl fetchUrl requestIdPrefix in
      let delivered :=
        match direct h fetchUrl
                {| method := "GET"; user_headers := None; authorization := None;
                   credentials := include |} with
        | Response st (Return body) => if ok_status st then Some body else None
        | _ => None
        end in
      match delivered with
      | Some body => run = (Return body, h ++ [request])
      | None =>
          run
          = (match page (h ++ [request]) message with
             | MessageRejected e => Throw e
             | MessageResponse (Some r) =>
                 if pr_success r then Return (pr_data r)
                 else Throw (PlainError
                               (Js.or_string (Js.opt_string (pr_error r))
                                  ("获取 " +:+ path +:+ " 失败")))
             | MessageResponse None =>
                 Throw (PlainError ("获取 " +:+ path +:+ " 失败"))
             end,
             h ++ [request; SendMessage message])
      end
  end.
Proof.
  intros baseUrl run. subst run. unfold CubenceAdapter_fetchJson. fold baseUrl.
  destruct (URL_href env path baseUrl) as [fetchUrl |]; [| by split; [eexists |]].
  cbv zeta.
  unfold fetch, json, sendMessage, cubence_direct_request, cubence_page_message.
  run.
  destruct (direct h fetchUrl _) as [e | st body]; simpl.
  - destruct (page _ _) as [e' | [r |]]; simpl; rewrite <- ?app_assoc; simpl;
      try reflexivity.
    by destruct (pr_success r).
  - destruct (ok_status st); simpl.
    + destruct body as [body | e]; simpl; [reflexivity |].
      destruct (page _ _) as [e' | [r |]]; simpl; rewrite <- ?app_assoc; simpl;
        try reflexivity.
      by destruct (pr_success r).
    + destruct body as [body | e]; simpl;
        (destruct (page _ _) as [e' | [r |]]; simpl; rewrite <- ?app_assoc; simpl;
         try reflexivity; by destruct (pr_success r)).
Qed.

Lemma CubenceAdapter_fetchJson_sends {T}
    (direct : History -> string -> RequestInit -> HttpReply (option T))
    (page : History -> RuntimeMessage -> MessageReply T)
    siteUrl path requestIdPrefix h :
  exists rest,
    snd (CubenceAdapter_fetchJson direct page siteUrl path requestIdPrefix h)
    = h ++ rest
    /\ (length rest <= 2)%nat.
Proof.
  unfold CubenceAdapter_fetchJson.
  destruct (URL_href env path _) as [fetchUrl |];
    [| exists []; by rewrite app_nil_r; simpl; split; [| lia]].
  unfold fetch, json, sendMessage. run.
  destruct (direct h fetchUrl _) as [e | st body]; simpl.
  - destruct (page _ _) as [e' | [r |]]; simpl; rewrite <- ?app_assoc;
      try (eexists; split; [reflexivity | simpl; lia]).
    destruct (pr_success r); eexists; (split; [reflexivity | simpl; lia]).
  - destruct (ok_status st); simpl.
    + destruct body as [body | e]; simpl;
        [eexists; split; [reflexivity | simpl; lia] |].
      destruct (page _ _) as [e' | [r |]]; simpl; rewrite <- ?app_assoc;
        try (eexists; split; [reflexivity | simpl; lia]).
      destruct (pr_success r); eexists; (split; [reflexivity | simpl; lia]).
    + destruct body as [body | e]; simpl;
        (destruct (page _ _) as [e' | [r |]]; simpl; rewrite <- ?app_assoc;
         try (eexists; split; [reflexivity | simpl; lia]);
         destruct (pr_success r); eexists; (split; [reflexivity | simpl; lia])).
Qed.

Lemma CubenceAdapter_overview_sends siteUrl h :
  exists rest,
    snd (CubenceAdapter_overview siteUrl h) = h ++ rest /\ (length rest <= 2)%nat.
Proof.
  unfold CubenceAdapter_overview, CubenceAdapter_fetchOverview, bind.
  destruct (CubenceAdapter_fetchJson_sends (cubence_overview server)
              (page_overview server) siteUrl "/api/v1/dashboard/overview"
              "cubence-overview" h) as (rest & Hsent & Hlen).
  destruct (CubenceAdapter_fetchJson _ _ _ _ _ h) as [[[o |] | e] h1];
    simpl in *; subst h1; by exists rest.
Qed.

(** X29. [validateConnection] and [autoDetectAccount] of the Cubence
    adapter never throw and send at most two requests. [validateConnection]
    answers credentials that are not of kind [cookie] with the kind-mismatch
    message and without a request; it answers [ok] only with the user name
    the overview gave, which is not empty. [autoDetectAccount] sends nothing
    for a blank URL; when it succeeds the data carry that user name and an
    empty access token and user id; when it fails it gives an error message
    and no classified error. *)
Theorem CubenceAdapter_never_throws credentials url h :
  (exists result rest,
     CubenceAdapter_validateConnection credentials h = (Return result, h ++ rest)
     /\ (length rest <= 2)%nat
     /\ (kind (auth credentials) <> "cookie" ->
         rest = [] /\ ok result = false
         /\ vr_message result = Some CubenceAdapter_kind_mismatch)
     /\ (ok result = true ->
         exists n, n <> ""
                   /\ details result
                      = Some {| details_username := Some n;
                                details_user_username := None |})
     /\ (ok result = false -> is_Some (vr_message result)))
  /\ (exists result rest,
        CubenceAdapter_autoDetectAccount url h = (Return result, h ++ rest)
        /\ (length rest <= 2)%nat
        /\ (Js.trim url = "" -> rest = [] /\ success result = false)
        /\ (success result = true ->
            exists n, n <> ""
                      /\ data result
                         = Some {| username := n; accessToken := ""; userId := "";
                                   exchangeRate := None |})
        /\ (success result = false ->
            is_Some (adr_error result) /\ data result = None)
        /\ detailedError result = None).
Proof.
  assert (Hname : forall d n, overview_username d = Some n -> n <> "").
  { intros d n. unfold overview_username.
    destruct (co_user d) as [u |]; [| done].
    destruct (cu_username u) as [m |]; [| done].
    unfold Js.truthy_string. destruct (String.eqb_spec m ""); [done |].
    by intros [= <-]. }
  split.
  - unfold CubenceAdapter_validateConnection.
    destruct (auth credentials) as [u t | k | u] eqn:Eauth;
      try (eexists _, []; rewrite app_nil_r; split; [reflexivity |];
           split; [simpl; lia |]; split; [done |];
           split; [done | by eauto]).
    unfold try_catch, bind.
    destruct (CubenceAdapter_overview_sends (siteUrl credentials) h)
      as (rest & Hsent & Hlen).
    destruct (CubenceAdapter_overview (siteUrl credentials) h)
      as [[overview | e] h1]; simpl in Hsent; subst h1.
    + destruct (co_success overview), (co_data overview) as [d |];
        try (eexists _, rest; split; [reflexivity |]; split; [exact Hlen |];
             split; [done |]; split; [done | by eauto]).
      destruct (overview_username d) as [n |] eqn:En;
        eexists _, rest; (split; [reflexivity |]); (split; [exact Hlen |]);
        (split; [done |]); split; try done; try (by eauto).
    + eexists _, rest. split; [reflexivity |]. split; [exact Hlen |].
      split; [done |]. split; [done | by eauto].
  - unfold CubenceAdapter_autoDetectAccount.
    destruct (Js.truthy_string (Js.trim url)) eqn:Eurl; cbn [negb].
    2: { eexists _, []. rewrite app_nil_r. split; [reflexivity |].
         split; [simpl; lia |]. split; [done |]. split; [done |].
         split; [by eauto | done]. }
    assert (Hnb : Js.trim url <> "").
    { intros Heq. rewrite Heq in Eurl. discriminate. }
    unfold try_catch, bind.
    destruct (CubenceAdapter_overview_sends (Js.trim url) h)
      as (rest & Hsent & Hlen).
    destruct (CubenceAdapter_overview (Js.trim url) h)
      as [[overview | e] h1]; simpl in Hsent; subst h1.
    + destruct (co_success overview), (co_data overview) as [d |];
        try (eexists _, rest; split; [reflexivity |]; split; [exact Hlen |];
             split; [done |]; split; [done |]; split; [by eauto | done]).
      destruct (overview_username d) as [n |] eqn:En;
        eexists _, rest; (split; [reflexivity |]); (split; [exact Hlen |]);
        (split; [done |]); (split; [| split; [| done]]); try done;
        try (by eauto).
    + eexists _, rest. split; [reflexivity |]. split; [exact Hlen |].
      split; [done |]. split; [done |]. split; [by eauto | done].
Qed.

(** ** Detecting an account on a One API site *)

Lemma digits_of_nonempty fuel : forall n c acc,
  Js.digits_of fuel n (String c acc) <> "".
Proof.
  induction fuel as [| fuel IH]; intros n c acc; simpl; [done |].
  destruct (n <? 10); [done | apply IH].
Qed.

Lemma Z_toString_nonempty n : Js.Z_toString n <> "".
Proof.
  unfold Js.Z_toString. destruct (n <? 0); simpl.
  - done.
  - destruct (n <? 10); [done | apply digits_of_nonempty].
Qed.

Lemma getOrCreateAccessToken_sends baseUrl userId h :
  exists rest, snd (getOrCreateAccessToken baseUrl userId h) = h ++ rest.
Proof.
  unfold getOrCreateAccessToken, fetchUserInfo, createAccessToken, bind, ret.
  pose proof (apiRequest_sends (api_user_self server)
                (baseUrl +:+ "/api/user/self")
                (createCookieAuthRequest (Some userId)) "/api/user/self" h) as Hs.
  destruct (apiRequest (api_user_self server) _ _ _ h) as [[u | e] h1];
    simpl in Hs; subst h1; [| by eexists].
  cbn [ui_access_token].
  destruct (match self_access_token u with
            | Some t => if Js.truthy_string t then Some t else None
            | None => None
            end); [by eexists |].
  match goal with
  | |- context [apiRequest (api_user_token server) ?a ?b ?c ?h0] =>
      pose proof (apiRequest_sends (api_user_token server) a b c h0) as Ht;
      destruct (apiRequest (api_user_token server) a b c h0) as [[t | e] h2]
  end; simpl in Ht; subst h2; rewrite <- app_assoc; by eexists.
Qed.

(** The message [autoDetectAccount] of the OneApi adapter starts with. *)
Definition auto_detect_message (url : string) : RuntimeMessage :=
  {| action := "autoDetectSite"; url := Js.trim url; fetchUrl := None;
     requestId := "auto-detect-" +:+ Js.Z_toString (Date_now env) |}.

(** X30. [autoDetectAccount] of the OneApi adapter never throws. For a
    blank URL it fails without a request and without a classified error.
    Otherwise its first request is the [autoDetectSite] message for the
    trimmed URL. When it succeeds, the data carry a user name, an access
    token and a user id that are not empty; when it fails, it gives an error
    message, no data and (the blank URL apart) a classified error. *)
Theorem OneApiAdapter_autoDetectAccount_never_throws url h :
  exists result rest,
    OneApiAdapter_autoDetectAccount url h = (Return result, h ++ rest)
    /\ (Js.trim url = "" ->
        rest = [] /\ success result = false /\ detailedError result = None)
    /\ (Js.trim url <> "" ->
        exists rest', rest = SendMessage (auto_detect_message url) :: rest')
    /\ (success result = true ->
        detailedError result = None
        /\ exists d, data result = Some d
                     /\ username d <> "" /\ accessToken d <> "" /\ userId d <> "")
    /\ (success result = false ->
        is_Some (adr_error result) /\ data result = None
        /\ (Js.trim url <> "" -> is_Some (detailedError result))).
Proof.
  unfold OneApiAdapter_autoDetectAccount.
  destruct (Js.truthy_string (Js.trim url)) eqn:Eurl; cbn [negb].
  2: { eexists _, []. rewrite app_nil_r. split; [reflexivity |].
       assert (Js.trim url = "").
       { unfold Js.truthy_string in Eurl.
         by destruct (String.eqb_spec (Js.trim url) ""). }
       split; [done |]. split; [done |]. split; [done |].
       split; [by eauto |]. split; [done | done]. }
  assert (Hnb : Js.trim url <> "").
  { intros Heq. rewrite Heq in Eurl. discriminate. }
  assert (Hfail : forall message detail rest',
             exists result rest,
               (Return (OneApiAdapter_failure message detail),
                h ++ SendMessage (auto_detect_message url) :: rest')
               = (Return result, h ++ rest)
               /\ (Js.trim url = "" ->
                   rest = [] /\ success result = false
                   /\ detailedError result = None)
               /\ (Js.trim url <> "" ->
                   exists rest', rest = SendMessage (auto_detect_message url) :: rest')
               /\ (success result = true ->
                   detailedError result = None
                   /\ exists d, data result = Some d
                                /\ username d <> "" /\ accessToken d <> ""
                                /\ userId d <> "")
               /\ (success result = false ->
                   is_Some (adr_error result) /\ data result = None
                   /\ (Js.trim url <> "" -> is_Some (detailedError result)))).
  { intros message detail rest'. eexists _, _. split; [reflexivity |].
    split; [done |]. split; [by eauto |]. split; [done |].
    intros _. split; [by eauto |]. split; [done | by eauto]. }
  unfold try_catch, sendMessage. fold (auto_detect_message url).
  unfold bind at 1.
  destruct (page_auto_detect server h (auto_detect_message url)) as [e | response];
    [unfold ret, throw; cbv beta iota; apply (Hfail _ _ []) |].
  destruct response as [response |];
    [| unfold ret, throw; cbv beta iota; apply (Hfail _ _ [])].
  destruct (pr_success response); cbn [negb];
    [| unfold ret, throw; cbv beta iota; apply (Hfail _ _ [])].
  destruct (pr_data response) as [found |];
    [| unfold ret, throw; cbv beta iota; apply (Hfail _ _ [])].
  destruct (detected_userId found) as [uid |];
    [| unfold ret, throw; cbv beta iota; apply (Hfail _ _ [])].
  destruct (OneApiAdapter_userId_truthy uid) eqn:Euid;
    [| unfold ret, throw; cbv beta iota; apply (Hfail _ _ [])].
  unfold bind at 1. unfold Promise_all2.
  set (h1 := h ++ [SendMessage (auto_detect_message url)]).
  destruct (getOrCreateAccessToken_sends (Js.trim url)
              (OneApiAdapter_userId_Number uid) h1) as (rest1 & Hs1).
  destruct (getOrCreateAccessToken (Js.trim url) (OneApiAdapter_userId_Number uid) h1)
    as [tokenInfo h2].
  simpl in Hs1. subst h2.
  destruct (fetchSiteStatus_returns (Js.trim url) (h1 ++ rest1)) as (status & Hs2).
  rewrite Hs2. subst h1. rewrite <- !app_assoc. cbn [app].
  destruct tokenInfo as [tokenInfo | e];
    [| unfold ret, throw; cbv beta iota; apply Hfail].
  destruct (negb (Js.truthy_string (ati_username tokenInfo))
            || negb (Js.truthy_string (access_token tokenInfo))) eqn:Eblank;
    [unfold ret, throw; cbv beta iota; apply Hfail |].
  apply orb_false_iff in Eblank as [Hn%negb_false_iff Ht%negb_false_iff].
  unfold ret. cbv beta iota.
  eexists _, _. split; [reflexivity |].
  split; [done |]. split; [by eauto |]. split; [| done].
  intros _. split; [reflexivity |]. eexists. split; [reflexivity |].
  cbn [username accessToken userId].
  split; [| split].
  - intros Heq. rewrite Heq in Hn. discriminate.
  - intros Heq. rewrite Heq in Ht. discriminate.
  - destruct uid as [n | s]; simpl in *.
    + apply Z_toString_nonempty.
    + intros Heq. rewrite Heq in Euid. discriminate.
Qed.

End OneApiHub.

Arguments metadata {AutoDetectError} _.
Arguments new_registry {AutoDetectError}.
Arguments registerAdapter {AutoDetectError} _ _.
Arguments registration_throws {AutoDetectError} _ _.
Arguments capability_gap {AutoDetectError} _.
Arguments id_registered {AutoDetectError} _ _.
Arguments site_type_claimed {AutoDetectError} _ _.
Arguments site_type_repeated {AutoDetectError} _.
Arguments detectSiteType {AutoDetectError} _ _ _.
Arguments getAdapter {AutoDetectError} _ _.
Arguments adaptersById {AutoDetectError} _.
Arguments adaptersBySiteType {AutoDetectError} _.
Arguments Probed {AutoDetectError} _ _ _ _ _.

(** * Concrete sites and runs *)

(** The examples classify no error. *)
Definition no_analysis (_ : string + JsError) : unit := tt.

(** A host: a clock, a calendar day, and a URL parser that knows
    [scheme://host/path] without port, query or fragment. *)
Fixpoint until_slash (s : string) : string :=
  match s with
  | EmptyString => EmptyString
  | String c r => if Ascii.eqb c "/" then EmptyString else String c (until_slash r)
  end.

Definition host_of (url : string) : option string :=
  if Js.startsWith url "https://" then Some (until_slash (String.substring 8 (String.length url) url))
  else if Js.startsWith url "http://" then Some (until_slash (String.substring 7 (String.length url) url))
  else None.

Definition demo_host : Host :=
  {| Date_now := 1700000000000;
     today := {| range_start := 1699920000; range_end := 1700006399 |};
     random_suffix := "k3j9x2m1q";
     URL_href := fun path base =>
       match host_of base with
       | Some _ => Some (base +:+ path)
       | None => None
       end;
     URL_hostname := host_of;
     second_settles_first := false |}.

Definition network_down : JsError := TypeError "Failed to fetch".

(** A network that is down: every request is rejected. *)
Definition dead_server : Server :=
  {| api_user_self := fun _ _ _ => Rejected network_down;
     api_user_token := fun _ _ _ => Rejected network_down;
     api_log_self := fun _ _ _ => Rejected network_down;
     api_status := fun _ _ _ => Rejected network_down;
     cubence_overview := fun _ _ _ => Rejected network_down;
     cubence_analytics_today := fun _ _ _ => Rejected network_down;
     page_overview := fun _ _ => MessageRejected network_down;
     page_analytics_today := fun _ _ => MessageRejected network_down;
     page_auto_detect := fun _ _ => MessageRejected network_down |}.

Definition succeed {T} (d : T) : HttpReply (ApiResponse T) :=
  Response 200 (Return {| ar_success := true; ar_data := Some d; ar_message := None |}).

Definition demo_item : LogItem :=
  {| quota := Some 10%float; prompt_tokens := Some 3%float;
     completion_tokens := Some 2%float; token_name := Some "default" |}.

(** A page of [n] items of a log that reports 250 items. *)
Definition page_of (n : nat) : LogResponseData :=
  {| items := Some (repeat demo_item n); total := Some 250%float |}.

(** A One API site whose user has 1,000,000 quota points and 250 log
    items today, served 100 to a page: the page served is told by the
    number of requests received before. *)
Definition demo_site : Server :=
  {| api_user_self := fun _ _ _ =>
       succeed {| self_id := 7%float; self_username := "alice";
                  self_access_token := Some "tok";
                  self_quota := Some 1000000%float |};
     api_user_token := fun _ _ _ => succeed "tok";
     api_log_self := fun h _ _ =>
       succeed (page_of (if (length h <? 2)%nat then 100 else 50));
     api_status := fun _ _ _ => Rejected network_down;
     cubence_overview := fun _ _ _ =>
       Response 200
         (Return (Some {| co_success := true;
                          co_data := Some
                            {| co_user := Some {| cu_username := Some "bob" |};
                               co_balance := Some
                                 {| total_balance := None;
                                    total_balance_dollar := Some 3.5%float |} |} |}));
     cubence_analytics_today := fun _ _ _ => Rejected network_down;
     page_overview := fun _ _ => MessageRejected network_down;
     page_analytics_today := fun _ _ => MessageRejected network_down;
     page_auto_detect := fun _ _ => MessageRejected network_down |}.

(** The same site behind a server that caps a page at one item. *)
Definition short_page_site : Server :=
  {| api_user_self := api_user_self demo_site;
     api_user_token := api_user_token demo_site;
     api_log_self := fun _ _ _ => succeed (page_of 1);
     api_status := api_status demo_site;
     cubence_overview := cubence_overview demo_site;
     cubence_analytics_today := cubence_analytics_today demo_site;
     page_overview := page_overview demo_site;
     page_analytics_today := page_analytics_today demo_site;
     page_auto_detect := page_auto_detect demo_site |}.

(** An adapter with nothing but [validateConnection]. *)
Definition bare_adapter (adapterId : string) (siteTypes : list string)
    (caps : list AdapterCapability)
    (probe : option (string -> Async (option SiteStatusInfo))) : ISiteAdapter unit :=
  {| metadata := {| id := adapterId; name := adapterId; version := "0.0.0";
                    supportedSiteTypes := siteTypes; capabilities := caps;
                    balance := None |};
     validateConnection := fun _ =>
       ret {| ok := true; vr_message := None; details := None |};
     getAccountBalance := None;
     getUsageStats := None;
     autoDetectAccount := None;
     getOrCreateAccessToken_method := None;
     getApiTokens := None;
     createApiToken := None;
     updateApiToken := None;
     deleteApiToken := None;
     getAvailableModels := None;
     getModelPricing := None;
     getSiteStatus := probe |}.

(** An adapter that lists one site type twice, up to case. *)
Definition twice_listed : ISiteAdapter unit := bare_adapter "dup" ["x"; "X"] [] None.

(** An adapter that declares TOKEN_MANAGEMENT and lacks [deleteApiToken]. *)
Definition three_of_four : ISiteAdapter unit :=
  {| metadata := {| id := "tokens"; name := "tokens"; version := "0.0.0";
                    supportedSiteTypes := ["tokens"];
                    capabilities := [TOKEN_MANAGEMENT]; balance := None |};
     validateConnection := fun _ =>
       ret {| ok := true; vr_message := None; details := None |};
     getAccountBalance := None;
     getUsageStats := None;
     autoDetectAccount := None;
     getOrCreateAccessToken_method := None;
     getApiTokens := Some method_present;
     createApiToken := Some method_present;
     updateApiToken := Some method_present;
     deleteApiToken := None;
     getAvailableModels := None;
     getModelPricing := None;
     getSiteStatus := None |}.

(** Registering [three_of_four] throws. *)
Lemma registerAdapter_refuses_exactly_witness :
  registration_throws three_of_four new_registry.
Proof.
  apply (proj1 (proj2 (registerAdapter_refuses_exactly unit no_analysis
                         new_registry three_of_four))).
  - constructor.
  - right; right; right. reflexivity.
Defined.

(** C1, the claim as stated fails: [twice_listed] has an id, nothing is
    registered, no site type is claimed, it declares no capability, and its
    registration throws. *)
Lemma twice_listed_is_refused :
  registration_throws twice_listed new_registry
  /\ id (metadata twice_listed) <> ""
  /\ ~ id_registered new_registry twice_listed
  /\ ~ site_type_claimed new_registry twice_listed
  /\ ~ capability_gap twice_listed.
Proof.
  split; [| split; [| split; [| split]]].
  - eexists _, _. vm_compute. reflexivity.
  - discriminate.
  - discriminate.
  - intros (t & _ & Hx). simpl in Hx. rewrite lookup_empty in Hx. by destruct Hx.
  - intros (cap & Hin & _). simpl in Hin. by apply elem_of_nil in Hin.
Qed.

Definition token_credentials : SiteCredentials :=
  {| siteUrl := "https://api.example"; auth := one_api_token 7 "tok";
     adapterConfig := None |}.

Definition cookie_credentials : SiteCredentials :=
  {| siteUrl := "https://cubence.com"; auth := cookie None; adapterConfig := None |}.

(** The OneApi adapter rejects cookie credentials and sends nothing. *)
Lemma OneApiAdapter_auth_kind_guard_witness :
  OneApiAdapter_getAccountBalance demo_site cookie_credentials []
  = (Throw (PlainError OneApiAdapter_kind_mismatch), [])
  /\ OneApiAdapter_getUsageStats demo_site demo_host cookie_credentials
       (today demo_host) []
     = (Throw (PlainError OneApiAdapter_kind_mismatch), [])
  /\ OneApiAdapter_validateConnection demo_site cookie_credentials []
     = (Return {| ok := false; vr_message := Some OneApiAdapter_kind_mismatch;
                  details := None |}, []).
Proof.
  apply (proj1 (proj2 (OneApiAdapter_auth_kind_guard demo_site demo_host
                         cookie_credentials (today demo_host) []))).
  discriminate.
Defined.

Definition demo_balance : BalanceInfo :=
  {| rawBalance := 1000000; bal_rawUnit := "quota_points";
     bal_conversionFactor := Some 500000%float; balanceUSD := Some 2%float |}.

Definition self_request : Request :=
  Fetch "https://api.example/api/user/self" (createTokenAuthRequest 7 "tok").

(** On [demo_site] the OneApi adapter reports 1,000,000 quota points as
    2 USD. *)
Lemma balanceUSD_is_rawBalance_over_factor_witness :
  OneApiAdapter_getAccountBalance demo_site token_credentials []
  = (Return demo_balance, [self_request])
  /\ rawBalance demo_balance = 1000000%float
  /\ balanceUSD demo_balance = Some 2%float.
Proof.
  assert (Hrun :
    OneApiAdapter_getAccountBalance demo_site token_credentials []
    = (Return demo_balance, [self_request]))
    by (vm_compute; reflexivity).
  split; [exact Hrun |]. split; [reflexivity |].
  destruct (balanceUSD_is_rawBalance_over_factor demo_site demo_host
              token_credentials [] demo_balance [self_request])
    as (_ & _ & Hone & _).
  destruct (Hone Hrun) as (_ & _ & _ & Htwo). apply Htwo. reflexivity.
Defined.

Definition demo_overview_data : CubenceOverviewData :=
  {| co_user := Some {| cu_username := Some "bob" |};
     co_balance := Some {| total_balance := None;
                           total_balance_dollar := Some 3.5%float |} |}.

(** On [demo_site], whose overview has no [total_balance] and 3.5 dollars,
    the Cubence adapter reports 3,500,000 micro-USD. *)
Lemma CubenceAdapter_rawBalance_witness :
  exists b h',
    CubenceAdapter_getAccountBalance demo_site demo_host cookie_credentials []
    = (Return b, h')
    /\ rawBalance b = 3500000%float.
Proof.
  assert (Hrun :
    CubenceAdapter_overview demo_site demo_host (siteUrl cookie_credentials) []
    = (Return {| co_success := true; co_data := Some demo_overview_data |},
       [Fetch "https://cubence.com/api/v1/dashboard/overview"
          {| method := "GET"; user_headers := None; authorization := None;
             credentials := include |}]))
    by (vm_compute; reflexivity).
  destruct (CubenceAdapter_rawBalance demo_site demo_host cookie_credentials []
              _ demo_overview_data _ eq_refl Hrun eq_refl eq_refl)
    as (b & Hb & _ & _ & Hdollar).
  eexists _, _. split; [exact Hb |].
  apply (Hdollar {| total_balance := None; total_balance_dollar := Some 3.5%float |});
    reflexivity.
Defined.

(** On [demo_site], whose log holds 250 items: [getUsageStats] of the
    OneApi adapter sends three requests and reports the sums of the 250
    items and a request count of 250. *)
Lemma OneApiAdapter_getUsageStats_pagination_witness :
  OneApiAdapter_getUsageStats demo_site demo_host token_credentials
    (today demo_host) []
  = (Return {| rawConsumption := 2500;
               use_rawUnit := "quota_points";
               use_conversionFactor := Some 500000%float;
               promptTokens := Some 750%float;
               completionTokens := Some 500%float;
               requestCount := Some 250%float |},
     [log_request demo_host "https://api.example" 7 "tok" 1;
      log_request demo_host "https://api.example" 7 "tok" 2;
      log_request demo_host "https://api.example" 7 "tok" 3]).
Proof.
  destruct (OneApiAdapter_getUsageStats_pagination demo_site demo_host unit
              no_analysis token_credentials (today demo_host) 7%float "tok" [] eq_refl)
    as (_ & H250 & _ & _).
  assert (Hs : serves demo_site demo_host "https://api.example" 7 "tok" [] 1
                 [page_of 100; page_of 100; page_of 50]).
  { intros [| [| [| i]]] d Hd; simpl in Hd; try discriminate;
      injection Hd as <-; eexists _, _; (split; [reflexivity | reflexivity]). }
  destruct (H250 (page_of 100) (page_of 100) (page_of 50) Hs
              eq_refl eq_refl eq_refl) as [Hrun _].
  rewrite Hrun. vm_compute. reflexivity.
Defined.

(** C3, the claim as stated fails: [short_page_site] reports a total of
    250 with every page and serves one item to a page; the loop stops
    after three pages, and [getUsageStats] of the OneApi adapter reports a
    request count of 3, far from the total reported and from the cap on
    the pages. *)
Lemma short_pages_end_the_loop_early :
  (forall h url init,
      api_log_self short_page_site h url init = succeed (page_of 1))
  /\ total (page_of 1) = Some 250%float
  /\ length (page_items (page_of 1)) = 1%nat
  /\ fetchTodayUsage short_page_site demo_host "https://api.example" 7 "tok" []
     = (Return {| today_quota_consumption := 30;
                  today_prompt_tokens := 9;
                  today_completion_tokens := 6;
                  today_requests_count := 3 |},
        [log_request demo_host "https://api.example" 7 "tok" 1;
         log_request demo_host "https://api.example" 7 "tok" 2;
         log_request demo_host "https://api.example" 7 "tok" 3])
  /\ OneApiAdapter_getUsageStats short_page_site demo_host token_credentials
       (today demo_host) []
     = (Return {| rawConsumption := 30;
                  use_rawUnit := "quota_points";
                  use_conversionFactor := Some 500000%float;
                  promptTokens := Some 9%float;
                  completionTokens := Some 6%float;
                  requestCount := Some 3%float |},
        [log_request demo_host "https://api.example" 7 "tok" 1;
         log_request demo_host "https://api.example" 7 "tok" 2;
         log_request demo_host "https://api.example" 7 "tok" 3])
  /\ (3 <? 250)%float = true
  /\ 3 < MAX_PAGES.
Proof.
  split; [reflexivity |]. split; [reflexivity |]. split; [reflexivity |].
  split; [vm_compute; reflexivity |]. split; [vm_compute; reflexivity |].
  split; [reflexivity |].
  unfold MAX_PAGES. lia.
Qed.

(** A stored One API account, and a world that holds it and has sent
    nothing yet. *)
Definition demo_account : SiteAccount :=
  {| sa_id := "account_1"; emoji := ""; site_name := "Demo";
     site_url := "https://api.example"; site_type := Some "one-api";
     adapter_config := Some []; health_status := healthy;
     exchange_rate := 7.2%float;
     account_info :=
       {| ai_id := Some (account_id_number 7); ai_access_token := Some "tok";
          ai_api_key := None; ai_username := Some "alice";
          ai_quota := 123456; ai_today_prompt_tokens := 10;
          ai_today_completion_tokens := 20;
          ai_today_quota_consumption := 30; ai_today_requests_count := 4 |};
     last_sync_time := 1699990000000; updated_at := 1699990000000;
     created_at := 1690000000000 |}.

Definition demo_world : World :=
  {| sent := [];
     stored := Some {| accounts := [demo_account];
                       last_updated := 1699990000000 |} |}.

(** On [dead_server] the refresh of [demo_account] fails on the network:
    it returns [false], marks the account ["error"] and keeps its data. *)
Lemma refreshAccount_failure_keeps_data_witness :
  exists w' account',
    refreshAccount demo_host unit
      (getInstance dead_server demo_host unit no_analysis) "account_1" demo_world
    = (Return false, w')
    /\ getAccountById demo_host "account_1" w' = (Return (Some account'), w')
    /\ account_info account' = account_info demo_account
    /\ ai_quota (account_info account') = 123456%float
    /\ health_status account' = error
    /\ last_sync_time account' = 1700000000000.
Proof.
  destruct (refreshAccount_failure_keeps_data demo_host unit
              (getInstance dead_server demo_host unit no_analysis)
              "account_1" demo_world demo_account
              (OneApiAdapter_adapter dead_server demo_host unit no_analysis)
              network_down
              [self_request;
               log_request demo_host "https://api.example" 7 "tok" 1])
    as [(w' & account' & Hrun & _ & _ & _ & Hget & Hinfo & Hquota & Hhealth
         & Hsync & _) _].
  - reflexivity.
  - reflexivity.
  - right. eexists. split; [reflexivity |]. vm_compute. reflexivity.
  - exists w', account'.
    split; [exact Hrun |]. split; [exact Hget |]. split; [exact Hinfo |].
    split; [by rewrite Hquota |]. split; [by rewrite Hhealth |]. exact Hsync.
Defined.

(** The form of the account dialog filled in for a One API site, with an
    API key. *)
Definition api_key_params (apiKey : string) : ValidateAndSaveParams :=
  {| param_siteType := Some "one-api"; param_url := "https://api.example";
     param_siteName := "Demo"; param_username := "alice";
     param_accessToken := Some "tok"; param_userId := Some "7";
     param_apiKey := Some apiKey; param_exchangeRate := "7.2" |}.

Definition empty_world : World := {| sent := []; stored := None |}.

(** With the key [sk-1] on a One API site, saving and updating are both
    refused with the kind-mismatch message; nothing is sent or stored. *)
Lemma apiKey_on_OneApi_site_is_refused_witness :
  validateAndSaveAccount demo_host unit
    (getInstance demo_site demo_host unit no_analysis)
    (api_key_params "sk-1") empty_world
  = (Return (save_failure OneApiAdapter_kind_mismatch), empty_world)
  /\ validateAndUpdateAccount demo_host unit
       (getInstance demo_site demo_host unit no_analysis)
       "account_1" (api_key_params "sk-1") empty_world
     = (Return (save_failure OneApiAdapter_kind_mismatch), empty_world).
Proof.
  destruct (apiKey_on_OneApi_site_is_refused demo_site demo_host unit
              no_analysis (api_key_params "sk-1") empty_world "one-api" [])
    as (Hsave & Hupdate & _).
  - vm_compute. discriminate.
  - vm_compute. discriminate.
  - vm_compute. discriminate.
  - vm_compute. reflexivity.
  - refine (bool_decide_unpack _ _). vm_compute. exact I.
  - split; [exact Hsave |]. apply Hupdate. discriminate.
Defined.

(** C9, the claim as stated fails: an API key made of one space is not
    empty, yet the manager trims it away and builds token credentials from
    the user id and the access token of the same form. On [demo_site] the
    account is validated, its balance and usage are fetched (five requests)
    and it is persisted. *)
Lemma blank_apiKey_is_saved :
  param_apiKey (api_key_params " ") = Some " "
  /\ " " <> ""
  /\ supportedSiteTypes CubenceAdapter_metadata = ["cubence"]
  /\ resolveSiteType unit (getInstance demo_site demo_host unit no_analysis)
       "https://api.example" (param_siteType (api_key_params " ")) []
     = (Return "one-api", [])
  /\ exists w',
      validateAndSaveAccount demo_host unit
        (getInstance demo_site demo_host unit no_analysis)
        (api_key_params " ") empty_world
      = (Return {| asr_success := true;
                   accountId := Some "account_1700000000000_k3j9x2m1q";
                   asr_error := None |}, w')
      /\ length (sent w') = 5%nat
      /\ fst (getAccountById demo_host "account_1700000000000_k3j9x2m1q" w')
         = Return (Some
             {| sa_id := "account_1700000000000_k3j9x2m1q"; emoji := "";
                site_name := "Demo"; site_url := "https://api.example";
                site_type := Some "one-api"; adapter_config := Some [];
                health_status := healthy; exchange_rate := 7.2%float;
                account_info :=
                  {| ai_id := Some (account_id_number 7);
                     ai_access_token := Some "tok"; ai_api_key := None;
                     ai_username := Some "alice"; ai_quota := 1000000;
                     ai_today_prompt_tokens := 450;
                     ai_today_completion_tokens := 300;
                     ai_today_quota_consumption := 1500;
                     ai_today_requests_count := 150 |};
                last_sync_time := 1700000000000;
                updated_at := 1700000000000;
                created_at := 1700000000000 |}).
Proof.
  split; [reflexivity |]. split; [discriminate |]. split; [reflexivity |].
  split; [vm_compute; reflexivity |].
  eexists. split; [vm_compute; reflexivity |].
  split; vm_compute; reflexivity.
Qed.

(** Five adapters in registration order: one without [getSiteStatus], one
    whose probe throws, one whose probe resolves to [null], and two whose
    probes give a status. *)
Definition probe_hit : string -> Async (option SiteStatusInfo) :=
  fun url => ret (Some {| price := None; stripe_unit_price := None;
                          PaymentUSDRate := None; detected := Some true;
                          host := Some url |}).

Definition probing_registry : SiteAdapterRegistry unit :=
  {| adaptersById :=
       [("mute", bare_adapter "mute" ["mute"] [] None);
        ("thrower", bare_adapter "thrower" ["thrower"] []
                      (Some (fun _ => throw (PlainError "boom"))));
        ("silent", bare_adapter "silent" ["silent"] [] (Some (fun _ => ret None)));
        ("hit", bare_adapter "hit" ["hit"] [] (Some probe_hit));
        ("late", bare_adapter "late" ["late"] [] (Some probe_hit))];
     adaptersBySiteType := ∅;
     builtInsRegistered := true |}.

(** The first adapter whose probe gives a status is [hit]. *)
Lemma detectSiteType_first_match_witness :
  detectSiteType probing_registry "https://api.example/" []
  = (Return (Some "hit"), []).
Proof.
  destruct (detectSiteType_first_match unit probing_registry
              "https://api.example/" [])
    as (r & h' & Hrun & _ & Hunique & _).
  destruct (Hunique (Some "hit") []) as [<- <-]; [| exact Hrun].
  apply probed_skip; [reflexivity |].
  eapply probed_throw; [reflexivity | reflexivity |].
  eapply probed_null; [reflexivity | reflexivity |].
  exact (probed_match unit _ (bare_adapter "hit" ["hit"] [] (Some probe_hit))
           _ _ probe_hit _ _ eq_refl eq_refl).
Defined.

(** The empty registry detects nothing. *)
Lemma detectSiteType_of_new_registry :
  detectSiteType (new_registry (AutoDetectError := unit)) "https://api.example" []
  = (Return None, []).
Proof. reflexivity. Qed.

(** [demo_account] stored with an exchange rate of 6.5. *)
Definition rated_account : SiteAccount :=
  {| sa_id := "account_1"; emoji := ""; site_name := "Demo";
     site_url := "https://api.example"; site_type := Some "one-api";
     adapter_config := Some []; health_status := healthy;
     exchange_rate := 6.5%float;
     account_info := account_info demo_account;
     last_sync_time := 1699990000000; updated_at := 1699990000000;
     created_at := 1690000000000 |}.

Definition rated_world : World :=
  {| sent := [];
     stored := Some {| accounts := [rated_account];
                       last_updated := 1699990000000 |} |}.

(** A rate of [abc] on [demo_site]: a save appends an account with the
    rate 7.2, and an update of [rated_account], stored with 6.5, leaves it
    with 7.2. *)
Lemma exchangeRate_defaults_to_7_2_witness :
  exists w1 saved w2 updated,
    validateAndSaveAccount demo_host unit
      (getInstance demo_site demo_host unit no_analysis)
      (with_exchangeRate "abc" (api_key_params " ")) rated_world
    = (Return {| asr_success := true;
                 accountId := Some "account_1700000000000_k3j9x2m1q";
                 asr_error := None |}, w1)
    /\ accounts_of demo_host w1 = [rated_account; saved]
    /\ exchange_rate saved = 7.2%float
    /\ validateAndUpdateAccount demo_host unit
         (getInstance demo_site demo_host unit no_analysis)
         "account_1" (with_exchangeRate "abc" (api_key_params " ")) rated_world
       = (Return {| asr_success := true; accountId := Some "account_1";
                    asr_error := None |}, w2)
    /\ lookup_account "account_1" (accounts_of demo_host w2) = Some updated
    /\ exchange_rate rated_account = 6.5%float
    /\ exchange_rate updated = 7.2%float.
Proof.
  pose proof (exchangeRate_defaults_to_7_2 demo_host unit
                (getInstance demo_site demo_host unit no_analysis)
                (with_exchangeRate "abc" (api_key_params " ")) rated_world)
    as H.
  cbv zeta in H. destruct H as (_ & _ & _ & _ & _ & _ & Hok & _).
  edestruct Hok as [Hsave Hupdate].
  - vm_compute. discriminate.
  - vm_compute. discriminate.
  - exists "one-api", [],
      (OneApiAdapter_adapter demo_site demo_host unit no_analysis).
    eexists _, _, _, _, _.
    split; [reflexivity |]. split; [reflexivity |]. split; [reflexivity |].
    split; [vm_compute; reflexivity |]. split; [reflexivity |].
    split; [vm_compute; discriminate |]. vm_compute. reflexivity.
  - vm_compute. reflexivity.
  - destruct Hsave as (w1 & saved & Hrun1 & _ & Hstored1 & _ & Hrate1).
    destruct (Hupdate "account_1" rated_account) as
      (w2 & updated & Hrun2 & _ & Hstored2 & Hrate2 & _);
      [discriminate | reflexivity |].
    exists w1, saved, w2, updated.
    split; [exact Hrun1 |]. split; [exact Hstored1 |].
    split; [rewrite Hrate1; vm_compute; reflexivity |].
    split; [exact Hrun2 |]. split; [exact Hstored2 |].
    split; [reflexivity |]. rewrite Hrate2. vm_compute. reflexivity.
Defined.

(** Detection on a Cubence URL with the site type left to ["auto"]: the
    probe of the One API adapter fails, the Cubence adapter knows the host,
    and the data come back tagged with ["cubence"]. *)
Lemma autoDetectAccount_on_cubence :
  AccountManager_autoDetectAccount unit no_analysis
    (getInstance demo_site demo_host unit no_analysis)
    " https://cubence.com/ " (Some "auto") []
  = (Return {| avr_success := true;
               avr_data := Some {| va_username := "bob"; va_accessToken := "";
                                   va_userId := ""; va_exchangeRate := None;
                                   siteType := Some "cubence" |};
               avr_error := None; avr_detailedError := None |},
     [Fetch "https://cubence.com/api/status"
        {| method := "GET"; user_headers := None; authorization := None;
           credentials := omit |};
      Fetch "https://cubence.com/api/v1/dashboard/overview"
        {| method := "GET"; user_headers := None; authorization := None;
           credentials := include |}]).
Proof. vm_compute. reflexivity. Qed.

(** The same detection, read off the theorem: the site type settled on is
    ["cubence"], the Cubence adapter is asked, and its data come back with
    the user name it found and [siteType] set to ["cubence"]. *)
Lemma autoDetectAccount_never_throws_witness :
  exists result h',
    AccountManager_autoDetectAccount unit no_analysis
      (getInstance demo_site demo_host unit no_analysis)
      " https://cubence.com/ " (Some "auto") []
    = (Return result, h')
    /\ avr_success unit result = true
    /\ avr_error unit result = None
    /\ exists v,
         avr_data unit result = Some v
         /\ siteType v = Some "cubence"
         /\ va_username v = "bob"
         /\ va_accessToken v = "" /\ va_userId v = ""
         /\ va_exchangeRate v = None.
Proof.
  destruct (autoDetectAccount_never_throws unit no_analysis
              (getInstance demo_site demo_host unit no_analysis)
              " https://cubence.com/ " (Some "auto") [])
    as (result & h' & Hrun & _ & Hres).
  exists result, h'. split; [exact Hrun |].
  destruct Hres as (resolved & h1 & Hhow & Hfound); [vm_compute; discriminate |].
  vm_compute in Hhow. destruct Hhow as (detected & Hdet & ->).
  injection Hdet as <- <-.
  vm_compute in Hfound.
  destruct Hfound as (_ & Hsuccess & Herror & v & Hdata & Htype & Hname & Htoken
                      & Huser & Hrate).
  split; [exact Hsuccess |]. split; [exact Herror |].
  exists v. by repeat split.
Defined.

(** An explicit site type that no adapter serves is answered without a
    request. *)
Lemma autoDetectAccount_unknown_site_type :
  AccountManager_autoDetectAccount unit no_analysis
    (getInstance demo_site demo_host unit no_analysis)
    "https://api.example" (Some "nope") []
  = (Return {| avr_success := false; avr_data := None;
               avr_error := Some "不支持的站点类型: nope";
               avr_detailedError := None |}, []).
Proof. vm_compute. reflexivity. Qed.

(** A Cubence site whose overview carries both balance fields, at odds. *)
Definition both_fields_site : Server :=
  {| api_user_self := api_user_self demo_site;
     api_user_token := api_user_token demo_site;
     api_log_self := api_log_self demo_site;
     api_status := api_status demo_site;
     cubence_overview := fun _ _ _ =>
       Response 200
         (Return (Some {| co_success := true;
                          co_data := Some
                            {| co_user := Some {| cu_username := Some "bob" |};
                               co_balance := Some
                                 {| total_balance := Some 2500000%float;
                                    total_balance_dollar := Some 9%float |} |} |}));
     cubence_analytics_today := cubence_analytics_today demo_site;
     page_overview := page_overview demo_site;
     page_analytics_today := page_analytics_today demo_site;
     page_auto_detect := page_auto_detect demo_site |}.

(** The integer field wins, and 2,500,000 micro-USD are 2.5 USD. *)
Lemma CubenceAdapter_getAccountBalance_both_fields :
  CubenceAdapter_getAccountBalance both_fields_site demo_host cookie_credentials []
  = (Return {| rawBalance := 2500000; bal_rawUnit := "micro_usd";
               bal_conversionFactor := Some 1000000%float;
               balanceUSD := Some 2.5%float |},
     [Fetch "https://cubence.com/api/v1/dashboard/overview"
        {| method := "GET"; user_headers := None; authorization := None;
           credentials := include |}]).
Proof. vm_compute. reflexivity. Qed.

(** ** Concrete runs for the further properties *)

(** [twice_listed] is refused for its second site type and stays
    registered all the same. *)
Lemma registerAdapter_conflict_leaves_adapter_listed_witness :
  exists message registry',
    registerAdapter twice_listed new_registry
    = (Throw (AdapterRegistrationError message), registry')
    /\ getAllAdapters unit registry' = [twice_listed]
    /\ getAdapter registry' "x" = Some twice_listed.
Proof.
  destruct (registerAdapter_conflict_leaves_adapter_listed unit no_analysis
              twice_listed new_registry)
    as (message & registry' & Hrun & Hall & _ & Hfirst).
  - discriminate.
  - intros (cap & Hin & _). simpl in Hin. by apply elem_of_nil in Hin.
  - discriminate.
  - right. unfold site_type_repeated.
    refine (bool_decide_unpack (~ NoDup _) _). vm_compute. exact I.
  - exists message, registry'. split; [exact Hrun |]. split; [exact Hall |].
    apply (Hfirst "x" ["X"]); reflexivity.
Defined.

(** A site whose log serves its first page and then goes away. *)
Definition flaky_site : Server :=
  {| api_user_self := api_user_self demo_site;
     api_user_token := api_user_token demo_site;
     api_log_self := fun h _ _ =>
       if (length h <? 1)%nat then succeed (page_of 100) else Rejected network_down;
     api_status := api_status demo_site;
     cubence_overview := cubence_overview demo_site;
     cubence_analytics_today := cubence_analytics_today demo_site;
     page_overview := page_overview demo_site;
     page_analytics_today := page_analytics_today demo_site;
     page_auto_detect := page_auto_detect demo_site |}.

(** On [flaky_site] the second page fails and so does the call. *)
Lemma fetchTodayUsage_fails_with_its_page_witness :
  fetchTodayUsage flaky_site demo_host "https://api.example" 7 "tok" []
  = (Throw network_down,
     [log_request demo_host "https://api.example" 7 "tok" 1;
      log_request demo_host "https://api.example" 7 "tok" 2]).
Proof.
  apply (fetchTodayUsage_fails_with_its_page flaky_site demo_host
           "https://api.example" 7%float "tok" [] [page_of 100] network_down).
  - intros [| i] d Hd; simpl in Hd; [| discriminate].
    injection Hd as <-. eexists _, _. split; reflexivity.
  - simpl. lia.
  - intros [| i] d Hd; simpl in Hd; [| discriminate].
    injection Hd as <-. vm_compute. reflexivity.
  - reflexivity.
Defined.

Definition demo_new_account : NewAccount :=
  {| new_emoji := ""; new_site_name := "Second"; new_site_url := "https://two.example";
     new_site_type := None; new_adapter_config := None;
     new_health_status := healthy; new_exchange_rate := 7.2%float;
     new_account_info := account_info demo_account;
     new_last_sync_time := 1700000000000 |}.

(** Adding to [demo_world] and deleting again leaves [demo_account]. *)
Lemma addAccount_then_deleteAccount_witness :
  exists w1 w2,
    addAccount demo_host demo_new_account demo_world
    = (Return "account_1700000000000_k3j9x2m1q", w1)
    /\ deleteAccount demo_host "account_1700000000000_k3j9x2m1q" w1
       = (Return true, w2)
    /\ accounts_of demo_host w2 = [demo_account].
Proof.
  destruct (addAccount_then_deleteAccount demo_host demo_new_account demo_world)
    as (w1 & w2 & Hadd & Hdel & Hsame & _).
  - reflexivity.
  - exists w1, w2. split; [exact Hadd |]. split; [exact Hdel |].
    rewrite Hsame. reflexivity.
Defined.

(** On [demo_site] the refresh of [demo_account] succeeds: the quota read
    is 1,000,000. *)
Lemma refreshAccount_success_witness :
  exists w' account',
    refreshAccount demo_host unit
      (getInstance demo_site demo_host unit no_analysis) "account_1" demo_world
    = (Return true, w')
    /\ getAccountById demo_host "account_1" w' = (Return (Some account'), w')
    /\ ai_quota (account_info account') = 1000000%float
    /\ health_status account' = healthy.
Proof.
  edestruct (refreshAccount_success demo_host unit
               (getInstance demo_site demo_host unit no_analysis)
               "account_1" demo_world demo_account
               (OneApiAdapter_adapter demo_site demo_host unit no_analysis))
    as (w' & Hrun & _ & Hget & _).
  - reflexivity.
  - reflexivity.
  - reflexivity.
  - vm_compute. reflexivity.
  - exists w'. eexists. split; [exact Hrun |]. split; [exact Hget |].
    split; reflexivity.
Defined.

(** [demo_account] stored with an API key instead of a token. *)
Definition api_key_account : SiteAccount :=
  {| sa_id := "account_2"; emoji := ""; site_name := "Keyed";
     site_url := "https://api.example"; site_type := Some "new-api";
     adapter_config := Some []; health_status := healthy;
     exchange_rate := 7.2%float;
     account_info :=
       {| ai_id := None; ai_access_token := None;
          ai_api_key := Some "sk-1"; ai_username := Some "alice";
          ai_quota := 500; ai_today_prompt_tokens := 0;
          ai_today_completion_tokens := 0;
          ai_today_quota_consumption := 0; ai_today_requests_count := 0 |};
     last_sync_time := 1699990000000; updated_at := 1699990000000;
     created_at := 1690000000000 |}.

Definition keyed_world : World :=
  {| sent := [];
     stored := Some {| accounts := [demo_account; api_key_account];
                       last_updated := 1699990000000 |} |}.

(** The refresh of [api_key_account] fails before any request, even on
    [demo_site]. *)
Lemma refreshAccount_api_key_account_witness :
  exists w' account',
    refreshAccount demo_host unit
      (getInstance demo_site demo_host unit no_analysis) "account_2" keyed_world
    = (Return false, w')
    /\ sent w' = []
    /\ getAccountById demo_host "account_2" w' = (Return (Some account'), w')
    /\ health_status account' = unknown
    /\ ai_quota (account_info account') = 500%float.
Proof.
  destruct (refreshAccount_api_key_account demo_site demo_host unit no_analysis
              "account_2" keyed_world api_key_account "sk-1")
    as (w' & Hrun & Hsent & Hget).
  - reflexivity.
  - refine (bool_decide_unpack _ _). vm_compute. exact I.
  - reflexivity.
  - discriminate.
  - exists w'. eexists. split; [exact Hrun |]. split; [exact Hsent |].
    split; [exact Hget |]. split; reflexivity.
Defined.

(** The form of a One API site without API key and without token. *)
Definition tokenless_params : ValidateAndSaveParams :=
  {| param_siteType := Some "one-api"; param_url := "https://api.example";
     param_siteName := "Demo"; param_username := "alice";
     param_accessToken := None; param_userId := Some "7";
     param_apiKey := Some " "; param_exchangeRate := "7.2" |}.

Lemma save_requires_token_and_numeric_user_id_witness :
  validateAndSaveAccount demo_host unit
    (getInstance demo_site demo_host unit no_analysis) tokenless_params empty_world
  = (Return (save_failure "保存失败: 请填写访问令牌与用户 ID"), empty_world).
Proof.
  destruct (save_requires_token_and_numeric_user_id demo_host unit
              (getInstance demo_site demo_host unit no_analysis)
              tokenless_params empty_world "one-api" []
              (OneApiAdapter_adapter demo_site demo_host unit no_analysis))
    as [Hmissing _].
  - vm_compute. discriminate.
  - vm_compute. discriminate.
  - vm_compute. reflexivity.
  - reflexivity.
  - discriminate.
  - reflexivity.
  - destruct Hmissing as [Hsave _]; [by left |]. exact Hsave.
Defined.

